(** * xMapxIntake: a shallow embedding of [xMapxIntake.py]

    The development follows the source file top to bottom:
    - [Py]: the Python values and the [str] methods the script calls;
    - [PosixPath]: [os.path.join] and [os.path.splitext];
    - [Run]: a state-and-exception monad over an abstract operating system,
      with the trace of the calls the script issues;
    - the functions of the script, under their own names;
    - the properties of the script.

    Conventions.  A Python [str] is a [string] whose characters are the code
    points below 256 (Latin-1): [str.lower], [str.isdigit] and [str.strip]
    are given on that range as CPython defines them.  Spreadsheet cells and
    database fields are strings, integers or [None]; floating-point cells
    (the [NaN] pandas uses for an empty cell) are outside the model.  Paths
    follow [posixpath]. *)

From Stdlib Require Import ZArith NArith Ascii String.
From stdpp Require Import base decidable option list countable strings gmap pretty.

Local Open Scope Z_scope.

(** ** Python values and [str] methods *)

Module Py.

(** The control characters the script writes. *)
Definition TAB : string := String "009"%char "".
Definition LF : string := String "010"%char "".
Definition CR : string := String "013"%char "".

Definition code (c : ascii) : N := N_of_ascii c.

Definition between (lo hi n : N) : bool := ((lo <=? n) && (n <=? hi))%N.

(** [str.isspace] on one character: TAB..CR, FS..US, space, NEL, NBSP. *)
Definition char_isspace (c : ascii) : bool :=
  let n := code c in
  between 9 13 n || between 28 32 n || (n =? 133)%N || (n =? 160)%N.

(** [str.isdigit] on one character: the decimal digits and the superscript
    digits of Latin-1 (U+00B2, U+00B3, U+00B9). *)
Definition char_isdigit (c : ascii) : bool :=
  let n := code c in
  between 48 57 n || (n =? 178)%N || (n =? 179)%N || (n =? 185)%N.

(** The characters ["0"] .. ["9"]. *)
Definition char_isdecimal (c : ascii) : bool := between 48 57 (code c).

(** [str.lower] on one character: A..Z and the Latin-1 capitals
    U+00C0..U+00DE (the multiplication sign U+00D7 excepted). *)
Definition char_lower (c : ascii) : ascii :=
  let n := code c in
  if between 65 90 n || (between 192 222 n && negb (n =? 215)%N)
  then ascii_of_N (n + 32) else c.

Fixpoint smap (f : ascii → ascii) (s : string) : string :=
  match s with
  | EmptyString => EmptyString
  | String c s' => String (f c) (smap f s')
  end.

Fixpoint sforallb (p : ascii → bool) (s : string) : bool :=
  match s with
  | EmptyString => true
  | String c s' => p c && sforallb p s'
  end.

Fixpoint sexistsb (p : ascii → bool) (s : string) : bool :=
  match s with
  | EmptyString => false
  | String c s' => p c || sexistsb p s'
  end.

(** [s.lower()] *)
Definition lower (s : string) : string := smap char_lower s.

(** [s.isdigit()]: false on the empty string. *)
Definition isdigit (s : string) : bool :=
  match s with
  | EmptyString => false
  | _ => sforallb char_isdigit s
  end.

(** [s.startswith(p)] *)
Fixpoint startswith (s p : string) : bool :=
  match p, s with
  | EmptyString, _ => true
  | String a p', String b s' => bool_decide (a = b) && startswith s' p'
  | String _ _, EmptyString => false
  end.

(** [s.endswith(p)] *)
Definition endswith (s p : string) : bool :=
  startswith (String.rev s) (String.rev p).

(** [sub in s] *)
Fixpoint contains (sub s : string) : bool :=
  startswith s sub ||
  match s with
  | EmptyString => false
  | String _ s' => contains sub s'
  end.

(** [s.lstrip()], [s.rstrip()], [s.strip()] *)
Fixpoint lstrip (s : string) : string :=
  match s with
  | String c s' => if char_isspace c then lstrip s' else s
  | EmptyString => EmptyString
  end.
Definition rstrip (s : string) : string := String.rev (lstrip (String.rev s)).
Definition strip (s : string) : string := rstrip (lstrip s).

(** [s.split(sep)] for a one-character separator: the fields between the
    separators, always at least one field. *)
Fixpoint split (sep : ascii) (s : string) : list string :=
  match s with
  | EmptyString => [EmptyString]
  | String c s' =>
      if bool_decide (c = sep) then EmptyString :: split sep s'
      else match split sep s' with
           | f :: fs => String c f :: fs
           | [] => [String c EmptyString]
           end
  end.

(** [s.replace(old, new)] for one-character [old] and [new]. *)
Definition replace (old new : ascii) (s : string) : string :=
  smap (λ c, if bool_decide (c = old) then new else c) s.

(** [s.rfind(c)] for one character: the last index holding [c], or -1. *)
Fixpoint rfind_from (c : ascii) (s : string) (i : Z) (last : Z) : Z :=
  match s with
  | EmptyString => last
  | String a s' => rfind_from c s' (i + 1) (if bool_decide (a = c) then i else last)
  end.
Definition rfind (c : ascii) (s : string) : Z := rfind_from c s 0 (-1).

(** Slices [s[:i]], [s[i:]] and [s[i:j]] for indices within the string. *)
Fixpoint sdrop (n : nat) (s : string) : string :=
  match n, s with
  | O, _ => s
  | S n', String _ s' => sdrop n' s'
  | S _, EmptyString => EmptyString
  end.
Fixpoint stake (n : nat) (s : string) : string :=
  match n, s with
  | O, _ => EmptyString
  | S n', String c s' => String c (stake n' s')
  | S _, EmptyString => EmptyString
  end.
Definition slice (i j : Z) (s : string) : string :=
  stake (Z.to_nat (j - i)) (sdrop (Z.to_nat i) s).

(** The values the script handles: [None], an [int], a [str]. *)
Inductive value :=
| VNone
| VInt (z : Z)
| VStr (s : string).

Global Instance value_eq_dec : EqDecision value.
Proof. solve_decision. Defined.

Global Instance value_countable : Countable value.
Proof.
  refine (inj_countable'
    (λ v, match v with
          | VNone => inl ()
          | VInt z => inr (inl z)
          | VStr s => inr (inr s)
          end)
    (λ x, match x with
          | inl () => VNone
          | inr (inl z) => VInt z
          | inr (inr s) => VStr s
          end) _).
  by intros [].
Defined.

(** Truth value of an object in an [if]. *)
Definition truthy (v : value) : bool :=
  match v with
  | VNone => false
  | VInt z => negb (z =? 0)
  | VStr s => negb (bool_decide (s = ""))
  end.

(** [x in l] and [l.index(x)] on a list of values. *)
Definition py_in (x : value) (l : list value) : bool :=
  existsb (λ y, bool_decide (y = x)) l.

Fixpoint index (x : value) (l : list value) : option nat :=
  match l with
  | [] => None
  | y :: l' => if bool_decide (y = x) then Some O else S <$> index x l'
  end.

(** [f"{n}"] for a non-negative integer. *)
Definition fmt_nat (n : nat) : string := pretty n.

End Py.

(** ** [posixpath] *)

Module PosixPath.
Import Py.

(** [os.path.join(a, b)] *)
Definition join (a b : string) : string :=
  if startswith b "/" then b
  else if bool_decide (a = "") || endswith a "/" then a +:+ b
  else a +:+ "/" +:+ b.

(** [os.path.splitext(p)]: the extension starts at the last dot of the last
    component, unless only dots precede it in that component. *)
Definition splitext (p : string) : string * string :=
  let sepIndex := rfind "/" p in
  let dotIndex := rfind "." p in
  if (sepIndex <? dotIndex) &&
     sexistsb (λ c, negb (bool_decide (c = "."%char))) (slice (sepIndex + 1) dotIndex p)
  then (stake (Z.to_nat dotIndex) p, sdrop (Z.to_nat dotIndex) p)
  else (p, "").

End PosixPath.

(** ** Data read by the script *)

(** A [pandas.DataFrame]: the header row and the data rows, every row holding
    one cell per column.  Headers are taken to be pairwise distinct. *)
Record DataFrame := {
  columns : list string;
  rows : list (list Py.value);
}.

(** A record of [dbo.MASTER]: the four columns the query reads.  A defendant
    column is [NULL] ([None]) or text. *)
Record master_row := {
  FileNo : Py.value;
  DEFENDANT_1 : option string;
  DEFENDANT_2 : option string;
  DEFENDANT_3 : option string;
}.

(** ** Effects: exceptions, the calls issued, the operating system *)

Inductive exn :=
| KeyError (key : string)
| AttributeError (attr : string)
| OSError (msg : string)
| DatabaseError (msg : string).

Inductive outcome (A : Type) :=
| Ok (a : A)
| Raise (e : exn).
Arguments Ok {A} a.
Arguments Raise {A} e.

Global Instance exn_eq_dec : EqDecision exn.
Proof. solve_decision. Defined.

Global Instance outcome_eq_dec {A} `{EqDecision A} : EqDecision (outcome A).
Proof. solve_decision. Defined.

(** The calls that reach outside the interpreter, in the order issued. *)
Inductive event :=
| EPrint (line : string)
| EOpenW (path : string)
| EWrite (path data : string)
| EListdir (path : string)
| EMakedirs (path : string)
| EMove (src dst : string)
| EReadExcel (path : string)
| EQuery.

Global Instance event_eq_dec : EqDecision event.
Proof. solve_decision. Defined.

(** What the script asks of its environment.  [W] is the state of the world
    (file system, workbook files, database); nothing is assumed of it. *)
Class OS (W : Type) := {
  os_listdir : string → W → outcome (list string);
  os_path_exists : string → W → bool;
  os_path_isfile : string → W → bool;
  os_makedirs : string → W → outcome W;
  shutil_move : string → string → W → outcome W;
  open_w : string → W → outcome W;
  file_write : string → string → W → outcome W;
  pd_read_excel : string → W → outcome DataFrame;
  fetchall_master : W → outcome (list master_row);
}.

Record state (W : Type) := State {
  world : W;
  trace : list event;
}.
Arguments State {W} world trace.
Arguments world {W} s.
Arguments trace {W} s.

Module Run.

Definition M (W A : Type) : Type := state W → outcome A * state W.

Definition ret {W A} (a : A) : M W A := λ st, (Ok a, st).

Definition bind {W A B} (m : M W A) (k : A → M W B) : M W B :=
  λ st, match m st with
        | (Ok a, st') => k a st'
        | (Raise e, st') => (Raise e, st')
        end.

Definition raise {W A} (e : exn) : M W A := λ st, (Raise e, st).

Definition logged {W} (ev : event) (st : state W) : state W :=
  State (world st) (trace st ++ [ev]).

(** A call that changes the world; it is recorded also when it raises. *)
Definition call {W} (ev : event) (op : W → outcome W) : M W unit :=
  λ st, match op (world st) with
        | Ok w' => (Ok (), State w' (trace st ++ [ev]))
        | Raise e => (Raise e, logged ev st)
        end.

(** A call that returns a value read from the world. *)
Definition read {W A} (ev : event) (op : W → outcome A) : M W A :=
  λ st, match op (world st) with
        | Ok a => (Ok a, logged ev st)
        | Raise e => (Raise e, logged ev st)
        end.

(** A test on the world. *)
Definition ask {W A} (q : W → A) : M W A := λ st, (Ok (q (world st)), st).

Definition lift {W A} (o : outcome A) : M W A := λ st, (o, st).

(** [for x in xs: body(x)] *)
Fixpoint for_ {W A} (xs : list A) (body : A → M W unit) : M W unit :=
  match xs with
  | [] => ret ()
  | x :: xs' => bind (body x) (λ _, for_ xs' body)
  end.

(** a [for] loop that updates local variables [acc] *)
Fixpoint for_acc {W A S} (xs : list A) (body : S → A → M W S) (acc : S) : M W S :=
  match xs with
  | [] => ret acc
  | x :: xs' => bind (body acc x) (for_acc xs' body)
  end.

End Run.

Global Instance M_ret {W} : MRet (Run.M W) := λ A a, Run.ret a.
Global Instance M_bind {W} : MBind (Run.M W) := λ A B k m, Run.bind m k.

(** ** The script *)

Section Script.
Context {W : Type} `{OS W}.
Import Py PosixPath Run.

Definition print (line : string) : M W unit :=
  λ st, (Ok (), logged (EPrint line) st).

(** *** General utilities *)

Definition ensure_folder_exists (folder_path : string) : M W unit :=
  present ← ask (os_path_exists folder_path);
  if negb present then call (EMakedirs folder_path) (os_makedirs folder_path)
  else ret ().

(** *** XJMTR processing for judgment PDFs *)

(** [filename.split('_')[0]] *)
Definition first_field (s : string) : string := default "" (head (split "_" s)).

Definition xjmtr_header : string := "FILENO" +:+ TAB +:+ "LLCODE" +:+ LF.
Definition xjmtr_line (fileno : string) : string := fileno +:+ TAB +:+ "XJMTR" +:+ LF.
Definition xjmtr_message (fileno : string) : string :=
  "Added to xjmtr.txt: " +:+ fileno +:+ TAB +:+ "XJMTR".

(** The body of the loop of [process_xjmtr]. *)
Definition xjmtr_entry (xjmtr_file_path filename : string) : M W unit :=
  if endswith (lower filename) ".pdf" && contains "judgment" (lower filename) then
    let fileno := first_field filename in
    if isdigit fileno then
      call (EWrite xjmtr_file_path (xjmtr_line fileno))
           (file_write xjmtr_file_path (xjmtr_line fileno));;
      print (xjmtr_message fileno)
    else ret ()
  else ret ().

Definition process_xjmtr (src_dir xjmtr_file_path : string) : M W unit :=
  call (EOpenW xjmtr_file_path) (open_w xjmtr_file_path);;
  call (EWrite xjmtr_file_path xjmtr_header) (file_write xjmtr_file_path xjmtr_header);;
  names ← read (EListdir src_dir) (os_listdir src_dir);
  for_ names (xjmtr_entry xjmtr_file_path).

(** *** Database connection and query *)

(** [LTRIM(RTRIM(x))] of the database: the space character is removed at
    both ends; [NULL] stays [NULL]. *)
Fixpoint sql_ltrim (s : string) : string :=
  match s with
  | String " " s' => sql_ltrim s'
  | _ => s
  end.
Definition sql_rtrim (s : string) : string := String.rev (sql_ltrim (String.rev s)).
Definition sql_trimmed (d : option string) : value :=
  match d with
  | None => VNone
  | Some s => VStr (sql_ltrim (sql_rtrim s))
  end.

(** The result set of the [SELECT] in [fetch_defendants]: the records with a
    defendant, in the order the database yields them, names trimmed. *)
Definition select_defendants (tbl : list master_row) : list (value * value * value * value) :=
  (λ r, (FileNo r, sql_trimmed (DEFENDANT_1 r), sql_trimmed (DEFENDANT_2 r),
         sql_trimmed (DEFENDANT_3 r)))
  <$> filter (λ r, is_Some (DEFENDANT_1 r) ∨ is_Some (DEFENDANT_2 r) ∨ is_Some (DEFENDANT_3 r)) tbl.

Definition no_match : value * value * value * value := (VNone, VNone, VNone, VNone).

(** The [for row in cursor.fetchall()] loop with its early [return]. *)
Fixpoint scan_rows (person_served : value) (results : list (value * value * value * value))
  : value * value * value * value :=
  match results with
  | [] => no_match
  | (file_no, d1, d2, d3) :: rest =>
      if py_in person_served [d1; d2; d3] then (file_no, d1, d2, d3)
      else scan_rows person_served rest
  end.

Definition fetch_defendants (person_served : value) : M W (value * value * value * value) :=
  tbl ← read EQuery fetchall_master;
  ret (scan_rows person_served (select_defendants tbl)).

(** *** Excel file processing *)

(** [f"XSNG{[d1, d2, d3].index(person_served) + 1}" if person_served in [d1, d2, d3] else None] *)
Definition slot_code (prefix : string) (person_served d1 d2 d3 : value) : value :=
  if py_in person_served [d1; d2; d3] then
    match index person_served [d1; d2; d3] with
    | Some i => VStr (prefix +:+ fmt_nat (i + 1))
    | None => VNone
    end
  else VNone.

Definition determine_llcode (service_type person_served d1 d2 d3 : value) : value :=
  if bool_decide (service_type = VStr "N") then slot_code "XSNG" person_served d1 d2 d3
  else if bool_decide (service_type = VStr "S") then slot_code "XSUBS" person_served d1 d2 d3
  else if bool_decide (service_type = VStr "P") then slot_code "XPS" person_served d1 d2 d3
  else VNone.

(** Position of a label among the column labels. *)
Fixpoint label_index (key : string) (labels : list string) : option nat :=
  match labels with
  | [] => None
  | l :: labels' => if bool_decide (l = key) then Some O else S <$> label_index key labels'
  end.

(** [row[key]] *)
Definition getitem (labels : list string) (row : list value) (key : string) : outcome value :=
  match label_index key labels with
  | Some i => match row !! i with Some v => Ok v | None => Raise (KeyError key) end
  | None => Raise (KeyError key)
  end.

(** [row.get(key, dflt)] *)
Definition get (labels : list string) (row : list value) (key : string) (dflt : value) : value :=
  match label_index key labels with
  | Some i => default dflt (row !! i)
  | None => dflt
  end.

(** [notes.replace('\n', ' ').replace('\r', ' ')] *)
Definition clean_notes (notes : value) : outcome value :=
  match notes with
  | VStr s => Ok (VStr (replace "013" " " (replace "010" " " s)))
  | _ => Raise (AttributeError "replace")
  end.

(** The local variables the loop of [process_excel_file] updates. *)
Record locals := Locals {
  output_data_1 : list (list value);
  output_data_2 : list (list value);
  processed_pairs : gset (value * value);
}.

Definition excel_row (labels : list string) (acc : locals) (row : list value) : M W locals :=
  file_no ← lift (getitem labels row "FileNo");
  person_served ← lift (getitem labels row "Person Served");
  service_type ← lift (getitem labels row "Service Type");
  date_of_service ← lift (getitem labels row "Date of Service");
  address ← lift (getitem labels row "Service Street Address");
  let notes := get labels row "Note" (VStr "") in
  if bool_decide ((file_no, person_served) ∈ processed_pairs acc) then ret acc
  else
    '(matched_file_no, d1, d2, d3) ← fetch_defendants person_served;
    if truthy matched_file_no then
      let llcode := determine_llcode service_type person_served d1 d2 d3 in
      if truthy llcode then
        let out1 := output_data_1 acc ++
          [[file_no; llcode; person_served; date_of_service; address; service_type]] in
        cleaned_notes ← lift (clean_notes notes);
        let out2 := output_data_2 acc ++
          [[VInt 109; VStr "D"; file_no; VStr "XNSRV"; VStr "MWC"; cleaned_notes; VStr "#"]] in
        ret (Locals out1 out2 ({[ (file_no, person_served) ]} ∪ processed_pairs acc))
      else ret acc
    else ret acc.

(** [df[df['Document Category'] == 'Summons and Complaint']] *)
Definition summons_rows (labels : list string) (data : list (list value)) : list (list value) :=
  filter (λ row, get labels row "Document Category" VNone = VStr "Summons and Complaint") data.

Definition process_excel_file (input_excel_path : string)
  : M W (list (list value) * list (list value)) :=
  df ← read (EReadExcel input_excel_path) (pd_read_excel input_excel_path);
  let labels := strip <$> columns df in
  if negb (bool_decide ("Document Category" ∈ labels)) then
    print ("'Document Category' column missing in " +:+ input_excel_path);;
    ret ([], [])
  else
    let filtered_df := summons_rows labels (rows df) in
    acc ← for_acc filtered_df (excel_row labels) (Locals [] [] ∅);
    ret (output_data_1 acc, output_data_2 acc).

(** *** File movement and grouping *)

(** [name.split('_')[1] if len(name.split('_')) > 1 else 'Unknown'] *)
Definition pdf_folder_name (name : string) : string :=
  match split "_" name with
  | _ :: second :: _ => second
  | _ => "Unknown"
  end.

Definition route (src_dir data_folder documents_folder filename : string) : M W unit :=
  let file_path := join src_dir filename in
  regular ← ask (os_path_isfile file_path);
  if (regular : bool) then
    let name := (splitext filename).1 in
    let ext := (splitext filename).2 in
    if bool_decide (lower ext ∈ [".xlsx"; ".xls"; ".csv"]) then
      let folder_name := first_field name in
      let subfolder := join data_folder folder_name in
      ensure_folder_exists subfolder;;
      call (EMove file_path (join subfolder filename))
           (shutil_move file_path (join subfolder filename))
    else if bool_decide (lower ext = ".pdf") then
      let folder_name := pdf_folder_name name in
      let subfolder := join documents_folder folder_name in
      ensure_folder_exists subfolder;;
      let new_filename := replace "_" " " filename in
      call (EMove file_path (join subfolder new_filename))
           (shutil_move file_path (join subfolder new_filename))
    else ret ()
  else ret ().

Definition move_files (src_dir data_folder documents_folder xjmtr_file_path : string)
  : M W unit :=
  process_xjmtr src_dir xjmtr_file_path;;
  names ← read (EListdir src_dir) (os_listdir src_dir);
  for_ names (route src_dir data_folder documents_folder).

End Script.

(** ** An in-memory environment, to run the script on concrete inputs *)

Module Fake.

Record fake := Fake {
  listing : list string;          (* what [os.listdir] returns *)
  files : gset string;            (* the paths of the regular files *)
  folders : gset string;          (* the paths of the directories *)
  workbook : DataFrame;           (* what [pd.read_excel] returns *)
  master : list master_row;       (* the records of [dbo.MASTER] *)
}.

Definition with_files (w : fake) (fs : gset string) : fake :=
  Fake (listing w) fs (folders w) (workbook w) (master w).
Definition with_folders (w : fake) (ds : gset string) : fake :=
  Fake (listing w) (files w) ds (workbook w) (master w).

Global Instance fake_os : OS fake := {|
  os_listdir _ w := Ok (listing w);
  os_path_exists p w := bool_decide (p ∈ files w ∪ folders w);
  os_path_isfile p w := bool_decide (p ∈ files w);
  os_makedirs p w := Ok (with_folders w ({[ p ]} ∪ folders w));
  shutil_move s d w :=
    if bool_decide (s ∈ files w) then Ok (with_files w ({[ d ]} ∪ files w ∖ {[ s ]}))
    else Raise (OSError "No such file or directory");
  open_w p w := Ok (with_files w ({[ p ]} ∪ files w));
  file_write _ _ w := Ok w;
  pd_read_excel _ w := Ok (workbook w);
  fetchall_master w := Ok (master w);
|}.

Definition no_workbook : DataFrame := {| columns := []; rows := [] |}.

(** A directory [src] holding the given regular files. *)
Definition directory (src : string) (names : list string) : state fake :=
  State (Fake names (list_to_set (PosixPath.join src <$> names)) ∅ no_workbook []) [].

(** A workbook and a database table. *)
Definition office (df : DataFrame) (tbl : list master_row) : state fake :=
  State (Fake [] ∅ ∅ df tbl) [].

End Fake.

(** ** Vocabulary of the properties *)

Section Vocabulary.
Import Py PosixPath Run.

(** The service types with a code, and the prefix of each. *)
Definition service_prefix (service_type : value) : option string :=
  if bool_decide (service_type = VStr "N") then Some "XSNG"
  else if bool_decide (service_type = VStr "S") then Some "XSUBS"
  else if bool_decide (service_type = VStr "P") then Some "XPS"
  else None.

(** The case [fetch_defendants] returns on a given table. *)
Definition lookup (tbl : list master_row) (person_served : value)
  : value * value * value * value :=
  scan_rows person_served (select_defendants tbl).

(** A case of the result set lists the person in one of its slots. *)
Definition names_person (person_served : value) (c : value * value * value * value) : bool :=
  let '(_, d1, d2, d3) := c in py_in person_served [d1; d2; d3].

(** The cell of a data row under a column label ([None] without one). *)
Definition cell (labels : list string) (row : list value) (key : string) : value :=
  get labels row key VNone.

Definition pair_of (labels : list string) (row : list value) : value * value :=
  (cell labels row "FileNo", cell labels row "Person Served").

(** The code the loop computes for a data row. *)
Definition llcode_of (tbl : list master_row) (labels : list string) (row : list value) : value :=
  let '(_, d1, d2, d3) := lookup tbl (cell labels row "Person Served") in
  determine_llcode (cell labels row "Service Type") (cell labels row "Person Served") d1 d2 d3.

(** The two tests a row passes before it is appended to the outputs. *)
Definition accepted (tbl : list master_row) (labels : list string) (row : list value) : bool :=
  let '(matched_file_no, _, _, _) := lookup tbl (cell labels row "Person Served") in
  truthy matched_file_no && truthy (llcode_of tbl labels row).

(** The rows appended for an accepted data row. *)
Definition row1_of (tbl : list master_row) (labels : list string) (row : list value)
  : list value :=
  [cell labels row "FileNo"; llcode_of tbl labels row; cell labels row "Person Served";
   cell labels row "Date of Service"; cell labels row "Service Street Address";
   cell labels row "Service Type"].

Definition row2_of (labels : list string) (row : list value) : list value :=
  [VInt 109; VStr "D"; cell labels row "FileNo"; VStr "XNSRV"; VStr "MWC";
   match clean_notes (get labels row "Note" (VStr "")) with Ok c => c | Raise _ => VNone end;
   VStr "#"].

(** The columns the loop reads with [row[...]]. *)
Definition required : list string :=
  ["FileNo"; "Person Served"; "Service Type"; "Date of Service"; "Service Street Address"].

Definition has_fields (labels : list string) (row : list value) : Prop :=
  ∀ key, key ∈ required → getitem labels row key = Ok (cell labels row key).

(** The local variables after an accepted row. *)
Definition appended (tbl : list master_row) (labels : list string) (acc : locals)
  (row : list value) : locals :=
  Locals (output_data_1 acc ++ [row1_of tbl labels row])
         (output_data_2 acc ++ [row2_of labels row])
         ({[ pair_of labels row ]} ∪ processed_pairs acc).

(** [row] is accepted and no row before it in [data] with the same
    (case id, person served) pair is. *)
Definition first_accepted (tbl : list master_row) (labels : list string)
  (data : list (list value)) (row : list value) : Prop :=
  accepted tbl labels row = true ∧
  ∃ earlier later, data = earlier ++ row :: later ∧
    ∀ r, r ∈ earlier → pair_of labels r = pair_of labels row → accepted tbl labels r = false.

(** What holds of the local variables once the rows [seen] are processed:
    [kept] are the rows the outputs were built from. *)
Definition loop_invariant (tbl : list master_row) (labels : list string)
  (seen : list (list value)) (acc : locals) (kept : list (list value)) : Prop :=
  output_data_1 acc = row1_of tbl labels <$> kept ∧
  output_data_2 acc = row2_of labels <$> kept ∧
  processed_pairs acc = list_to_set (pair_of labels <$> kept) ∧
  NoDup (pair_of labels <$> kept) ∧
  kept `sublist_of` seen ∧
  (∀ r, r ∈ kept → first_accepted tbl labels seen r) ∧
  (∀ r, r ∈ seen → accepted tbl labels r = true → pair_of labels r ∈ pair_of labels <$> kept).

(** The part of [process_excel_file] that follows [pd.read_excel]. *)
Definition process_dataframe {W} `{OS W} (input_excel_path : string) (df : DataFrame)
  : M W (list (list value) * list (list value)) :=
  let labels := strip <$> columns df in
  if negb (bool_decide ("Document Category" ∈ labels)) then
    print ("'Document Category' column missing in " +:+ input_excel_path);;
    mret ([], [])
  else
    acc ← for_acc (summons_rows labels (rows df)) (excel_row labels) (Locals [] [] ∅);
    mret (output_data_1 acc, output_data_2 acc).

(** The test [process_xjmtr] applies to a directory entry. *)
Definition tagged (filename : string) : bool :=
  endswith (lower filename) ".pdf" && contains "judgment" (lower filename)
  && isdigit (first_field filename).

(** What [process_xjmtr] emits for one tagged entry. *)
Definition tag_events (xjmtr_file_path filename : string) : list event :=
  [EWrite xjmtr_file_path (xjmtr_line (first_field filename));
   EPrint (xjmtr_message (first_field filename))].

(** The text before the first [c], and the text after it if [c] occurs. *)
Fixpoint before (c : ascii) (s : string) : string :=
  match s with
  | EmptyString => EmptyString
  | String a s' => if bool_decide (a = c) then EmptyString else String a (before c s')
  end.
Fixpoint after (c : ascii) (s : string) : option string :=
  match s with
  | EmptyString => None
  | String a s' => if bool_decide (a = c) then Some s' else after c s'
  end.

(** The text after the first underscore, up to the next underscore or to
    the end of the name. *)
Definition second_field (name : string) : option string :=
  before "_" <$> after "_" name.

(** What [LTRIM] and [RTRIM] leave: a string value neither starts nor ends
    with the space character U+0020.  Other whitespace (a tab, a line break,
    a no-break space) may still stand at either end. *)
Definition blank_trimmed (v : value) : Prop :=
  match v with
  | VStr s => startswith s " " = false ∧ endswith s " " = false
  | _ => True
  end.

(** [n] space characters. *)
Fixpoint blanks (n : nat) : string :=
  match n with
  | O => EmptyString
  | S n' => String " " (blanks n')
  end.

(** [v] is what the query returns for the stored name: [NULL] for [NULL],
    else the stored text less some space characters at its two ends. *)
Definition space_trimmed (stored : option string) (v : value) : Prop :=
  match stored with
  | None => v = VNone
  | Some s => ∃ l t r, s = blanks l +:+ t +:+ blanks r ∧ v = VStr t
  end.

(** The digit characters of Latin-1 that are no decimal digits: the
    superscripts two, three and one. *)
Definition superscript_digit (c : ascii) : bool :=
  let n := code c in (n =? 178)%N || (n =? 179)%N || (n =? 185)%N.

(** The text after the last path separator. *)
Fixpoint last_component (p : string) : string :=
  match p with
  | EmptyString => EmptyString
  | String c p' =>
      if sexistsb (λ a, bool_decide (a = "/"%char)) p then last_component p' else p
  end.

(** A directory entry: a name without a path separator. *)
Definition entry_name (filename : string) : Prop :=
  sexistsb (λ c, bool_decide (c = "/"%char)) filename = false.

(** The extensions [route] acts on. *)
Definition routed_ext (filename : string) : Prop :=
  lower (splitext filename).2 ∈ [".xlsx"; ".xls"; ".csv"; ".pdf"].

(** Every call a computation issues satisfies [P]. *)
Definition issues {W A} (P : event → Prop) (m : M W A) : Prop :=
  ∀ st, ∃ evs, trace (m st).2 = trace st ++ evs ∧ Forall P evs.

(** An event that takes the file at [path] away or puts a file there. *)
Definition moves (path : string) (ev : event) : Prop :=
  match ev with
  | EMove src dst => src = path ∨ dst = path
  | _ => False
  end.

End Vocabulary.

(** ** The specification's wording, where it departs from the code *)

Section Wording.
Import Py PosixPath Run.

(** "Only the first (in file order)": no row before [row] in [data] has its
    (case id, person served) pair. *)
Definition first_of_pair (labels : list string) (data : list (list value))
  (row : list value) : Prop :=
  ∃ earlier later, data = earlier ++ row :: later ∧
    ∀ r, r ∈ earlier → pair_of labels r ≠ pair_of labels row.

(** Both outputs are built from rows with pairwise distinct pairs, each the
    first row of its pair. *)
Definition spec_first_row_wins (tbl : list master_row) (labels : list string)
  (data : list (list value)) (out1 out2 : list (list value)) : Prop :=
  ∃ kept,
    out1 = row1_of tbl labels <$> kept ∧
    out2 = row2_of labels <$> kept ∧
    NoDup (pair_of labels <$> kept) ∧
    ∀ r, r ∈ kept → first_of_pair labels data r.

(** "A fully numeric prefix": a text that is not empty and whose every
    character is one of 0..9. *)
Definition fully_numeric (prefix : string) : bool :=
  match prefix with
  | EmptyString => false
  | _ => sforallb char_isdecimal prefix
  end.

(** "Ends in .pdf, contains judgment, and whose substring before the first
    underscore consists entirely of decimal digits": the test on a directory
    entry as the specification words it. *)
Definition spec_tagged (filename : string) : bool :=
  endswith (lower filename) ".pdf" && contains "judgment" (lower filename)
  && fully_numeric (first_field filename).

(** The calls of [process_xjmtr] on a listing, with that test. *)
Definition spec_xjmtr_events (src_dir xjmtr_file_path : string) (names : list string)
  : list event :=
  [EOpenW xjmtr_file_path; EWrite xjmtr_file_path xjmtr_header; EListdir src_dir]
  ++ flat_map (tag_events xjmtr_file_path) (filter (λ f, spec_tagged f = true) names).

(** "Each trimmed of surrounding whitespace": a stored name with the
    whitespace at its two ends removed, as [str.strip] removes it. *)
Definition spec_trimmed (d : option string) : value :=
  match d with
  | None => VNone
  | Some s => VStr (strip s)
  end.

(** The result set with the names trimmed in that way, and the case the scan
    returns on it. *)
Definition spec_select_defendants (tbl : list master_row)
  : list (value * value * value * value) :=
  (λ r, (FileNo r, spec_trimmed (DEFENDANT_1 r), spec_trimmed (DEFENDANT_2 r),
         spec_trimmed (DEFENDANT_3 r)))
  <$> filter (λ r, is_Some (DEFENDANT_1 r) ∨ is_Some (DEFENDANT_2 r) ∨ is_Some (DEFENDANT_3 r)) tbl.

Definition spec_fetch_defendants (person_served : value) (tbl : list master_row)
  : value * value * value * value :=
  scan_rows person_served (spec_select_defendants tbl).

(** "Substring between the first and second underscore if present": there
    when the name has two underscores. *)
Definition between_underscores (name : string) : option string :=
  match after "_" name with
  | Some rest => match after "_" rest with
                 | Some _ => Some (before "_" rest)
                 | None => None
                 end
  | None => None
  end.

(** "... else the literal Unknown", and the path the file is moved to. *)
Definition spec_pdf_destination (documents_folder filename : string) : string :=
  join (join documents_folder
             (default "Unknown" (between_underscores (splitext filename).1)))
       (replace "_" " " filename).

End Wording.

(** ** Sample inputs *)

Module Demo.
Import Py.

Definition summons : value := VStr "Summons and Complaint".

(** A workbook whose headers carry stray blanks. *)
Definition headers : list string :=
  ["FileNo"; " Person Served"; "Service Type "; "Date of Service";
   "Service Street Address"; " Document Category "; "Note"].

Definition labels : list string := strip <$> headers.

Definition first_visit : list value :=
  [VInt 500; VStr "Jane Doe"; VStr "X"; VStr "2024-01-05"; VStr "1 Main St"; summons;
   VStr ("nobody home" +:+ LF +:+ "left a card")].
Definition second_visit : list value :=
  [VInt 500; VStr "Jane Doe"; VStr "N"; VStr "2024-02-09"; VStr "1 Main St"; summons;
   VStr ("served" +:+ CR +:+ LF +:+ "in person")].
Definition third_visit : list value :=
  [VInt 500; VStr "Jane Doe"; VStr "S"; VStr "2024-03-01"; VStr "1 Main St"; summons;
   VStr "left with spouse"].
Definition stranger : list value :=
  [VInt 612; VStr "Nobody Known"; VStr "N"; VStr "2024-03-02"; VStr "9 Elm St"; summons;
   VStr ""].
Definition stranger_again : list value :=
  [VInt 612; VStr "Nobody Known"; VStr "P"; VStr "2024-03-09"; VStr "9 Elm St"; summons;
   VStr "second attempt"].
Definition visits : DataFrame :=
  {| columns := headers; rows := [first_visit; second_visit; third_visit] |}.

(** The same workbook without the [Document Category] column. *)
Definition uncategorised : DataFrame :=
  {| columns := ["FileNo"; "Person Served"; "Service Type"];
     rows := [[VInt 500; VStr "Jane Doe"; VStr "N"]] |}.

(** One case, filed under 777, with padded names. *)
Definition cases : list master_row :=
  [ {| FileNo := VInt 777; DEFENDANT_1 := Some "  Jane Doe "; DEFENDANT_2 := None;
       DEFENDANT_3 := Some "John Roe" |} ].

Definition superscript_two : ascii := ascii_of_N 178.

(** A judgment whose name starts with the superscript two. *)
Definition squared_judgment : string := String superscript_two "_judgment.pdf".

(** One case, filed under 41, whose first name was stored with a tab in
    front and a space behind. *)
Definition tab_padded : list master_row :=
  [ {| FileNo := VInt 41; DEFENDANT_1 := Some (TAB +:+ "Ann Lee "); DEFENDANT_2 := None;
       DEFENDANT_3 := None |} ].

End Demo.

(** ** The dated folders and the entry point *)

(** A calendar date, as [datetime.today()] gives it. *)
Record date := Date {
  year : nat;
  month : nat;
  day : nat;
}.

(** What the entry point asks of the desktop: the clock and the folder
    dialog ([""] when the dialog is dismissed).  The Tk root window it opens
    and hides has no part in what follows and is left out. *)
Class Desktop (W : Type) := {
  datetime_today : W → date;
  askdirectory : string → W → string;
}.

Module Time.

Fixpoint zeros (n : nat) : string :=
  match n with
  | O => ""
  | S n' => String "0" (zeros n')
  end.

(** A number in decimal, padded with zeros on the left to [width]. *)
Definition padded (width n : nat) : string :=
  zeros (width - String.length (pretty n)) +:+ pretty n.

(** [d.strftime('%Y%m%d')] *)
Definition strftime_Ymd (d : date) : string :=
  padded 4 (year d) +:+ padded 2 (month d) +:+ padded 2 (day d).

End Time.

Section EntryPoint.
Context {W : Type} `{OS W} `{Desktop W}.
Import Py PosixPath Run.

Definition create_folder_structure (base_dir : string) : M W (string * string * string) :=
  today ← ask (λ w, Time.strftime_Ymd (datetime_today w));
  let root_folder := join base_dir today in
  let data_folder := join root_folder "Data" in
  let documents_folder := join root_folder "Documents" in
  for_ [root_folder; data_folder; documents_folder] ensure_folder_exists;;
  ret (root_folder, data_folder, documents_folder).

Definition select_and_process_folder : M W unit :=
  folder_path ← ask (askdirectory "Select Folder with Files");
  if negb (truthy (VStr folder_path)) then print "No folder selected."
  else
    '(root_folder, data_folder, documents_folder) ← create_folder_structure folder_path;
    let xjmtr_file_path := join root_folder "xjmtr.txt" in
    move_files folder_path data_folder documents_folder xjmtr_file_path;;
    print ("Processing complete. Files organized in: " +:+ root_folder).

End EntryPoint.

(** An in-memory desktop over the in-memory file system. *)
Module Desk.

Record desk := Desk {
  disk : Fake.fake;
  today : date;
  chosen : string;
}.

Definition on_disk (w : desk) (o : outcome Fake.fake) : outcome desk :=
  match o with
  | Ok fs => Ok (Desk fs (today w) (chosen w))
  | Raise e => Raise e
  end.

Global Instance desk_os : OS desk := {|
  os_listdir p w := os_listdir p (disk w);
  os_path_exists p w := os_path_exists p (disk w);
  os_path_isfile p w := os_path_isfile p (disk w);
  os_makedirs p w := on_disk w (os_makedirs p (disk w));
  shutil_move s d w := on_disk w (shutil_move s d (disk w));
  open_w p w := on_disk w (open_w p (disk w));
  file_write p data w := on_disk w (file_write p data (disk w));
  pd_read_excel p w := pd_read_excel p (disk w);
  fetchall_master w := fetchall_master (disk w);
|}.

Global Instance desk_desktop : Desktop desk := {|
  datetime_today w := today w;
  askdirectory _ w := chosen w;
|}.

(** The user picks [folder], which holds the given regular files, on
    7 March 2024; [""] stands for a dismissed dialog. *)
Definition session (folder : string) (names : list string) : state desk :=
  State (Desk (world (Fake.directory folder names)) (Date 2024 3 7) folder) [].

End Desk.

(** Further sample inputs. *)
Module More.
Import Py.

(** A workbook whose only row has a number for a note. *)
Definition numbered_note : list value :=
  [VInt 500; VStr "Jane Doe"; VStr "N"; VStr "2024-02-09"; VStr "1 Main St"; Demo.summons;
   VInt 42].
Definition noted : DataFrame :=
  {| columns := Demo.headers; rows := [numbered_note] |}.

(** A workbook without the [FileNo] column. *)
Definition unnumbered : DataFrame :=
  {| columns := ["Person Served"; "Service Type"; "Document Category"];
     rows := [[VStr "Jane Doe"; VStr "N"; Demo.summons]] |}.

(** Two cases naming Jane Doe; the first has no file number. *)
Definition unfiled_first : list master_row :=
  [ {| FileNo := VInt 0; DEFENDANT_1 := Some "Jane Doe"; DEFENDANT_2 := None;
       DEFENDANT_3 := None |};
    {| FileNo := VInt 777; DEFENDANT_1 := None; DEFENDANT_2 := Some "Jane Doe";
       DEFENDANT_3 := None |} ].

(** An environment whose database cannot be reached. *)
Record offline := Offline { online : Fake.fake }.

Definition still_offline (o : outcome Fake.fake) : outcome offline :=
  match o with
  | Ok fs => Ok (Offline fs)
  | Raise e => Raise e
  end.

Global Instance offline_os : OS offline := {|
  os_listdir p w := os_listdir p (online w);
  os_path_exists p w := os_path_exists p (online w);
  os_path_isfile p w := os_path_isfile p (online w);
  os_makedirs p w := still_offline (os_makedirs p (online w));
  shutil_move s d w := still_offline (shutil_move s d (online w));
  open_w p w := still_offline (open_w p (online w));
  file_write p data w := still_offline (file_write p data (online w));
  pd_read_excel p w := pd_read_excel p (online w);
  fetchall_master _ := Raise (DatabaseError "08001");
|}.

Definition unplugged (df : DataFrame) : state offline :=
  State (Offline (world (Fake.office df []))) [].

End More.

(** ** Vocabulary of the further properties *)

Section MoreVocabulary.
Import Py PosixPath Run.

(** The nine codes. *)
Definition llcodes : list value :=
  VStr <$> ["XSNG1"; "XSNG2"; "XSNG3"; "XSUBS1"; "XSUBS2"; "XSUBS3"; "XPS1"; "XPS2"; "XPS3"].

(** A string without carriage return or line feed. *)
Definition one_line (s : string) : Prop :=
  sexistsb (λ c, bool_decide (c = "010"%char) || bool_decide (c = "013"%char)) s = false.

(** [os.makedirs] does what its name says: the path exists afterwards, and
    so does whatever existed before. *)
Definition makedirs_creates {W} `{OS W} : Prop :=
  ∀ p w w', os_makedirs p w = Ok w' →
    os_path_exists p w' = true ∧ ∀ q, os_path_exists q w = true → os_path_exists q w' = true.




(** Creating a folder does not change the date. *)
Definition makedirs_same_day {W} `{OS W} `{Desktop W} : Prop :=
  ∀ p w w', os_makedirs p w = Ok w' → datetime_today w' = datetime_today w.

(** A computation leaves the world as it found it. *)
Definition keeps_world {W A} (m : M W A) : Prop :=
  ∀ st, world (m st).2 = world st.

(** The calls [process_xjmtr] may issue. *)
Definition tagger_event (src_dir xjmtr_file_path : string) (ev : event) : Prop :=
  match ev with
  | EOpenW p => p = xjmtr_file_path
  | EWrite p _ => p = xjmtr_file_path
  | EListdir p => p = src_dir
  | EPrint _ => True
  | _ => False
  end.

(** The calls of the file-moving loop: a folder is made or a file is moved. *)
Definition router_event (ev : event) : Prop :=
  match ev with
  | EMakedirs _ | EMove _ _ => True
  | _ => False
  end.

(** A move takes an entry [f] of [src_dir] to the path made of one of the
    two folders, a folder name and a file name, both without a separator: for
    a spreadsheet the text before the first underscore of the name without
    its extension, and [f] itself; for a PDF the text after that underscore
    (or Unknown), and [f] with its underscores replaced by spaces. *)
Definition routed_move (src_dir data_folder documents_folder : string) (names : list string)
  (ev : event) : Prop :=
  match ev with
  | EMove src dst =>
      ∃ f folder_name new_filename,
        f ∈ names ∧ src = join src_dir f ∧
        entry_name folder_name ∧ entry_name new_filename ∧
        ((lower (splitext f).2 ∈ [".xlsx"; ".xls"; ".csv"] ∧
          folder_name = before "_" (splitext f).1 ∧ new_filename = f ∧
          dst = join (join data_folder folder_name) new_filename) ∨
         (lower (splitext f).2 = ".pdf" ∧
          folder_name = pdf_folder_name (splitext f).1 ∧
          new_filename = replace "_" " " f ∧
          dst = join (join documents_folder folder_name) new_filename))
  | _ => True
  end.

(** The sources of the moves among some events, in order. *)
Definition move_sources (evs : list event) : list string :=
  omap (λ ev, match ev with EMove src _ => Some src | _ => None end) evs.

(** A row of the first output: six cells, a code, a service type with a code. *)
Definition row1_shape (r : list value) : Prop :=
  ∃ file_no llcode person_served date_of_service address service_type,
    r = [file_no; llcode; person_served; date_of_service; address; service_type] ∧
    llcode ∈ llcodes ∧ service_type ∈ [VStr "N"; VStr "S"; VStr "P"].

(** A row of the second output: seven cells, the literals, a note on one line. *)
Definition row2_shape (r : list value) : Prop :=
  ∃ file_no notes,
    r = [VInt 109; VStr "D"; file_no; VStr "XNSRV"; VStr "MWC"; VStr notes; VStr "#"] ∧
    one_line notes.

(** A date of the years 1000 to 9999. *)
Definition calendar_date (d : date) : Prop :=
  (1000 ≤ year d < 10 * 1000)%nat ∧ (1 ≤ month d ≤ 12)%nat ∧ (1 ≤ day d ≤ 31)%nat.

(** [n] padded to [width] is [width] decimal digits. *)
Definition decimal_of_width (width n : nat) : bool :=
  (String.length (Time.padded width n) =? width)%nat
  && sforallb char_isdecimal (Time.padded width n).

(** The folders [create_folder_structure] returns for a base directory. *)
Definition dated_folders {W} `{Desktop W} (base_dir : string) (w : W)
  : string * string * string :=
  let root_folder := join base_dir (Time.strftime_Ymd (datetime_today w)) in
  (root_folder, join root_folder "Data", join root_folder "Documents").

(** The last line the entry point prints. *)
Definition completion_message (root_folder : string) : string :=
  "Processing complete. Files organized in: " +:+ root_folder.

(** An event other than the printing of that line. *)
Definition other_than_completion (ev : event) : Prop :=
  ∀ root_folder, ev ≠ EPrint (completion_message root_folder).

End MoreVocabulary.

(** ** Properties of [determine_llcode] *)

Section LLCode.
Import Py.

Lemma index_first x l i :
  index x l = Some i →
  l !! i = Some x ∧ ∀ j y, (j < i)%nat → l !! j = Some y → y ≠ x.
Proof.
  revert i. induction l as [|y l IH]; intros i Hi; simpl in Hi; [done|].
  case_bool_decide as Hy.
  - injection Hi as <-. subst y. split; [done|]. intros j z Hj. lia.
  - destruct (index x l) as [i'|] eqn:Hidx; simplify_eq/=.
    destruct (IH i' eq_refl) as [Hat Hbefore]. split; [done|].
    intros [|j] z Hj Hz; simplify_eq/=; [done|].
    apply (Hbefore j); [lia|done].
Qed.

Lemma py_in_index x l : py_in x l = true → is_Some (index x l).
Proof.
  induction l as [|y l IH]; simpl; [done|].
  case_bool_decide; simpl; [eauto|].
  intros Hin. destruct (IH Hin) as [i ->]. eauto.
Qed.

Lemma index_length x l i : index x l = Some i → (i < length l)%nat.
Proof. intros Hi. apply index_first in Hi as [Hi _]. by eapply lookup_lt_Some. Qed.

Lemma py_in_spec x l : py_in x l = true ↔ x ∈ l.
Proof.
  unfold py_in. rewrite existsb_exists. split.
  - intros (y & Hy%list_elem_of_In & Heq%bool_decide_eq_true). by subst.
  - intros Hx. exists x. rewrite <-list_elem_of_In. by rewrite bool_decide_eq_true.
Qed.

Lemma slot_code_in prefix person_served d1 d2 d3 :
  py_in person_served [d1; d2; d3] = true →
  ∃ i, index person_served [d1; d2; d3] = Some i ∧
       slot_code prefix person_served d1 d2 d3 = VStr (prefix +:+ fmt_nat (i + 1)).
Proof.
  intros Hin. unfold slot_code. rewrite Hin.
  destruct (py_in_index _ _ Hin) as [i Hi]. rewrite Hi. eauto.
Qed.

Lemma slot_code_out prefix person_served d1 d2 d3 :
  py_in person_served [d1; d2; d3] = false →
  slot_code prefix person_served d1 d2 d3 = VNone.
Proof. intros Hin. unfold slot_code. by rewrite Hin. Qed.

Lemma determine_llcode_prefix service_type person_served d1 d2 d3 prefix :
  service_prefix service_type = Some prefix →
  determine_llcode service_type person_served d1 d2 d3
  = slot_code prefix person_served d1 d2 d3.
Proof.
  unfold service_prefix, determine_llcode.
  repeat case_bool_decide; intros; by simplify_eq.
Qed.

Lemma service_prefix_None service_type :
  service_prefix service_type = None ↔
  service_type ∉ [VStr "N"; VStr "S"; VStr "P"].
Proof.
  unfold service_prefix. rewrite !not_elem_of_cons.
  repeat case_bool_decide; subst; split; try done.
  - by intros [? _].
  - by intros (_ & ? & _).
  - by intros (_ & _ & ? & _).
  - intros _. repeat split; try done. apply not_elem_of_nil.
Qed.

Lemma determine_llcode_None service_type person_served d1 d2 d3 :
  service_prefix service_type = None ∨ py_in person_served [d1; d2; d3] = false →
  determine_llcode service_type person_served d1 d2 d3 = VNone.
Proof.
  intros [Hst|Hout].
  - revert Hst. unfold service_prefix, determine_llcode.
    by repeat case_bool_decide.
  - unfold determine_llcode.
    repeat case_bool_decide; auto using slot_code_out.
Qed.

(** A code, when there is one, is a non-empty string. *)
Lemma determine_llcode_truthy service_type person_served d1 d2 d3 :
  truthy (determine_llcode service_type person_served d1 d2 d3) = true ↔
  is_Some (service_prefix service_type) ∧ py_in person_served [d1; d2; d3] = true.
Proof.
  destruct (service_prefix service_type) as [prefix|] eqn:Hp;
    destruct (py_in person_served [d1; d2; d3]) eqn:Hin.
  - rewrite (determine_llcode_prefix _ _ _ _ _ _ Hp).
    destruct (slot_code_in prefix _ _ _ _ Hin) as (i & _ & ->).
    split; [eauto|]. intros _. simpl. apply negb_true_iff, bool_decide_eq_false.
    revert Hp. unfold service_prefix. repeat case_bool_decide; intros; by simplify_eq.
  - rewrite determine_llcode_None by auto. split; [done|]. by intros [_ ?].
  - rewrite determine_llcode_None by auto. split; [done|]. by intros [[? ?] _].
  - rewrite determine_llcode_None by auto. split; [done|]. by intros [[? ?] _].
Qed.

(** C1.  When the person served is named in one of the three defendant
    slots and the service type is N, S or P, [determine_llcode] returns the
    prefix of the service type (XSNG, XSUBS, XPS) followed by the number,
    counted from 1, of the lowest slot that holds the person served; with
    defendants A, B, C, person served B and service type S it returns
    XSUBS2. *)
Theorem determine_llcode_slot service_type person_served d1 d2 d3 prefix :
  service_prefix service_type = Some prefix →
  py_in person_served [d1; d2; d3] = true →
  (∃ slot : nat,
      ((slot = 1%nat ∧ fmt_nat slot = "1") ∨ (slot = 2%nat ∧ fmt_nat slot = "2") ∨
       (slot = 3%nat ∧ fmt_nat slot = "3")) ∧
      [d1; d2; d3] !! (slot - 1)%nat = Some person_served ∧
      (∀ k d, (1 ≤ k < slot)%nat → [d1; d2; d3] !! (k - 1)%nat = Some d → d ≠ person_served) ∧
      determine_llcode service_type person_served d1 d2 d3
      = VStr (prefix +:+ fmt_nat slot)) ∧
  (∀ A B C, A ≠ B → determine_llcode (VStr "S") B A B C = VStr "XSUBS2").
Proof.
  intros Hp Hin. split.
  - destruct (slot_code_in prefix _ _ _ _ Hin) as (i & Hi & Hcode).
    pose proof (index_length _ _ _ Hi) as Hlen. simpl in Hlen.
    destruct (index_first _ _ _ Hi) as [Hat Hbefore].
    exists (i + 1)%nat. replace (i + 1 - 1)%nat with i by lia.
    split_and!; [|done| |].
    + destruct i as [|[|[|i]]]; [by left|by right; left|by right; right|lia].
    + intros k d Hk Hd. apply (Hbefore (k - 1)%nat); [lia|done].
    + by rewrite (determine_llcode_prefix _ _ _ _ _ _ Hp).
  - intros A B C HAB. unfold determine_llcode, slot_code, py_in. simpl.
    rewrite (bool_decide_eq_false_2 (A = B)) by done.
    by rewrite (bool_decide_eq_true_2 (B = B)).
Qed.

Lemma determine_llcode_slot_witness :
  service_prefix (VStr "S") = Some "XSUBS" ∧
  py_in (VStr "B") [VStr "A"; VStr "B"; VStr "C"] = true ∧
  determine_llcode (VStr "S") (VStr "B") (VStr "A") (VStr "B") (VStr "C") = VStr "XSUBS2".
Proof.
  split; [reflexivity|]. split; [reflexivity|].
  apply (determine_llcode_slot (VStr "S") (VStr "B") (VStr "A") (VStr "B") (VStr "C") "XSUBS");
    [reflexivity|reflexivity|]. discriminate.
Defined.

End LLCode.

(** ** Properties of the spreadsheet loop *)

Section Classifier.
Context {W : Type} `{OS W}.
Import Py Run.

Ltac run := unfold mbind, M_bind, mret, M_ret, bind, ret, lift, read, ask, call, print in *.

Lemma getitem_get labels row key v dflt :
  getitem labels row key = Ok v → get labels row key dflt = v.
Proof.
  unfold getitem, get. destruct (label_index key labels); [|done].
  destruct (row !! _); [|done]. by intros [= ->].
Qed.

Lemma getitem_cell labels row key v :
  getitem labels row key = Ok v → getitem labels row key = Ok (cell labels row key).
Proof. intros Hv. unfold cell. by rewrite (getitem_get _ _ _ _ VNone Hv). Qed.

Lemma fetch_defendants_run person_served (st : state W) :
  fetch_defendants person_served st =
  match fetchall_master (world st) with
  | Ok tbl => (Ok (lookup tbl person_served), logged EQuery st)
  | Raise e => (Raise e, logged EQuery st)
  end.
Proof. unfold fetch_defendants. run. by destruct (fetchall_master _). Qed.

Lemma has_fields_check labels row :
  forallb (λ key, bool_decide (getitem labels row key = Ok (cell labels row key))) required
  = true →
  has_fields labels row.
Proof.
  rewrite forallb_forall. intros Hall key Hkey%list_elem_of_In.
  by eapply bool_decide_eq_true_1, Hall.
Qed.

(** One iteration on a row that has the five columns. *)
Lemma excel_row_run labels acc row (st : state W) tbl :
  fetchall_master (world st) = Ok tbl →
  has_fields labels row →
  excel_row labels acc row st =
    if bool_decide (pair_of labels row ∈ processed_pairs acc) then (Ok acc, st)
    else if accepted tbl labels row then
      match clean_notes (get labels row "Note" (VStr "")) with
      | Ok _ => (Ok (appended tbl labels acc row), logged EQuery st)
      | Raise e => (Raise e, logged EQuery st)
      end
    else (Ok acc, logged EQuery st).
Proof.
  intros Htbl Hrow. unfold excel_row. run.
  rewrite !Hrow by (unfold required; set_solver).
  fold (pair_of labels row). case_bool_decide; [done|].
  rewrite fetch_defendants_run, Htbl.
  unfold accepted, appended, row1_of, row2_of, llcode_of.
  destruct (lookup tbl _) as [[[matched_file_no d1] d2] d3].
  destruct (truthy matched_file_no); [|done]. simpl.
  destruct (truthy (determine_llcode _ _ _ _ _)); [|done].
  by destruct (clean_notes _).
Qed.

(** Without one of the five columns the iteration raises [KeyError]. *)
Lemma excel_row_fields labels acc row (st st' : state W) acc' :
  excel_row labels acc row st = (Ok acc', st') → has_fields labels row.
Proof.
  unfold excel_row. run. intros Hrun key Hkey.
  repeat match type of Hrun with
  | context [getitem labels row ?k] =>
      lazymatch goal with
      | _ : getitem labels row k = _ |- _ => fail
      | _ => destruct (getitem labels row k) eqn:?; [|done]
      end
  end.
  unfold required in Hkey. rewrite !elem_of_cons in Hkey.
  destruct Hkey as [->|[->|[->|[->|[->|Hnil]]]]]; eauto using getitem_cell.
  by apply elem_of_nil in Hnil.
Qed.

Lemma lookup_unmatched tbl person_served :
  Forall (λ c, names_person person_served c = false) (select_defendants tbl) →
  lookup tbl person_served = no_match.
Proof.
  unfold lookup. induction (select_defendants tbl) as [|[[[f d1] d2] d3] cs IH]; [done|].
  intros [Hc Hcs]%Forall_cons. simpl in *. rewrite Hc. auto.
Qed.

(** C2.  A service type other than N, S, P, or a person served who is in
    none of the three defendant slots, makes [determine_llcode] return
    [None]; the iteration of [process_excel_file] on such a row leaves both
    output lists (and the set of processed pairs) as they were. *)
Theorem no_code_no_row labels acc row (st : state W) tbl matched_file_no d1 d2 d3 :
  fetchall_master (world st) = Ok tbl →
  lookup tbl (cell labels row "Person Served") = (matched_file_no, d1, d2, d3) →
  cell labels row "Service Type" ∉ [VStr "N"; VStr "S"; VStr "P"] ∨
  py_in (cell labels row "Person Served") [d1; d2; d3] = false →
  (∀ service_type person_served e1 e2 e3,
      service_type ∉ [VStr "N"; VStr "S"; VStr "P"] ∨
      py_in person_served [e1; e2; e3] = false →
      determine_llcode service_type person_served e1 e2 e3 = VNone) ∧
  (∀ acc' st', excel_row labels acc row st = (Ok acc', st') → acc' = acc).
Proof.
  intros Htbl Hlookup Hno. split.
  - intros service_type person_served e1 e2 e3 Hcase.
    apply determine_llcode_None. by rewrite service_prefix_None.
  - intros acc' st' Hrun.
    pose proof (excel_row_fields _ _ _ _ _ _ Hrun) as Hrow.
    rewrite (excel_row_run _ _ _ _ tbl Htbl Hrow) in Hrun.
    case_bool_decide; [congruence|].
    assert (accepted tbl labels row = false) as Hacc.
    { unfold accepted, llcode_of. rewrite Hlookup.
      rewrite determine_llcode_None; [apply andb_false_r|].
      by rewrite service_prefix_None. }
    rewrite Hacc in Hrun. congruence.
Qed.

(** C4.  A row whose person served is named by no case of the database is
    skipped without its (case id, person served) pair being recorded: the
    local variables are unchanged, and a later row with the same pair
    queries the database again. *)
Theorem unmatched_pair_not_recorded labels acc row later (st : state W) tbl :
  fetchall_master (world st) = Ok tbl →
  has_fields labels row →
  has_fields labels later →
  pair_of labels later = pair_of labels row →
  pair_of labels row ∉ processed_pairs acc →
  Forall (λ c, names_person (cell labels row "Person Served") c = false)
         (select_defendants tbl) →
  excel_row labels acc row st = (Ok acc, logged EQuery st) ∧
  for_acc [row; later] (excel_row labels) acc st
  = (Ok acc, logged EQuery (logged EQuery st)).
Proof.
  intros Htbl Hrow Hlater Hpair Hfresh Hnone.
  assert (∀ r, pair_of labels r = pair_of labels row → accepted tbl labels r = false) as Hrej.
  { intros r Hr. unfold accepted.
    assert (cell labels r "Person Served" = cell labels row "Person Served") as ->
      by (unfold pair_of in Hr; congruence).
    by rewrite (lookup_unmatched _ _ Hnone). }
  assert (∀ r st0, world st0 = world st → has_fields labels r →
            pair_of labels r = pair_of labels row →
            excel_row labels acc r st0 = (Ok acc, logged EQuery st0)) as Hstep.
  { intros r st0 Hw Hr Hp. rewrite (excel_row_run _ _ _ _ tbl) by (by rewrite ?Hw).
    rewrite Hp, bool_decide_eq_false_2 by done. by rewrite Hrej. }
  split; [by apply Hstep|].
  simpl. unfold bind at 1. rewrite (Hstep row st) by done.
  unfold bind. by rewrite (Hstep later) by done.
Qed.

(** C10.  An accepted row is appended to both output lists with the
    [FileNo] of the spreadsheet row; the [FileNo] of the case the lookup
    matched is only tested for truth.  The two can differ: on the sample
    workbook the case is filed under 777 and the outputs carry 500. *)
Theorem outputs_carry_spreadsheet_fileno labels acc row (st st' : state W) acc' tbl :
  fetchall_master (world st) = Ok tbl →
  excel_row labels acc row st = (Ok acc', st') →
  acc' ≠ acc →
  (∃ llcode person_served date_of_service address service_type cleaned_notes,
      output_data_1 acc' = output_data_1 acc ++
        [[cell labels row "FileNo"; llcode; person_served; date_of_service; address;
          service_type]] ∧
      output_data_2 acc' = output_data_2 acc ++
        [[VInt 109; VStr "D"; cell labels row "FileNo"; VStr "XNSRV"; VStr "MWC";
          cleaned_notes; VStr "#"]]) ∧
  (lookup Demo.cases (VStr "Jane Doe") = (VInt 777, VStr "Jane Doe", VNone, VStr "John Roe") ∧
   (process_excel_file "visits.xlsx" (Fake.office Demo.visits Demo.cases)).1
   = Ok ([[VInt 500; VStr "XSNG1"; VStr "Jane Doe"; VStr "2024-02-09"; VStr "1 Main St";
           VStr "N"]],
         [[VInt 109; VStr "D"; VInt 500; VStr "XNSRV"; VStr "MWC";
           VStr "served  in person"; VStr "#"]])).
Proof.
  intros Htbl Hrun Hchanged. split; [|by vm_compute].
  pose proof (excel_row_fields _ _ _ _ _ _ Hrun) as Hrow.
  rewrite (excel_row_run _ _ _ _ tbl Htbl Hrow) in Hrun.
  case_bool_decide; [congruence|].
  destruct (accepted tbl labels row); [|congruence].
  destruct (clean_notes _); [|done].
  injection Hrun as <- <-. unfold appended, row1_of, row2_of; simpl. eauto 10.
Qed.

Lemma excel_row_world labels acc row (st st' : state W) o :
  excel_row labels acc row st = (o, st') → world st' = world st.
Proof.
  unfold excel_row. run.
  repeat match goal with
  | |- context [getitem labels row ?k] =>
      destruct (getitem labels row k); [|by intros [= <- <-]]
  end.
  case_bool_decide; [by intros [= <- <-]|].
  rewrite fetch_defendants_run.
  destruct (fetchall_master _); [|by intros [= <- <-]].
  destruct (lookup _ _) as [[[matched_file_no d1] d2] d3].
  repeat match goal with
  | |- context [if ?x then _ else _] => destruct x; [|by intros [= <- <-]]
  end.
  destruct (clean_notes _); by intros [= <- <-].
Qed.

Lemma first_accepted_snoc tbl labels seen row r :
  first_accepted tbl labels seen r → first_accepted tbl labels (seen ++ [row]) r.
Proof.
  intros (Hacc & earlier & later & -> & Hfirst). split; [done|].
  exists earlier, (later ++ [row]). split; [|done]. by rewrite <-app_assoc.
Qed.

Lemma elem_of_snoc {A} (x y : A) (l : list A) : x ∈ l ++ [y] ↔ x ∈ l ∨ x = y.
Proof. by rewrite elem_of_app, list_elem_of_singleton. Qed.

Lemma loop_invariant_skip tbl labels seen acc kept row :
  loop_invariant tbl labels seen acc kept →
  (accepted tbl labels row = true → pair_of labels row ∈ processed_pairs acc) →
  loop_invariant tbl labels (seen ++ [row]) acc kept.
Proof.
  intros (Hout1 & Hout2 & Hset & Hnodup & Hsub & Hfirst & Hall) Hrow.
  unfold loop_invariant. split_and!; try done.
  - by apply sublist_inserts_r.
  - intros r Hr. by apply first_accepted_snoc, Hfirst.
  - intros r Hr Hacc. apply elem_of_snoc in Hr as [Hr|Hr]; [by apply Hall|].
    subst r. specialize (Hrow Hacc). rewrite Hset in Hrow.
    by apply elem_of_list_to_set in Hrow.
Qed.

Lemma loop_invariant_append tbl labels seen acc kept row :
  loop_invariant tbl labels seen acc kept →
  accepted tbl labels row = true →
  pair_of labels row ∉ processed_pairs acc →
  loop_invariant tbl labels (seen ++ [row]) (appended tbl labels acc row) (kept ++ [row]).
Proof.
  intros (Hout1 & Hout2 & Hset & Hnodup & Hsub & Hfirst & Hall) Hacc Hfresh.
  rewrite Hset, elem_of_list_to_set in Hfresh.
  unfold appended, loop_invariant. split_and!; simpl; rewrite ?fmap_app; simpl.
  - by rewrite Hout1.
  - by rewrite Hout2.
  - rewrite Hset, list_to_set_app_L. simpl.
    by rewrite union_empty_r_L, (comm_L (∪)).
  - apply NoDup_app. repeat split; [done| |apply NoDup_singleton].
    intros p Hp Hp'. apply list_elem_of_singleton in Hp'. by subst p.
  - by apply sublist_app.
  - intros r Hr. apply elem_of_snoc in Hr as [Hr|Hr].
    + by apply first_accepted_snoc, Hfirst.
    + subst r. split; [done|]. exists seen, []. split; [done|].
      intros r Hr Hpair. destruct (accepted tbl labels r) eqn:Hacc'; [|done].
      exfalso. apply Hfresh. rewrite <-Hpair. by apply Hall.
  - intros r Hr Hacc'. apply elem_of_app. apply elem_of_snoc in Hr as [Hr|Hr].
    + left. by apply Hall.
    + subst r. right. by apply list_elem_of_singleton.
Qed.

Lemma loop_invariant_step tbl labels seen acc kept row acc' (st st' : state W) :
  fetchall_master (world st) = Ok tbl →
  loop_invariant tbl labels seen acc kept →
  excel_row labels acc row st = (Ok acc', st') →
  ∃ kept', loop_invariant tbl labels (seen ++ [row]) acc' kept'.
Proof.
  intros Htbl Hinv Hrun.
  pose proof (excel_row_fields _ _ _ _ _ _ Hrun) as Hrow.
  rewrite (excel_row_run _ _ _ _ tbl Htbl Hrow) in Hrun.
  case_bool_decide as Hdup.
  - injection Hrun as <- <-. exists kept. by apply loop_invariant_skip.
  - destruct (accepted tbl labels row) eqn:Hacc.
    + destruct (clean_notes _); [|done]. injection Hrun as <- <-.
      exists (kept ++ [row]). by apply loop_invariant_append.
    + injection Hrun as <- <-. exists kept.
      apply loop_invariant_skip; [done|congruence].
Qed.

Lemma loop_invariant_run tbl labels data : ∀ seen acc kept acc' (st st' : state W),
  fetchall_master (world st) = Ok tbl →
  loop_invariant tbl labels seen acc kept →
  for_acc data (excel_row labels) acc st = (Ok acc', st') →
  ∃ kept', loop_invariant tbl labels (seen ++ data) acc' kept'.
Proof.
  induction data as [|row data IH]; intros seen acc kept acc' st st' Htbl Hinv Hrun.
  - injection Hrun as <- <-. exists kept. by rewrite app_nil_r.
  - simpl in Hrun. unfold bind in Hrun.
    destruct (excel_row labels acc row st) as [[acc1|e] st1] eqn:Hrow; [|done].
    destruct (loop_invariant_step _ _ _ _ _ _ _ _ _ Htbl Hinv Hrow) as [kept1 Hinv1].
    apply excel_row_world in Hrow.
    rewrite (cons_middle row seen data), app_assoc.
    eapply IH; [|done..]. by rewrite Hrow.
Qed.

Lemma process_excel_file_read path (st : state W) :
  process_excel_file path st =
  match pd_read_excel path (world st) with
  | Ok df => process_dataframe path df (logged (EReadExcel path) st)
  | Raise e => (Raise e, logged (EReadExcel path) st)
  end.
Proof. unfold process_excel_file, process_dataframe. run. by destruct (pd_read_excel _ _). Qed.

Lemma label_index_None key labels : key ∉ labels → label_index key labels = None.
Proof.
  induction labels as [|l labels IH]; [done|].
  intros [Hne Hrest]%not_elem_of_cons. simpl.
  rewrite bool_decide_eq_false_2 by done. by rewrite IH.
Qed.

Lemma summons_rows_cell labels data :
  summons_rows labels data
  = filter (λ row, cell labels row "Document Category" = VStr "Summons and Complaint") data.
Proof. done. Qed.

Lemma summons_rows_missing labels data :
  "Document Category" ∉ labels → summons_rows labels data = [].
Proof.
  intros Hmissing. unfold summons_rows, get. rewrite (label_index_None _ _ Hmissing).
  induction data as [|row data IH]; [done|].
  by rewrite filter_cons_False.
Qed.

(** C3, as the code has it.  When [process_excel_file] returns, both output
    lists are built, in order, from the same rows [kept] of the filtered
    spreadsheet; no two rows of [kept] share their (case id, person served)
    pair; each row of [kept] is the first row with its pair that is
    accepted (its person served is matched by a case with a true [FileNo]
    and its service type is N, S or P), rejected rows before it
    notwithstanding; and every accepted row has its pair in [kept]. *)
Theorem first_accepted_row_wins path df tbl (st st' : state W) out1 out2 :
  pd_read_excel path (world st) = Ok df →
  fetchall_master (world st) = Ok tbl →
  process_excel_file path st = (Ok (out1, out2), st') →
  let labels := strip <$> columns df in
  let data := summons_rows labels (rows df) in
  ∃ kept,
    out1 = row1_of tbl labels <$> kept ∧
    out2 = row2_of labels <$> kept ∧
    NoDup (pair_of labels <$> kept) ∧
    kept `sublist_of` data ∧
    (∀ r, r ∈ kept → first_accepted tbl labels data r) ∧
    (∀ r, r ∈ data → accepted tbl labels r = true →
          pair_of labels r ∈ pair_of labels <$> kept).
Proof.
  intros Hdf Htbl Hrun labels data.
  rewrite process_excel_file_read, Hdf in Hrun. unfold process_dataframe in Hrun.
  fold labels in Hrun. case_bool_decide as Hcol; simpl in Hrun.
  - run. fold data in Hrun.
    destruct (for_acc data _ _ _) as [[acc|e] st1] eqn:Hloop; [|done].
    injection Hrun as <- <- <-.
    assert (loop_invariant tbl labels [] (Locals [] [] ∅) []) as Hinit.
    { unfold loop_invariant. split_and!; try done; [apply NoDup_nil_2|..].
      - intros r Hr. by apply elem_of_nil in Hr.
      - intros r Hr. by apply elem_of_nil in Hr. }
    destruct (loop_invariant_run tbl labels data [] _ _ _ (logged (EReadExcel path) st) _
                Htbl Hinit Hloop)
      as (kept & Hout1 & Hout2 & _ & Hrest).
    exists kept. by split_and!; [| |apply Hrest..].
  - run. injection Hrun as <- <- <-. exists [].
    unfold data. rewrite (summons_rows_missing _ _ Hcol).
    split_and!; try done; [apply NoDup_nil_2|..].
    + intros r Hr. by apply elem_of_nil in Hr.
    + intros r Hr. by apply elem_of_nil in Hr.
Qed.

(** C7.  When the trimmed headers lack [Document Category],
    [process_excel_file] prints the message and returns two empty lists,
    raising nothing.  When they have it, the loop runs over exactly the rows
    whose [Document Category] cell equals "Summons and Complaint": the call
    is the one on the workbook without any given row of another category. *)
Theorem document_category_column path df (st : state W) :
  pd_read_excel path (world st) = Ok df →
  let labels := strip <$> columns df in
  let st1 := logged (EReadExcel path) st in
  ("Document Category" ∉ labels →
     process_excel_file path st =
     (Ok ([], []), logged (EPrint ("'Document Category' column missing in " +:+ path)) st1)) ∧
  ("Document Category" ∈ labels →
     process_excel_file path st =
       (acc ← for_acc
                (filter (λ row, cell labels row "Document Category"
                                = VStr "Summons and Complaint") (rows df))
                (excel_row labels) (Locals [] [] ∅);
        mret (output_data_1 acc, output_data_2 acc)) st1 ∧
     ∀ earlier row later,
       rows df = earlier ++ row :: later →
       cell labels row "Document Category" ≠ VStr "Summons and Complaint" →
       process_excel_file path st =
       process_dataframe path {| columns := columns df; rows := earlier ++ later |} st1).
Proof.
  intros Hdf labels st1. rewrite process_excel_file_read, Hdf. fold st1.
  unfold process_dataframe. fold labels. split; [|split].
  - intros Hcol. rewrite bool_decide_eq_false_2 by done. simpl. by run.
  - rewrite bool_decide_eq_true_2 by done. simpl. by rewrite summons_rows_cell.
  - intros earlier row later Hrows Hother. simpl. fold labels.
    rewrite Hrows. unfold summons_rows.
    by rewrite !filter_app, (filter_cons_False _ row) by done.
Qed.

Lemma scan_rows_spec person_served results :
  (∃ earlier later,
      results = earlier ++ scan_rows person_served results :: later ∧
      names_person person_served (scan_rows person_served results) = true ∧
      Forall (λ c, names_person person_served c = false) earlier) ∨
  (Forall (λ c, names_person person_served c = false) results ∧
   scan_rows person_served results = no_match).
Proof.
  induction results as [|[[[f d1] d2] d3] results IH]; [by right|].
  cbn [scan_rows names_person]. destruct (py_in person_served [d1; d2; d3]) eqn:Hin.
  - left. exists [], results. split_and!; [done|by cbn [names_person]|by constructor].
  - destruct IH as [(earlier & later & Hres & Hfound & Hearlier)|[Hnone Hfound]].
    + left. exists ((f, d1, d2, d3) :: earlier), later. split_and!; [|done|].
      * simpl. by f_equal.
      * by constructor.
    + right. split; [|done]. by constructor.
Qed.

End Classifier.

(** ** Facts on strings *)

Section StringFacts.
Import Py.

Lemma app_cons a s t : String a s +:+ t = String a (s +:+ t).
Proof. done. Qed.

Lemma app_nil_l_s s : "" +:+ s = s.
Proof. done. Qed.

Lemma app_nil_r_s s : s +:+ "" = s.
Proof. induction s as [|a s IH]; [done|]. by rewrite app_cons, IH. Qed.

Lemma app_assoc_s s t u : (s +:+ t) +:+ u = s +:+ t +:+ u.
Proof. induction s as [|a s IH]; [done|]. by rewrite !app_cons, IH. Qed.

Lemma rev_app_spec s t : String.rev_app s t = String.rev s +:+ t.
Proof.
  revert t. induction s as [|a s IH]; intros t; [done|].
  unfold String.rev. simpl. rewrite (IH (String a t)), (IH (String a "")).
  by rewrite app_assoc_s.
Qed.

Lemma rev_cons a s : String.rev (String a s) = String.rev s +:+ String a "".
Proof. unfold String.rev at 1. simpl. apply rev_app_spec. Qed.

Lemma rev_app_distr s t : String.rev (s +:+ t) = String.rev t +:+ String.rev s.
Proof.
  induction s as [|a s IH]; [by rewrite app_nil_l_s, app_nil_r_s|].
  by rewrite app_cons, !rev_cons, IH, app_assoc_s.
Qed.

Lemma rev_involutive s : String.rev (String.rev s) = s.
Proof.
  induction s as [|a s IH]; [done|].
  by rewrite rev_cons, rev_app_distr, IH.
Qed.

Lemma startswith_spec s p : startswith s p = true ↔ ∃ t, s = p +:+ t.
Proof.
  revert s. induction p as [|a p IH]; intros s; simpl.
  - destruct s; (split; [by eexists|done]).
  - destruct s as [|b s].
    + split; [done|]. by intros [t Ht].
    + simpl. rewrite andb_true_iff, bool_decide_eq_true, IH. split.
      * intros [-> [t ->]]. by exists t.
      * intros [t Ht]. rewrite app_cons in Ht. injection Ht as -> ->. eauto.
Qed.

Lemma endswith_spec s p : endswith s p = true ↔ ∃ t, s = t +:+ p.
Proof.
  unfold endswith. rewrite startswith_spec. split; intros [t Ht].
  - exists (String.rev t). apply (f_equal String.rev) in Ht.
    by rewrite rev_involutive, rev_app_distr, rev_involutive in Ht.
  - exists (String.rev t). by rewrite Ht, rev_app_distr.
Qed.

Lemma sql_ltrim_suffix s : ∃ blanks, s = blanks +:+ sql_ltrim s.
Proof.
  induction s as [|a s [blanks IH]]; [by exists ""|].
  destruct (decide (a = " "%char)) as [->|Ha].
  - exists (String " " blanks). simpl. by rewrite app_cons, <-IH.
  - exists "". destruct a as [[] [] [] [] [] [] [] []]; done.
Qed.

Lemma sql_ltrim_start s : startswith (sql_ltrim s) " " = false.
Proof.
  induction s as [|a s IH]; [done|].
  destruct (decide (a = " "%char)) as [->|Ha]; [done|].
  assert (sql_ltrim (String a s) = String a s) as ->
    by (destruct a as [[] [] [] [] [] [] [] []]; done).
  simpl. by rewrite bool_decide_eq_false_2 by congruence.
Qed.

Lemma sql_rtrim_end s : endswith (sql_rtrim s) " " = false.
Proof.
  unfold endswith, sql_rtrim. rewrite rev_involutive. apply sql_ltrim_start.
Qed.

(** Removing leading blanks keeps a blank-free end. *)
Lemma sql_ltrim_end s : endswith s " " = false → endswith (sql_ltrim s) " " = false.
Proof.
  intros Hend. apply not_true_is_false. intros [t Ht]%endswith_spec.
  destruct (sql_ltrim_suffix s) as [blanks Hs].
  assert (endswith s " " = true) as Hyes; [|congruence].
  apply endswith_spec. exists (blanks +:+ t). by rewrite app_assoc_s, <-Ht.
Qed.

Lemma sql_trimmed_blank d : blank_trimmed (sql_trimmed d).
Proof.
  destruct d as [s|]; [|done]. simpl. split.
  - apply sql_ltrim_start.
  - apply sql_ltrim_end, sql_rtrim_end.
Qed.

(** What [LTRIM] removes is a run of space characters. *)
Lemma sql_ltrim_blanks s : ∃ n, s = blanks n +:+ sql_ltrim s.
Proof.
  induction s as [|a s [n IH]]; [by exists O|].
  destruct (decide (a = " "%char)) as [->|Ha].
  - exists (S n). simpl. by rewrite app_cons, <-IH.
  - exists O. destruct a as [[] [] [] [] [] [] [] []]; done.
Qed.

Lemma blanks_snoc n : blanks n +:+ " " = String " " (blanks n).
Proof. induction n as [|n IH]; [done|]. simpl. by rewrite app_cons, IH. Qed.

Lemma rev_blanks n : String.rev (blanks n) = blanks n.
Proof. induction n as [|n IH]; [done|]. simpl. by rewrite rev_cons, IH, blanks_snoc. Qed.

Lemma sql_rtrim_blanks s : ∃ n, s = sql_rtrim s +:+ blanks n.
Proof.
  unfold sql_rtrim. destruct (sql_ltrim_blanks (String.rev s)) as [n Hrev].
  exists n. apply (f_equal String.rev) in Hrev.
  by rewrite rev_involutive, rev_app_distr, rev_blanks in Hrev.
Qed.

(** The query removes space characters at the two ends of a name, and
    nothing else. *)
Lemma sql_trimmed_space d : space_trimmed d (sql_trimmed d).
Proof.
  destruct d as [s|]; [|done]. simpl.
  destruct (sql_rtrim_blanks s) as [r Hr].
  destruct (sql_ltrim_blanks (sql_rtrim s)) as [l Hl].
  exists l, (sql_ltrim (sql_rtrim s)), r. split; [|done].
  by rewrite <-app_assoc_s, <-Hl.
Qed.

End StringFacts.

(** ** Properties of [fetch_defendants] *)

Section Lookup.
Context {W : Type} `{OS W}.
Import Py Run.

Lemma select_defendants_elem c tbl :
  c ∈ select_defendants tbl →
  ∃ r, r ∈ tbl ∧
       c = (FileNo r, sql_trimmed (DEFENDANT_1 r), sql_trimmed (DEFENDANT_2 r),
            sql_trimmed (DEFENDANT_3 r)).
Proof.
  unfold select_defendants. intros (r & -> & Hr)%list_elem_of_fmap.
  apply list_elem_of_filter in Hr as [_ Hr]. eauto.
Qed.

(** C6, as the code has it.  [fetch_defendants] returns the first row of
    the result set, in the order the database returned it, one of whose
    three slots equals the name; it returns four [None]s when no row has
    such a slot, in particular when the result set is empty.  The slots
    compared are the stored names less the space characters at their two
    ends, which is what [LTRIM] and [RTRIM] remove in the query: a slot
    neither starts nor ends with a space, and the stored name is the slot
    between two runs of spaces. *)
Theorem fetch_defendants_first_match person_served (st : state W) tbl :
  fetchall_master (world st) = Ok tbl →
  ∃ found,
    fetch_defendants person_served st = (Ok found, logged EQuery st) ∧
    ((∃ earlier later,
         select_defendants tbl = earlier ++ found :: later ∧
         names_person person_served found = true ∧
         Forall (λ c, names_person person_served c = false) earlier) ∨
     (Forall (λ c, names_person person_served c = false) (select_defendants tbl) ∧
      found = (VNone, VNone, VNone, VNone))) ∧
    (select_defendants tbl = [] → found = (VNone, VNone, VNone, VNone)) ∧
    (∀ file_no d1 d2 d3,
        (file_no, d1, d2, d3) ∈ select_defendants tbl →
        blank_trimmed d1 ∧ blank_trimmed d2 ∧ blank_trimmed d3 ∧
        ∃ r, r ∈ tbl ∧ file_no = FileNo r ∧ d1 = sql_trimmed (DEFENDANT_1 r) ∧
             d2 = sql_trimmed (DEFENDANT_2 r) ∧ d3 = sql_trimmed (DEFENDANT_3 r) ∧
             space_trimmed (DEFENDANT_1 r) d1 ∧ space_trimmed (DEFENDANT_2 r) d2 ∧
             space_trimmed (DEFENDANT_3 r) d3).
Proof.
  intros Htbl. exists (lookup tbl person_served).
  rewrite fetch_defendants_run, Htbl. split_and!.
  - done.
  - apply scan_rows_spec.
  - unfold lookup. by intros ->.
  - intros file_no d1 d2 d3 (r & Hr & [= -> -> -> ->])%select_defendants_elem.
    split_and!; try apply sql_trimmed_blank.
    exists r. split_and!; try done; apply sql_trimmed_space.
Qed.

End Lookup.

(** ** The calls a computation issues *)

Section Traces.
Context {W : Type} `{OS W}.
Import Run.

Ltac run := unfold mbind, M_bind, mret, M_ret, bind, ret, lift, read, ask, call, print in *.

Lemma issues_ret {A} P (a : A) : issues (W:=W) P (ret a).
Proof. intros st. exists []. by rewrite app_nil_r. Qed.

Lemma issues_lift {A} P (o : outcome A) : issues (W:=W) P (lift o).
Proof. intros st. exists []. by rewrite app_nil_r. Qed.

Lemma issues_ask {A} P (q : W → A) : issues P (ask q).
Proof. intros st. exists []. by rewrite app_nil_r. Qed.

Lemma issues_print (P : event → Prop) line : P (EPrint line) → issues (W:=W) P (print line).
Proof. intros HP st. exists [EPrint line]. split; [done|]. by repeat constructor. Qed.

Lemma issues_call (P : event → Prop) ev op : P ev → issues (W:=W) P (call ev op).
Proof.
  intros HP st. exists [ev]. unfold call.
  destruct (op (world st)); (split; [done|by repeat constructor]).
Qed.

Lemma issues_read {A} (P : event → Prop) ev (op : W → outcome A) :
  P ev → issues P (read ev op).
Proof.
  intros HP st. exists [ev]. unfold read.
  destruct (op (world st)); (split; [done|by repeat constructor]).
Qed.

Lemma issues_bind {A B} P (m : M W A) (k : A → M W B) :
  issues P m → (∀ a, issues P (k a)) → issues P (bind m k).
Proof.
  intros Hm Hk st. destruct (Hm st) as (evs & Htrace & Hevs). unfold bind.
  destruct (m st) as [[a|e] st1]; simpl in *.
  - destruct (Hk a st1) as (evs' & Htrace' & Hevs').
    exists (evs ++ evs'). split; [|by apply Forall_app].
    by rewrite Htrace', Htrace, app_assoc.
  - by exists evs.
Qed.

Lemma issues_for {A} P (xs : list A) (body : A → M W unit) :
  (∀ x, x ∈ xs → issues P (body x)) → issues P (for_ xs body).
Proof.
  induction xs as [|x xs IH]; intros Hbody; simpl.
  - apply issues_ret.
  - apply issues_bind.
    + apply Hbody. by left.
    + intros _. apply IH. intros y Hy. apply Hbody. by right.
Qed.

Lemma for_app {A} (xs ys : list A) (body : A → M W unit) st :
  for_ (xs ++ ys) body st = bind (for_ xs body) (λ _, for_ ys body) st.
Proof.
  revert st. induction xs as [|x xs IH]; intros st; simpl; [done|].
  unfold bind in *. destruct (body x st) as [[[]|e] st1]; [|done].
  apply IH.
Qed.

Lemma issues_ensure_folder_exists (P : event → Prop) folder_path :
  P (EMakedirs folder_path) → issues P (ensure_folder_exists folder_path).
Proof.
  intros HP. unfold ensure_folder_exists. apply issues_bind; [apply issues_ask|].
  intros []; simpl; [apply issues_ret|by apply issues_call].
Qed.

Lemma issues_xjmtr_entry (P : event → Prop) xj f :
  (∀ ev, (∀ s d, ev ≠ EMove s d) → P ev) → issues P (xjmtr_entry xj f).
Proof.
  intros HP. unfold xjmtr_entry.
  destruct (_ && _); [|apply issues_ret].
  simpl. destruct (Py.isdigit _); [|apply issues_ret].
  apply issues_bind; [by apply issues_call, HP|]. intros _.
  by apply issues_print, HP.
Qed.

(** [process_xjmtr] opens, writes, lists and prints; it moves nothing. *)
Lemma issues_process_xjmtr (P : event → Prop) src xj :
  (∀ ev, (∀ s d, ev ≠ EMove s d) → P ev) →
  issues P (process_xjmtr src xj).
Proof.
  intros HP. unfold process_xjmtr.
  apply issues_bind; [by apply issues_call, HP|]. intros _.
  apply issues_bind; [by apply issues_call, HP|]. intros _.
  apply issues_bind; [by apply issues_read, HP|]. intros names.
  apply issues_for. intros f _. by apply issues_xjmtr_entry.
Qed.

End Traces.

(** ** Properties of [process_xjmtr] *)

Section Tagger.
Context {W : Type} `{OS W}.
Import Py Run.

Ltac run := unfold mbind, M_bind, mret, M_ret, bind, ret, lift, read, ask, call, print in *.

Lemma split_before_after c s :
  split c s = before c s :: match after c s with Some rest => split c rest | None => [] end.
Proof.
  induction s as [|a s IH]; [done|]. simpl.
  case_bool_decide; [done|]. rewrite IH. done.
Qed.

Lemma first_field_before s : first_field s = before "_" s.
Proof. unfold first_field. by rewrite split_before_after. Qed.

Lemma isdigit_spec s : isdigit s = true ↔ s ≠ "" ∧ sforallb char_isdigit s = true.
Proof. destruct s; simpl; [|split; [done|by intros [_ ?]]]. split; [done|by intros [? _]]. Qed.

Lemma tagged_spec f :
  tagged f = true ↔
  endswith (lower f) ".pdf" = true ∧ contains "judgment" (lower f) = true ∧
  before "_" f ≠ "" ∧ sforallb char_isdigit (before "_" f) = true.
Proof.
  unfold tagged. rewrite !andb_true_iff, isdigit_spec, first_field_before. tauto.
Qed.

Lemma char_isdigit_split c : char_isdigit c = char_isdecimal c || superscript_digit c.
Proof.
  unfold char_isdigit, char_isdecimal, superscript_digit. cbv zeta.
  by rewrite !orb_assoc.
Qed.

Lemma sforallb_isdigit s :
  sexistsb superscript_digit s = false →
  sforallb char_isdigit s = sforallb char_isdecimal s.
Proof.
  induction s as [|a s IH]; [done|]. simpl. intros [Ha Hs]%orb_false_iff.
  by rewrite char_isdigit_split, Ha, orb_false_r, IH.
Qed.

(** Without a superscript digit before the first underscore, the test of
    the code is the test of the specification. *)
Lemma tagged_without_superscript f :
  sexistsb superscript_digit (first_field f) = false → tagged f = spec_tagged f.
Proof.
  intros Hplain. unfold tagged, spec_tagged. f_equal.
  unfold isdigit, fully_numeric. destruct (first_field f); [done|].
  by apply sforallb_isdigit.
Qed.

Lemma xjmtr_entry_run xj f (st : state W) :
  xjmtr_entry xj f st =
  if tagged f then
    match file_write xj (xjmtr_line (first_field f)) (world st) with
    | Ok w' => (Ok (), State w' (trace st ++ tag_events xj f))
    | Raise e => (Raise e, logged (EWrite xj (xjmtr_line (first_field f))) st)
    end
  else (Ok (), st).
Proof.
  unfold xjmtr_entry, tagged. destruct (_ && _); [|done]. simpl.
  destruct (isdigit _); [|done]. run.
  destruct (file_write _ _ _); [|done]. unfold logged, tag_events. simpl.
  by rewrite <-app_assoc.
Qed.

(** The loop of [process_xjmtr], when no write fails. *)
Lemma xjmtr_loop xj names : ∀ (st st' : state W),
  for_ names (xjmtr_entry xj) st = (Ok (), st') →
  trace st' = trace st ++ flat_map (tag_events xj) (filter (λ f, tagged f = true) names).
Proof.
  induction names as [|f names IH]; intros st st' Hrun.
  - injection Hrun as <-. by rewrite app_nil_r.
  - simpl in Hrun. unfold bind in Hrun. rewrite xjmtr_entry_run in Hrun.
    destruct (tagged f) eqn:Htag.
    + rewrite filter_cons_True by done. simpl.
      destruct (file_write _ _ _) as [w'|e]; [|done].
      apply IH in Hrun. rewrite Hrun. simpl. by rewrite <-!app_assoc.
    + rewrite filter_cons_False by congruence. by apply IH in Hrun.
Qed.

(** X21.  Once the tag file is open, the header line is the first thing
    [process_xjmtr] writes, whatever the directory holds; when the run
    completes, one line with the prefix and XJMTR follows for each entry, in
    listing order, that ends in .pdf and contains judgment (both without
    regard to case) and whose text before the first underscore is not empty
    and is made only of characters [str.isdigit] accepts; no other entry
    gives a line. *)
Theorem xjmtr_lines src xj (st : state W) w1 :
  open_w xj (world st) = Ok w1 →
  (∃ rest, trace (process_xjmtr src xj st).2
           = trace st ++ EOpenW xj :: EWrite xj xjmtr_header :: rest) ∧
  (∀ st', process_xjmtr src xj st = (Ok (), st') →
     ∃ w2 names,
       file_write xj xjmtr_header w1 = Ok w2 ∧
       os_listdir src w2 = Ok names ∧
       trace st' = trace st ++ [EOpenW xj; EWrite xj xjmtr_header; EListdir src]
                   ++ flat_map (tag_events xj) (filter (λ f, tagged f = true) names)) ∧
  (∀ f, tagged f = true ↔
        endswith (lower f) ".pdf" = true ∧ contains "judgment" (lower f) = true ∧
        before "_" f ≠ "" ∧ sforallb char_isdigit (before "_" f) = true).
Proof.
  intros Hopen. split_and!; [| |apply tagged_spec].
  - unfold process_xjmtr, mbind, M_bind.
    unfold bind at 1, call at 1. rewrite Hopen.
    unfold bind at 1, call at 1. simpl.
    destruct (file_write xj xjmtr_header w1) as [w2|e]; simpl.
    + match goal with
      | |- context [bind ?m ?k ?st1] =>
          destruct (issues_bind (λ _, True) m k) with (st := st1) as (evs & -> & _)
      end.
      * by apply issues_read.
      * intros names. apply issues_for. intros f _. by apply issues_xjmtr_entry.
      * simpl. exists evs. by rewrite <-!app_assoc.
    + exists []. by rewrite <-app_assoc.
  - intros st' Hrun. unfold process_xjmtr, mbind, M_bind in Hrun.
    unfold bind at 1, call at 1 in Hrun. rewrite Hopen in Hrun.
    unfold bind at 1, call at 1 in Hrun. simpl in Hrun.
    destruct (file_write xj xjmtr_header w1) as [w2|e]; [|done].
    unfold bind, read in Hrun. simpl in Hrun.
    destruct (os_listdir src w2) as [names|e] eqn:Hnames; [|done].
    exists w2, names. split_and!; [done..|].
    apply xjmtr_loop in Hrun. rewrite Hrun. simpl. by rewrite <-!app_assoc.
Qed.

End Tagger.

(** ** Facts on paths *)

Section PathFacts.
Import Py PosixPath.

Lemma sexistsb_app p s t : sexistsb p (s +:+ t) = sexistsb p s || sexistsb p t.
Proof. induction s as [|a s IH]; [done|]. rewrite app_cons. simpl. by rewrite IH, orb_assoc. Qed.

Lemma entry_name_start x : entry_name x → startswith x "/" = false.
Proof.
  unfold entry_name. destruct x as [|a x]; [done|]. simpl.
  intros [Ha _]%orb_false_iff. apply bool_decide_eq_false in Ha.
  rewrite bool_decide_eq_false_2 by congruence. done.
Qed.

(** What [join] puts between its arguments. *)
Lemma join_entry a x :
  entry_name x →
  join a x = a +:+ (if bool_decide (a = "") || endswith a "/" then "" else "/") +:+ x.
Proof.
  intros Hx. unfold join. rewrite (entry_name_start _ Hx).
  by destruct (_ || _).
Qed.

Lemma join_inj a x y : entry_name x → entry_name y → join a x = join a y → x = y.
Proof.
  intros Hx Hy. rewrite !join_entry by done.
  intros Heq. by do 2 apply String.app_inj in Heq.
Qed.

Lemma last_component_entry x : entry_name x → last_component x = x.
Proof. unfold entry_name. destruct x as [|a x]; [done|]. simpl. by intros ->. Qed.

Lemma last_component_sep a x : entry_name x → last_component (a +:+ "/" +:+ x) = x.
Proof.
  intros Hx. induction a as [|c a IH].
  - rewrite app_nil_l_s, app_cons, app_nil_l_s. simpl.
    by apply last_component_entry.
  - rewrite app_cons. cbn [last_component]. rewrite <-app_cons.
    by rewrite sexistsb_app, sexistsb_app, orb_true_r.
Qed.

Lemma last_component_join a x : entry_name x → last_component (join a x) = x.
Proof.
  intros Hx. rewrite join_entry by done.
  case_bool_decide as Ha; simpl.
  - subst a. rewrite !app_nil_l_s. by apply last_component_entry.
  - destruct (endswith a "/") eqn:Hend.
    + apply endswith_spec in Hend as [a' ->].
      rewrite app_nil_l_s, app_assoc_s. by apply last_component_sep.
    + by apply last_component_sep.
Qed.

Lemma join_last a b x y : entry_name x → entry_name y → join a x = join b y → x = y.
Proof.
  intros Hx Hy Heq. apply (f_equal last_component) in Heq.
  by rewrite !last_component_join in Heq.
Qed.

(** [splitext] commutes with a renaming of characters that leaves dots and
    separators alone. *)
Section Renaming.
Variable h : ascii → ascii.
Hypothesis h_dot : ∀ c, h c = "."%char ↔ c = "."%char.
Hypothesis h_sep : ∀ c, h c = "/"%char ↔ c = "/"%char.

Lemma rfind_from_smap c s i last :
  (∀ a, h a = c ↔ a = c) →
  rfind_from c (smap h s) i last = rfind_from c s i last.
Proof.
  intros Hc. revert i last. induction s as [|a s IH]; intros i last; [done|].
  simpl. rewrite IH. f_equal.
  by rewrite (bool_decide_ext _ _ (Hc a)).
Qed.

Lemma sdrop_smap n s : sdrop n (smap h s) = smap h (sdrop n s).
Proof. revert s. induction n as [|n IH]; intros [|a s]; simpl; auto. Qed.

Lemma stake_smap n s : stake n (smap h s) = smap h (stake n s).
Proof. revert s. induction n as [|n IH]; intros [|a s]; simpl; auto. by rewrite IH. Qed.

Lemma sexistsb_smap p s : sexistsb p (smap h s) = sexistsb (λ c, p (h c)) s.
Proof. induction s as [|a s IH]; [done|]. simpl. by rewrite IH. Qed.

Lemma sexistsb_ext p q s : (∀ c, p c = q c) → sexistsb p s = sexistsb q s.
Proof. intros Hpq. induction s as [|a s IH]; [done|]. simpl. by rewrite IH, Hpq. Qed.

Lemma splitext_smap p :
  splitext (smap h p) = (smap h (splitext p).1, smap h (splitext p).2).
Proof.
  unfold splitext, rfind, slice.
  rewrite !rfind_from_smap by done.
  rewrite !sdrop_smap, !stake_smap, sexistsb_smap.
  rewrite (sexistsb_ext _ (λ c, negb (bool_decide (c = "."%char)))).
  - by destruct (_ && _).
  - intros c. f_equal. apply bool_decide_ext, h_dot.
Qed.

Lemma entry_name_smap x : entry_name x → entry_name (smap h x).
Proof.
  unfold entry_name. rewrite sexistsb_smap. intros Hx.
  rewrite (sexistsb_ext _ (λ c, bool_decide (c = "/"%char))); [done|].
  intros c. apply bool_decide_ext, h_sep.
Qed.

End Renaming.

Lemma replace_underscore_dot c :
  (if bool_decide (c = "_"%char) then " "%char else c) = "."%char ↔ c = "."%char.
Proof. case_bool_decide; [by subst|done]. Qed.

Lemma replace_underscore_sep c :
  (if bool_decide (c = "_"%char) then " "%char else c) = "/"%char ↔ c = "/"%char.
Proof. case_bool_decide; [by subst|done]. Qed.

Lemma splitext_replace filename :
  splitext (replace "_" " " filename)
  = (replace "_" " " (splitext filename).1, replace "_" " " (splitext filename).2).
Proof.
  apply splitext_smap; [apply replace_underscore_dot|apply replace_underscore_sep].
Qed.

Lemma entry_name_replace x : entry_name x → entry_name (replace "_" " " x).
Proof. apply entry_name_smap, replace_underscore_sep. Qed.

(** An extension that reads [.pdf] in lower case holds no underscore. *)
Lemma replace_pdf_ext ext : lower ext = ".pdf" → replace "_" " " ext = ext.
Proof.
  destruct ext as [|c1 [|c2 [|c3 [|c4 [|c5 ext]]]]]; try done.
  intros [= H1 H2 H3 H4]. unfold replace. simpl.
  repeat case_bool_decide; subst; done.
Qed.

Lemma routed_ext_replace filename :
  lower (splitext filename).2 = ".pdf" → routed_ext (replace "_" " " filename).
Proof.
  intros Hpdf. unfold routed_ext.
  rewrite splitext_replace. simpl. rewrite (replace_pdf_ext _ Hpdf), Hpdf.
  rewrite !elem_of_cons. tauto.
Qed.

Lemma pdf_folder_name_spec name :
  pdf_folder_name name = default "Unknown" (second_field name).
Proof.
  unfold pdf_folder_name, second_field. rewrite split_before_after.
  destruct (after "_" name) as [rest|]; [|done].
  by rewrite split_before_after.
Qed.

End PathFacts.

(** ** Properties of [move_files] *)

Section Router.
Context {W : Type} `{OS W}.
Import Py PosixPath Run.

Ltac run := unfold mbind, M_bind, mret, M_ret, bind, ret, lift, read, ask, call, print in *.

Lemma pdf_not_data : ".pdf" ∉ [".xlsx"; ".xls"; ".csv"].
Proof. rewrite !not_elem_of_cons. split_and!; [done..|apply not_elem_of_nil]. Qed.

Lemma routed_ext_data filename :
  lower (splitext filename).2 ∈ [".xlsx"; ".xls"; ".csv"] → routed_ext filename.
Proof. unfold routed_ext. rewrite !elem_of_cons. tauto. Qed.

Lemma routed_ext_pdf filename : lower (splitext filename).2 = ".pdf" → routed_ext filename.
Proof. unfold routed_ext. rewrite !elem_of_cons. tauto. Qed.

Lemma not_routed_ext filename :
  ¬ routed_ext filename →
  (lower (splitext filename).2 ∉ [".xlsx"; ".xls"; ".csv"]) ∧
  (lower (splitext filename).2 ≠ ".pdf").
Proof. intros Hext. split; intros ?; apply Hext; auto using routed_ext_data, routed_ext_pdf. Qed.

Lemma route_pdf src data docs filename (st : state W) :
  os_path_isfile (join src filename) (world st) = true →
  lower (splitext filename).2 = ".pdf" →
  route src data docs filename st =
  (ensure_folder_exists (join docs (pdf_folder_name (splitext filename).1));;
   call (EMove (join src filename)
               (join (join docs (pdf_folder_name (splitext filename).1))
                     (replace "_" " " filename)))
        (shutil_move (join src filename)
               (join (join docs (pdf_folder_name (splitext filename).1))
                     (replace "_" " " filename)))) st.
Proof.
  intros Hfile Hpdf. unfold route, mbind, M_bind.
  unfold bind at 1, ask. rewrite Hfile. simpl. rewrite Hpdf.
  rewrite bool_decide_eq_false_2 by apply pdf_not_data.
  by rewrite bool_decide_eq_true_2.
Qed.

Lemma route_unrouted src data docs filename (st : state W) :
  ¬ routed_ext filename → route src data docs filename st = (Ok (), st).
Proof.
  intros Hext. unfold route. run.
  destruct (os_path_isfile _ _); [|done].
  apply not_routed_ext in Hext as [Hdata Hpdf].
  rewrite bool_decide_eq_false_2 by done.
  by rewrite bool_decide_eq_false_2.
Qed.

Lemma issues_route_any src data docs filename :
  issues (λ _, True) (route src data docs filename).
Proof.
  unfold route. apply issues_bind; [apply issues_ask|]. intros []; [|apply issues_ret].
  case_bool_decide; [|case_bool_decide; [|apply issues_ret]].
  - apply issues_bind; [by apply issues_ensure_folder_exists|]. intros _.
    by apply issues_call.
  - apply issues_bind; [by apply issues_ensure_folder_exists|]. intros _.
    by apply issues_call.
Qed.

(** C8, as the code has it.  For a regular file whose extension reads .pdf
    in lower case, the iteration of [move_files] on it makes sure the folder
    exists and then moves the file to [Documents/<folder>/<name with each
    underscore replaced by a space>], where <folder> is the text that follows
    the first underscore of the name without its extension, up to the next
    underscore or to the end of that name, and is Unknown when that name has
    no underscore; the calls of that iteration are part of the calls of the
    loop; 123_judgment_2024.pdf goes to
    Documents/judgment/123 judgment 2024.pdf. *)
Theorem pdf_moved_to_documents src data docs filename (st : state W) :
  os_path_isfile (join src filename) (world st) = true →
  lower (splitext filename).2 = ".pdf" →
  let folder := default "Unknown" (second_field (splitext filename).1) in
  let subfolder := join docs folder in
  let destination := join subfolder (replace "_" " " filename) in
  route src data docs filename st =
    (ensure_folder_exists subfolder;;
     call (EMove (join src filename) destination)
          (shutil_move (join src filename) destination)) st ∧
  (∀ st1, ensure_folder_exists subfolder st = (Ok (), st1) →
     trace (route src data docs filename st).2
     = trace st1 ++ [EMove (join src filename) destination]) ∧
  (∀ earlier later st0,
     for_ earlier (route src data docs) st0 = (Ok (), st) →
     ∃ rest, trace (for_ (earlier ++ filename :: later) (route src data docs) st0).2
             = trace (route src data docs filename st).2 ++ rest) ∧
  join (join "Documents"
             (default "Unknown" (second_field (splitext "123_judgment_2024.pdf").1)))
       (replace "_" " " "123_judgment_2024.pdf")
  = "Documents/judgment/123 judgment 2024.pdf".
Proof.
  intros Hfile Hpdf folder subfolder destination.
  pose proof (route_pdf src data docs filename st Hfile Hpdf) as Hroute.
  rewrite pdf_folder_name_spec in Hroute. fold folder subfolder destination in Hroute.
  split_and!; [done| | |done].
  - intros st1 Hensure. rewrite Hroute. unfold mbind, M_bind, bind. rewrite Hensure.
    unfold call. by destruct (shutil_move _ _ _).
  - intros earlier later st0 Hearlier. rewrite for_app. unfold bind at 1.
    rewrite Hearlier. simpl. unfold bind.
    destruct (route src data docs filename st) as [[[]|e] st2]; simpl.
    + destruct (issues_for (λ _, True) later (route src data docs)) with (st := st2)
        as (rest & Hrest & _); [|by exists rest].
      intros f _. apply issues_route_any.
    + exists []. by rewrite app_nil_r.
Qed.

Lemma not_moves_other path ev : (∀ s d, ev ≠ EMove s d) → ¬ moves path ev.
Proof.
  destruct ev as [?|?|? ?|?|?|s d|?|]; simpl; try (by intros _ []).
  intros Hev. by destruct (Hev s d).
Qed.

(** One iteration of the loop moves no file from or onto the path of an
    entry whose extension it does not act on. *)
Lemma issues_route src data docs filename other :
  entry_name filename → entry_name other → ¬ routed_ext filename →
  issues (λ ev, ¬ moves (join src filename) ev) (route src data docs other).
Proof.
  intros Hname Hother Hext. unfold route.
  apply issues_bind; [apply issues_ask|]. intros []; [|apply issues_ret].
  case_bool_decide as Hdata; [|case_bool_decide as Hpdf; [|apply issues_ret]].
  - assert (other ≠ filename) as Hne.
    { intros ->. by apply Hext, routed_ext_data. }
    apply issues_bind; [by apply issues_ensure_folder_exists, not_moves_other|]. intros _.
    apply issues_call. intros [Hsrc|Hdst].
    + by apply join_inj in Hsrc.
    + by apply join_last in Hdst.
  - apply issues_bind; [by apply issues_ensure_folder_exists, not_moves_other|]. intros _.
    apply issues_call. intros [Hsrc|Hdst].
    + apply join_inj in Hsrc; [|done..]. subst other.
      by apply Hext, routed_ext_pdf.
    + apply join_last in Hdst; [|by apply entry_name_replace|done].
      apply Hext. rewrite <-Hdst. by apply routed_ext_replace.
Qed.

(** C9.  An entry of the source directory whose extension is none of
    .xlsx, .xls, .csv, .pdf (in any case) is passed over by its iteration,
    and no call of the whole run moves a file from its path or onto it. *)
Theorem unrouted_file_left_in_place src data docs xj filename (st : state W) :
  entry_name filename →
  ¬ routed_ext filename →
  (∀ names, os_listdir src (world (process_xjmtr src xj st).2) = Ok names →
            Forall entry_name names) →
  (∀ st0 : state W, route src data docs filename st0 = (Ok (), st0)) ∧
  ∃ evs, trace (move_files src data docs xj st).2 = trace st ++ evs ∧
         Forall (λ ev, ¬ moves (join src filename) ev) evs.
Proof.
  intros Hname Hext Hlisting. split; [intros st0; by apply route_unrouted|].
  unfold move_files, mbind, M_bind. unfold bind at 1.
  destruct (issues_process_xjmtr (λ ev, ¬ moves (join src filename) ev) src xj
              (not_moves_other _) st) as (evs1 & Htrace1 & Hevs1).
  destruct (process_xjmtr src xj st) as [[[]|e] st1]; simpl in *; [|by exists evs1].
  unfold bind, read.
  destruct (os_listdir src (world st1)) as [names|e] eqn:Hnames; simpl.
  - destruct (issues_for (λ ev, ¬ moves (join src filename) ev) names
                (route src data docs)) with (st := logged (EListdir src) st1)
      as (evs2 & Htrace2 & Hevs2).
    { intros other Hin. apply issues_route; [done| |done].
      specialize (Hlisting names eq_refl). rewrite Forall_forall in Hlisting. auto. }
    exists (evs1 ++ [EListdir src] ++ evs2). split.
    + rewrite Htrace2. simpl. rewrite Htrace1. by rewrite <-!app_assoc.
    + apply Forall_app. split; [done|]. apply Forall_cons. split; [|done].
      by apply not_moves_other.
  - exists (evs1 ++ [EListdir src]). split.
    + by rewrite Htrace1, <-app_assoc.
    + apply Forall_app. split; [done|]. apply Forall_cons. split; [|done].
      by apply not_moves_other.
Qed.

End Router.

(** ** The properties on the sample inputs *)

Section Samples.
Import Py PosixPath Run.

Lemma no_code_no_row_witness :
  determine_llcode (VStr "X") (VStr "Jane Doe") (VStr "Jane Doe") VNone (VStr "John Roe")
  = VNone ∧
  (excel_row Demo.labels (Locals [] [] ∅) Demo.first_visit
             (Fake.office Demo.visits Demo.cases)).1
  = Ok (Locals [] [] ∅).
Proof.
  destruct (no_code_no_row Demo.labels (Locals [] [] ∅) Demo.first_visit
              (Fake.office Demo.visits Demo.cases) Demo.cases
              (VInt 777) (VStr "Jane Doe") VNone (VStr "John Roe")) as [Hcode Hrow].
  - reflexivity.
  - vm_compute. reflexivity.
  - left. apply (bool_decide_unpack _). vm_compute. exact I.
  - split.
    + apply Hcode. left. apply (bool_decide_unpack _). vm_compute. exact I.
    + destruct (excel_row Demo.labels (Locals [] [] ∅) Demo.first_visit
                  (Fake.office Demo.visits Demo.cases)) as [[acc'|e] st'] eqn:Hrun.
      * simpl. f_equal. exact (Hrow acc' st' eq_refl).
      * vm_compute in Hrun. discriminate Hrun.
Defined.

Lemma unmatched_pair_not_recorded_witness :
  for_acc [Demo.stranger; Demo.stranger_again] (excel_row Demo.labels) (Locals [] [] ∅)
          (Fake.office Demo.visits Demo.cases)
  = (Ok (Locals [] [] ∅),
     logged EQuery (logged EQuery (Fake.office Demo.visits Demo.cases))).
Proof.
  refine (proj2 (unmatched_pair_not_recorded Demo.labels (Locals [] [] ∅)
                   Demo.stranger Demo.stranger_again
                   (Fake.office Demo.visits Demo.cases) Demo.cases _ _ _ _ _ _)).
  - reflexivity.
  - apply has_fields_check. vm_compute. reflexivity.
  - apply has_fields_check. vm_compute. reflexivity.
  - vm_compute. reflexivity.
  - apply not_elem_of_empty.
  - repeat constructor.
Defined.

Lemma outputs_carry_spreadsheet_fileno_witness :
  ∃ llcode person_served date_of_service address service_type cleaned_notes,
    output_data_1 (appended Demo.cases Demo.labels (Locals [] [] ∅) Demo.second_visit)
    = [] ++ [[VInt 500; llcode; person_served; date_of_service; address; service_type]] ∧
    output_data_2 (appended Demo.cases Demo.labels (Locals [] [] ∅) Demo.second_visit)
    = [] ++ [[VInt 109; VStr "D"; VInt 500; VStr "XNSRV"; VStr "MWC"; cleaned_notes;
              VStr "#"]].
Proof.
  refine (proj1 (outputs_carry_spreadsheet_fileno Demo.labels (Locals [] [] ∅)
                   Demo.second_visit (Fake.office Demo.visits Demo.cases)
                   (logged EQuery (Fake.office Demo.visits Demo.cases))
                   (appended Demo.cases Demo.labels (Locals [] [] ∅) Demo.second_visit)
                   Demo.cases _ _ _)).
  - reflexivity.
  - vm_compute. reflexivity.
  - intros Heq. apply (f_equal output_data_1) in Heq. vm_compute in Heq. discriminate.
Defined.

Lemma first_accepted_row_wins_witness :
  ∃ kept,
    [row1_of Demo.cases Demo.labels Demo.second_visit]
    = row1_of Demo.cases Demo.labels <$> kept ∧
    [row2_of Demo.labels Demo.second_visit] = row2_of Demo.labels <$> kept ∧
    NoDup (pair_of Demo.labels <$> kept) ∧
    (∀ r, r ∈ kept →
          first_accepted Demo.cases Demo.labels
            (summons_rows Demo.labels (rows Demo.visits)) r).
Proof.
  destruct (first_accepted_row_wins "visits.xlsx" Demo.visits Demo.cases
              (Fake.office Demo.visits Demo.cases)
              (process_excel_file "visits.xlsx" (Fake.office Demo.visits Demo.cases)).2
              [row1_of Demo.cases Demo.labels Demo.second_visit]
              [row2_of Demo.labels Demo.second_visit])
    as (kept & Hout1 & Hout2 & Hnodup & _ & Hfirst & _).
  - reflexivity.
  - reflexivity.
  - vm_compute. reflexivity.
  - exists kept. split; [exact Hout1|]. split; [exact Hout2|].
    split; [exact Hnodup|exact Hfirst].
Defined.

(** C3 as worded fails: the two first rows of the sample workbook have the
    same (case id, person served) pair, the first (service type X, dated
    2024-01-05) is rejected, and the outputs are built from the second
    (service type N, dated 2024-02-09), which is not the first of its pair. *)
Lemma first_row_does_not_win :
  ∃ out1 out2,
    (process_excel_file "visits.xlsx" (Fake.office Demo.visits Demo.cases)).1
    = Ok (out1, out2) ∧
    out1 = [[VInt 500; VStr "XSNG1"; VStr "Jane Doe"; VStr "2024-02-09"; VStr "1 Main St";
             VStr "N"]] ∧
    ¬ spec_first_row_wins Demo.cases Demo.labels
        (summons_rows Demo.labels (rows Demo.visits)) out1 out2.
Proof.
  eexists _, _. split; [by vm_compute|]. split; [done|].
  intros (kept & Hout1 & _ & _ & Hfirst).
  destruct kept as [|r [|r' kept]]; try discriminate Hout1.
  injection Hout1 as Hr.
  destruct (Hfirst r) as (earlier & later & Hdata & Hpairs); [by left|].
  change (summons_rows Demo.labels (rows Demo.visits))
    with [Demo.first_visit; Demo.second_visit; Demo.third_visit] in Hdata.
  destruct earlier as [|r1 [|r2 [|r3 earlier]]]; simplify_eq/=.
  - apply (Hpairs Demo.first_visit); [by left|by vm_compute].
  - by destruct earlier.
Qed.

Lemma xjmtr_lines_witness :
  ∃ rest,
    trace (process_xjmtr "inbox" "xjmtr.txt"
             (Fake.directory "inbox" ["500_judgment.pdf"; "notes.txt"])).2
    = trace (Fake.directory "inbox" ["500_judgment.pdf"; "notes.txt"])
      ++ EOpenW "xjmtr.txt" :: EWrite "xjmtr.txt" xjmtr_header :: rest.
Proof.
  refine (proj1 (xjmtr_lines "inbox" "xjmtr.txt"
                   (Fake.directory "inbox" ["500_judgment.pdf"; "notes.txt"])
                   (Fake.with_files
                      (world (Fake.directory "inbox" ["500_judgment.pdf"; "notes.txt"]))
                      ({[ "xjmtr.txt" ]} ∪
                       Fake.files
                         (world (Fake.directory "inbox" ["500_judgment.pdf"; "notes.txt"]))))
                   _)).
  reflexivity.
Defined.

(** C5.  The test of the code and the test the claim words agree on every
    entry whose text before the first underscore holds no superscript digit.
    They part on an entry such as the judgment PDF whose name starts with
    the superscript two: that character is no decimal digit, the claim gives
    the entry no line, and [process_xjmtr] writes a line for it, because
    [fileno.isdigit()] is true of the superscript digits. *)
Theorem xjmtr_superscript_prefix :
  (∀ f, sexistsb superscript_digit (first_field f) = false → tagged f = spec_tagged f) ∧
  first_field Demo.squared_judgment = String Demo.superscript_two "" ∧
  char_isdecimal Demo.superscript_two = false ∧
  spec_tagged Demo.squared_judgment = false ∧
  spec_xjmtr_events "inbox" "xjmtr.txt" [Demo.squared_judgment]
  = [EOpenW "xjmtr.txt"; EWrite "xjmtr.txt" xjmtr_header; EListdir "inbox"] ∧
  (process_xjmtr "inbox" "xjmtr.txt" (Fake.directory "inbox" [Demo.squared_judgment])).1
  = Ok () ∧
  trace (process_xjmtr "inbox" "xjmtr.txt"
           (Fake.directory "inbox" [Demo.squared_judgment])).2
  = [EOpenW "xjmtr.txt"; EWrite "xjmtr.txt" xjmtr_header; EListdir "inbox";
     EWrite "xjmtr.txt" (xjmtr_line (String Demo.superscript_two ""));
     EPrint (xjmtr_message (String Demo.superscript_two ""))].
Proof. split_and!; [apply tagged_without_superscript|by vm_compute..]. Qed.

(** C6 as worded fails: a name stored with a tab in front and a space
    behind comes back from the query with the tab still in front, so that
    the name itself finds no case, where the scan over names trimmed of
    whitespace finds case 41. *)
Lemma fetch_defendants_tab_padded :
  select_defendants Demo.tab_padded = [(VInt 41, VStr (TAB +:+ "Ann Lee"), VNone, VNone)] ∧
  spec_fetch_defendants (VStr "Ann Lee") Demo.tab_padded
  = (VInt 41, VStr "Ann Lee", VNone, VNone) ∧
  (fetch_defendants (VStr "Ann Lee") (Fake.office Fake.no_workbook Demo.tab_padded)).1
  = Ok (VNone, VNone, VNone, VNone) ∧
  (fetch_defendants (VStr "Ann Lee") (Fake.office Fake.no_workbook Demo.tab_padded)).1
  ≠ Ok (spec_fetch_defendants (VStr "Ann Lee") Demo.tab_padded).
Proof. split_and!; by vm_compute. Qed.

Lemma fetch_defendants_first_match_witness :
  ∃ found,
    fetch_defendants (VStr "John Roe") (Fake.office Demo.visits Demo.cases)
    = (Ok found, logged EQuery (Fake.office Demo.visits Demo.cases)) ∧
    (select_defendants Demo.cases = [] → found = (VNone, VNone, VNone, VNone)).
Proof.
  destruct (fetch_defendants_first_match (VStr "John Roe")
              (Fake.office Demo.visits Demo.cases) Demo.cases)
    as (found & Hrun & _ & Hempty & _).
  - reflexivity.
  - exists found. split; [exact Hrun|exact Hempty].
Defined.

Lemma document_category_column_witness :
  process_excel_file "loose.xlsx" (Fake.office Demo.uncategorised Demo.cases)
  = (Ok ([], []),
     logged (EPrint ("'Document Category' column missing in " +:+ "loose.xlsx"))
            (logged (EReadExcel "loose.xlsx") (Fake.office Demo.uncategorised Demo.cases))).
Proof.
  refine (proj1 (document_category_column "loose.xlsx" Demo.uncategorised
                   (Fake.office Demo.uncategorised Demo.cases) _) _).
  - reflexivity.
  - apply (bool_decide_unpack _). vm_compute. exact I.
Defined.

Lemma pdf_moved_to_documents_witness :
  trace (route "inbox" "Data" "Documents" "123_judgment_2024.pdf"
           (Fake.directory "inbox" ["123_judgment_2024.pdf"])).2
  = trace (ensure_folder_exists "Documents/judgment"
             (Fake.directory "inbox" ["123_judgment_2024.pdf"])).2
    ++ [EMove "inbox/123_judgment_2024.pdf" "Documents/judgment/123 judgment 2024.pdf"].
Proof.
  refine (proj1 (proj2 (pdf_moved_to_documents "inbox" "Data" "Documents"
                          "123_judgment_2024.pdf"
                          (Fake.directory "inbox" ["123_judgment_2024.pdf"]) _ _))
            (ensure_folder_exists "Documents/judgment"
               (Fake.directory "inbox" ["123_judgment_2024.pdf"])).2 _).
  - vm_compute. reflexivity.
  - reflexivity.
  - vm_compute. reflexivity.
Defined.

(** C8 as worded fails: [500_judgment.pdf] has one underscore, so no text
    lies between a first and a second underscore and the claim names the
    folder Unknown; the file is moved to [Documents/judgment]. *)
Lemma pdf_folder_counterexample :
  spec_pdf_destination "Documents" "500_judgment.pdf" = "Documents/Unknown/500 judgment.pdf" ∧
  trace (route "inbox" "Data" "Documents" "500_judgment.pdf"
           (Fake.directory "inbox" ["500_judgment.pdf"])).2
  = [EMakedirs "Documents/judgment";
     EMove "inbox/500_judgment.pdf" "Documents/judgment/500 judgment.pdf"] ∧
  EMove "inbox/500_judgment.pdf" (spec_pdf_destination "Documents" "500_judgment.pdf")
  ∉ trace (route "inbox" "Data" "Documents" "500_judgment.pdf"
             (Fake.directory "inbox" ["500_judgment.pdf"])).2.
Proof.
  split_and!; [by vm_compute..|].
  apply (bool_decide_unpack _). by vm_compute.
Qed.

Lemma unrouted_file_left_in_place_witness :
  ∃ evs,
    trace (move_files "inbox" "Data" "Documents" "xjmtr.txt"
             (Fake.directory "inbox" ["notes.txt"; "500_judgment.pdf"; "500_cover.xlsx"])).2
    = trace (Fake.directory "inbox" ["notes.txt"; "500_judgment.pdf"; "500_cover.xlsx"])
      ++ evs ∧
    Forall (λ ev, ¬ moves (join "inbox" "notes.txt") ev) evs.
Proof.
  refine (proj2 (unrouted_file_left_in_place "inbox" "Data" "Documents" "xjmtr.txt"
                   "notes.txt"
                   (Fake.directory "inbox" ["notes.txt"; "500_judgment.pdf"; "500_cover.xlsx"])
                   _ _ _)).
  - reflexivity.
  - apply (bool_decide_unpack _). vm_compute. exact I.
  - intros names Hnames. vm_compute in Hnames. injection Hnames as <-.
    repeat constructor.
Defined.

End Samples.

(** ** The Python model on small inputs *)

Section Checks.
Import Py PosixPath Run.

Example split_fields :
  split "_" "123_judgment_2024" = ["123"; "judgment"; "2024"] ∧
  split "_" "" = [""] ∧ split "_" "_a" = [""; "a"] ∧ split "_" "a__b" = ["a"; ""; "b"].
Proof. by split_and!. Qed.

Example splitext_cases :
  splitext "a.b.PDF" = ("a.b", ".PDF") ∧ splitext ".pdf" = (".pdf", "") ∧
  splitext "..pdf" = ("..pdf", "") ∧ splitext "dir.d/file" = ("dir.d/file", "") ∧
  splitext "notes" = ("notes", "").
Proof. by split_and!. Qed.

Example join_cases :
  join "Data" "123" = "Data/123" ∧ join "Data/" "123" = "Data/123" ∧
  join "" "123" = "123" ∧ join "Data" "/tmp" = "/tmp".
Proof. by split_and!. Qed.

Example isdigit_cases :
  isdigit "" = false ∧ isdigit "0123456789" = true ∧ isdigit "12a" = false ∧
  isdigit (String Demo.superscript_two "") = true.
Proof. by split_and!. Qed.

Example strip_header : strip (" Document Category " +:+ TAB +:+ LF) = "Document Category".
Proof. reflexivity. Qed.

Example lower_name : lower "500_JUDGMENT.Pdf" = "500_judgment.pdf".
Proof. reflexivity. Qed.

Example marker_found :
  contains "judgment" "500_judgment_2024.pdf" = true ∧
  contains "judgment" "500_judgement.pdf" = false ∧
  endswith "500_judgment.pdf" ".pdf" = true ∧ endswith "500_judgment.pdf.bak" ".pdf" = false.
Proof. by split_and!. Qed.

(** A whole run on a folder with a judgment, a workbook and a stray file. *)
Example run_on_folder :
  trace (move_files "inbox" "out/Data" "out/Documents" "out/xjmtr.txt"
           (Fake.directory "inbox" ["500_judgment.pdf"; "500_cover.xlsx"; "readme.txt"])).2
  = [EOpenW "out/xjmtr.txt";
     EWrite "out/xjmtr.txt" xjmtr_header;
     EListdir "inbox";
     EWrite "out/xjmtr.txt" (xjmtr_line "500");
     EPrint (xjmtr_message "500");
     EListdir "inbox";
     EMakedirs "out/Documents/judgment";
     EMove "inbox/500_judgment.pdf" "out/Documents/judgment/500 judgment.pdf";
     EMakedirs "out/Data/500";
     EMove "inbox/500_cover.xlsx" "out/Data/500/500_cover.xlsx"].
Proof. by vm_compute. Qed.

End Checks.

(** ** Further properties of the codes and of the notes *)

Section Codes.
Import Py.

Lemma fmt_nat_slot i :
  (i < 3)%nat → fmt_nat (i + 1) = nth i ["1"; "2"; "3"] "".
Proof. destruct i as [|[|[|i]]]; intros Hi; try lia; by vm_compute. Qed.

(** What a code is made of. *)
Lemma determine_llcode_form service_type person_served d1 d2 d3 :
  determine_llcode service_type person_served d1 d2 d3 ≠ VNone →
  ∃ t prefix i,
    (t, prefix) ∈ [("N", "XSNG"); ("S", "XSUBS"); ("P", "XPS")] ∧ (i < 3)%nat ∧
    service_type = VStr t ∧
    index person_served [d1; d2; d3] = Some i ∧
    determine_llcode service_type person_served d1 d2 d3
    = VStr (prefix +:+ nth i ["1"; "2"; "3"] "").
Proof.
  intros Hcode.
  destruct (service_prefix service_type) as [prefix|] eqn:Hp;
    [|by rewrite determine_llcode_None in Hcode by auto].
  destruct (py_in person_served [d1; d2; d3]) eqn:Hin;
    [|by rewrite determine_llcode_None in Hcode by auto].
  rewrite (determine_llcode_prefix _ _ _ _ _ _ Hp).
  destruct (slot_code_in prefix _ _ _ _ Hin) as (i & Hi & ->).
  pose proof (index_length _ _ _ Hi) as Hlen. simpl in Hlen.
  rewrite fmt_nat_slot by done.
  revert Hp. unfold service_prefix.
  repeat case_bool_decide; intros [= <-]; subst.
  - exists "N", "XSNG", i. split_and!; try done. rewrite !elem_of_cons. auto.
  - exists "S", "XSUBS", i. split_and!; try done. rewrite !elem_of_cons. auto.
  - exists "P", "XPS", i. split_and!; try done. rewrite !elem_of_cons. auto.
Qed.

Lemma determine_llcode_member service_type person_served d1 d2 d3 :
  determine_llcode service_type person_served d1 d2 d3 ≠ VNone →
  determine_llcode service_type person_served d1 d2 d3 ∈ llcodes.
Proof.
  intros Hcode.
  destruct (determine_llcode_form _ _ _ _ _ Hcode) as (t & prefix & i & Ht & Hi & _ & _ & ->).
  rewrite !elem_of_cons in Ht.
  destruct Ht as [[= -> ->]|[[= -> ->]|[[= -> ->]|Hnil]]];
    [..|by apply elem_of_nil in Hnil];
    destruct i as [|[|[|i]]]; try lia;
    apply (bool_decide_unpack _); by vm_compute.
Qed.

(** X1.  [determine_llcode] returns [None] or one of the nine codes XSNG1
    .. XPS3. *)
Theorem determine_llcode_range service_type person_served d1 d2 d3 :
  determine_llcode service_type person_served d1 d2 d3 = VNone ∨
  determine_llcode service_type person_served d1 d2 d3 ∈ llcodes.
Proof.
  destruct (decide (determine_llcode service_type person_served d1 d2 d3 = VNone))
    as [|Hcode]; [by left|right]. by apply determine_llcode_member.
Qed.

(** X2.  A code tells the service type and the slot: two calls that return
    the same code were given the same service type and found the person
    served at the same position of their defendant lists. *)
Theorem determine_llcode_unambiguous
    service_type person_served d1 d2 d3 service_type' person_served' e1 e2 e3 :
  determine_llcode service_type person_served d1 d2 d3 ≠ VNone →
  determine_llcode service_type person_served d1 d2 d3
  = determine_llcode service_type' person_served' e1 e2 e3 →
  service_type = service_type' ∧
  index person_served [d1; d2; d3] = index person_served' [e1; e2; e3].
Proof.
  intros Hcode Heq.
  assert (determine_llcode service_type' person_served' e1 e2 e3 ≠ VNone) as Hcode'
    by congruence.
  destruct (determine_llcode_form _ _ _ _ _ Hcode) as (t & p & i & Ht & Hi & -> & -> & Hc).
  destruct (determine_llcode_form _ _ _ _ _ Hcode')
    as (t' & p' & i' & Ht' & Hi' & -> & -> & Hc').
  rewrite Hc, Hc' in Heq. clear Hc Hc' Hcode Hcode'.
  rewrite !elem_of_cons in Ht, Ht'.
  destruct Ht as [[= -> ->]|[[= -> ->]|[[= -> ->]|Hnil]]];
    [..|by apply elem_of_nil in Hnil];
    destruct Ht' as [[= -> ->]|[[= -> ->]|[[= -> ->]|Hnil]]];
    try (by apply elem_of_nil in Hnil);
    destruct i as [|[|[|i]]]; try lia; destruct i' as [|[|[|i']]]; try lia;
    by vm_compute in Heq.
Qed.

Lemma determine_llcode_unambiguous_witness :
  VStr "S" = VStr "S" ∧
  index (VStr "B") [VStr "A"; VStr "B"; VStr "C"]
  = index (VStr "Roe") [VStr "Doe"; VStr "Roe"; VNone].
Proof.
  apply (determine_llcode_unambiguous (VStr "S") (VStr "B") (VStr "A") (VStr "B") (VStr "C")
           (VStr "S") (VStr "Roe") (VStr "Doe") (VStr "Roe") VNone).
  - by vm_compute.
  - by vm_compute.
Defined.

Lemma one_line_replace s :
  one_line (replace "013" " " (replace "010" " " s)).
Proof.
  unfold one_line, replace. induction s as [|c s IH]; [done|]. simpl.
  rewrite IH, orb_false_r. repeat case_bool_decide; subst; done.
Qed.

Lemma replace_length old new s : String.length (replace old new s) = String.length s.
Proof. unfold replace. induction s as [|c s IH]; [done|]. simpl. by rewrite IH. Qed.

Lemma replace_one_line s :
  one_line s → replace "013" " " (replace "010" " " s) = s.
Proof.
  unfold one_line, replace. induction s as [|c s IH]; [done|]. simpl.
  intros [Hc Hs]%orb_false_iff. rewrite IH by done.
  apply orb_false_iff in Hc as [Hlf Hcr].
  apply bool_decide_eq_false in Hlf, Hcr.
  rewrite (bool_decide_eq_false_2 (c = "010"%char)) by done.
  by rewrite (bool_decide_eq_false_2 (c = "013"%char)).
Qed.

(** X3.  The note of a row is cleaned character by character: the result
    has the length of the note and holds neither line feed nor carriage
    return, and a note that holds none is returned as it is, so that cleaning
    twice is cleaning once. *)
Theorem clean_notes_one_line s :
  ∃ s', clean_notes (VStr s) = Ok (VStr s') ∧
        one_line s' ∧
        String.length s' = String.length s ∧
        (one_line s → s' = s) ∧
        clean_notes (VStr s') = Ok (VStr s').
Proof.
  eexists. split; [done|]. split_and!.
  - apply one_line_replace.
  - by rewrite !replace_length.
  - apply replace_one_line.
  - simpl. do 2 f_equal. apply replace_one_line, one_line_replace.
Qed.

End Codes.

(** ** Further properties of the spreadsheet loop *)

Section MoreClassifier.
Context {W : Type} `{OS W}.
Import Py Run.

Ltac run := unfold mbind, M_bind, mret, M_ret, bind, ret, lift, read, ask, call, print in *.

Lemma scan_rows_first person_served earlier c later :
  Forall (λ c, names_person person_served c = false) earlier →
  names_person person_served c = true →
  scan_rows person_served (earlier ++ c :: later) = c.
Proof.
  intros Hearlier Hc. induction Hearlier as [|[[[f d1] d2] d3] earlier Hx _ IH]; simpl.
  - destruct c as [[[f d1] d2] d3]. simpl in Hc. by rewrite Hc.
  - simpl in Hx. by rewrite Hx.
Qed.

(** The two tests of the loop, read on the result set. *)
Lemma accepted_first_case tbl labels row :
  accepted tbl labels row = true ↔
  cell labels row "Service Type" ∈ [VStr "N"; VStr "S"; VStr "P"] ∧
  ∃ earlier file_no d1 d2 d3 later,
    select_defendants tbl = earlier ++ (file_no, d1, d2, d3) :: later ∧
    Forall (λ c, names_person (cell labels row "Person Served") c = false) earlier ∧
    py_in (cell labels row "Person Served") [d1; d2; d3] = true ∧
    truthy file_no = true.
Proof.
  unfold accepted, llcode_of, lookup.
  set (ps := cell labels row "Person Served"). set (ty := cell labels row "Service Type").
  split.
  - destruct (scan_rows_spec ps (select_defendants tbl))
      as [(earlier & later & Hsel & Hnames & Hearlier)|[_ ->]]; [|done].
    destruct (scan_rows ps (select_defendants tbl)) as [[[f d1] d2] d3].
    intros [Hf [Hp Hin]%determine_llcode_truthy]%andb_true_iff. split.
    + destruct (decide (ty ∈ [VStr "N"; VStr "S"; VStr "P"])) as [|Hty]; [done|].
      apply service_prefix_None in Hty. rewrite Hty in Hp. by destruct Hp.
    + by exists earlier, f, d1, d2, d3, later.
  - intros (Hty & earlier & f & d1 & d2 & d3 & later & -> & Hearlier & Hin & Hf).
    rewrite (scan_rows_first _ _ (f, d1, d2, d3)) by done.
    rewrite Hf. simpl. apply determine_llcode_truthy. split; [|done].
    destruct (service_prefix ty) eqn:Hp; [done|].
    by apply service_prefix_None in Hp.
Qed.

(** X4.  What an iteration of [process_excel_file] does with a row whose
    pair is not yet processed and whose note is a string is decided by the
    first case of the result set that names the person served, whatever
    cases follow it.  When that case has a [FileNo] that counts as true and
    the service type is N, S or P, one row is appended to each output, with
    the code computed from the slots of that case, and the pair is recorded;
    when its [FileNo] is 0, the empty string or [NULL], or the service type
    is another, or no case names the person, the iteration changes nothing.
    Either way the database is queried once. *)
Theorem row_appended_iff_first_case labels acc row (st : state W) tbl s :
  fetchall_master (world st) = Ok tbl →
  has_fields labels row →
  pair_of labels row ∉ processed_pairs acc →
  get labels row "Note" (VStr "") = VStr s →
  let file_no := cell labels row "FileNo" in
  let person_served := cell labels row "Person Served" in
  let service_type := cell labels row "Service Type" in
  (∀ earlier matched_file_no d1 d2 d3 later,
     select_defendants tbl = earlier ++ (matched_file_no, d1, d2, d3) :: later →
     Forall (λ c, names_person person_served c = false) earlier →
     py_in person_served [d1; d2; d3] = true →
     excel_row labels acc row st =
       if truthy matched_file_no
          && bool_decide (service_type ∈ [VStr "N"; VStr "S"; VStr "P"])
       then
         (Ok (Locals
                (output_data_1 acc ++
                   [[file_no; determine_llcode service_type person_served d1 d2 d3;
                     person_served; cell labels row "Date of Service";
                     cell labels row "Service Street Address"; service_type]])
                (output_data_2 acc ++
                   [[VInt 109; VStr "D"; file_no; VStr "XNSRV"; VStr "MWC";
                     VStr (replace "013" " " (replace "010" " " s)); VStr "#"]])
                ({[ (file_no, person_served) ]} ∪ processed_pairs acc)),
          logged EQuery st)
       else (Ok acc, logged EQuery st)) ∧
  (Forall (λ c, names_person person_served c = false) (select_defendants tbl) →
   excel_row labels acc row st = (Ok acc, logged EQuery st)).
Proof.
  intros Htbl Hrow Hfresh Hnote file_no person_served service_type.
  rewrite (excel_row_run _ _ _ _ tbl Htbl Hrow).
  rewrite bool_decide_eq_false_2 by done. split.
  - intros earlier matched_file_no d1 d2 d3 later Hsel Hearlier Hin.
    assert (lookup tbl person_served = (matched_file_no, d1, d2, d3)) as Hlookup.
    { unfold lookup. rewrite Hsel. by apply scan_rows_first. }
    assert (truthy (determine_llcode service_type person_served d1 d2 d3)
            = bool_decide (service_type ∈ [VStr "N"; VStr "S"; VStr "P"])) as Hcode.
    { case_bool_decide as Hty.
      - apply determine_llcode_truthy. split; [|done].
        destruct (service_prefix service_type) eqn:Hp; [done|].
        by apply service_prefix_None in Hp.
      - apply not_true_is_false. intros [Hp _]%determine_llcode_truthy.
        apply service_prefix_None in Hty. rewrite Hty in Hp. by destruct Hp. }
    unfold accepted, appended, row1_of, row2_of, llcode_of, pair_of.
    fold file_no person_served service_type. rewrite Hlookup, Hcode, Hnote. simpl.
    by destruct (truthy matched_file_no && _).
  - intros Hnone. unfold accepted. fold person_served.
    rewrite (lookup_unmatched _ _ Hnone). simpl. done.
Qed.

Lemma excel_row_keyerror labels acc row (st : state W) :
  ¬ has_fields labels row →
  ∃ k, k ∈ required ∧ excel_row labels acc row st = (Raise (KeyError k), st).
Proof.
  intros Hmissing.
  assert (∀ key, (∃ v, getitem labels row key = Ok v) ∨
                 getitem labels row key = Raise (KeyError key)) as Hget.
  { intros key. unfold getitem. destruct (label_index key labels); [|by right].
    destruct (row !! _); eauto. }
  unfold excel_row. run.
  destruct (Hget "FileNo") as [[v1 H1]| ->];
    [|exists "FileNo"; split; [unfold required; rewrite !elem_of_cons; auto 10|done]].
  destruct (Hget "Person Served") as [[v2 H2]|H2];
    [|exists "Person Served"; rewrite H1, H2;
      split; [unfold required; rewrite !elem_of_cons; auto 10|done]].
  destruct (Hget "Service Type") as [[v3 H3]|H3];
    [|exists "Service Type"; rewrite H1, H2, H3;
      split; [unfold required; rewrite !elem_of_cons; auto 10|done]].
  destruct (Hget "Date of Service") as [[v4 H4]|H4];
    [|exists "Date of Service"; rewrite H1, H2, H3, H4;
      split; [unfold required; rewrite !elem_of_cons; auto 10|done]].
  destruct (Hget "Service Street Address") as [[v5 H5]|H5];
    [|exists "Service Street Address"; rewrite H1, H2, H3, H4, H5;
      split; [unfold required; rewrite !elem_of_cons; auto 10|done]].
  exfalso. apply Hmissing. intros key Hkey. unfold required in Hkey.
  rewrite !elem_of_cons in Hkey.
  destruct Hkey as [->|[->|[->|[->|[->|Hnil]]]]];
    [by eapply getitem_cell..|by apply elem_of_nil in Hnil].
Qed.

Lemma has_fields_labels labels row key :
  has_fields labels row → key ∈ required → key ∈ labels.
Proof.
  intros Hrow Hkey. specialize (Hrow key Hkey). unfold getitem in Hrow.
  destruct (decide (key ∈ labels)) as [|Hout]; [done|].
  by rewrite (label_index_None _ _ Hout) in Hrow.
Qed.

(** X5.  When the workbook has a row to process and lacks one of the five
    columns the loop reads by name, [process_excel_file] raises [KeyError]
    for such a column on that row, before any query is made; with no row to
    process it returns two empty lists, whatever columns are there. *)
Theorem missing_column_raises path df (st : state W) key :
  pd_read_excel path (world st) = Ok df →
  "Document Category" ∈ strip <$> columns df →
  key ∈ required →
  key ∉ strip <$> columns df →
  (∀ row rest,
     summons_rows (strip <$> columns df) (rows df) = row :: rest →
     ∃ k, k ∈ required ∧
          process_excel_file path st
          = (Raise (KeyError k), logged (EReadExcel path) st)) ∧
  (summons_rows (strip <$> columns df) (rows df) = [] →
     process_excel_file path st = (Ok ([], []), logged (EReadExcel path) st)).
Proof.
  intros Hdf Hcol Hkey Hmissing.
  rewrite process_excel_file_read, Hdf. unfold process_dataframe.
  rewrite bool_decide_eq_true_2 by done. simpl. split.
  - intros row rest ->.
    destruct (excel_row_keyerror (strip <$> columns df) (Locals [] [] ∅) row
                (logged (EReadExcel path) st)) as (k & Hk & Hraise).
    { intros Hrow. by apply Hmissing, (has_fields_labels _ row). }
    exists k. split; [done|]. run. simpl. unfold bind. by rewrite Hraise.
  - intros ->. by run.
Qed.

(** X6.  When the first row to process is accepted and its [Note] cell is
    not a string, [process_excel_file] raises [AttributeError] once the
    database has been queried; nothing is returned. *)
Theorem unreadable_note_raises path df tbl (st : state W) row rest :
  pd_read_excel path (world st) = Ok df →
  fetchall_master (world st) = Ok tbl →
  "Document Category" ∈ strip <$> columns df →
  summons_rows (strip <$> columns df) (rows df) = row :: rest →
  has_fields (strip <$> columns df) row →
  accepted tbl (strip <$> columns df) row = true →
  (∀ s, get (strip <$> columns df) row "Note" (VStr "") ≠ VStr s) →
  process_excel_file path st
  = (Raise (AttributeError "replace"), logged EQuery (logged (EReadExcel path) st)).
Proof.
  intros Hdf Htbl Hcol Hrows Hrow Hacc Hnote.
  rewrite process_excel_file_read, Hdf. unfold process_dataframe.
  rewrite bool_decide_eq_true_2 by done. simpl. rewrite Hrows.
  unfold mbind, M_bind. simpl. unfold bind at 1 2.
  rewrite (excel_row_run _ _ _ _ tbl) by done.
  rewrite bool_decide_eq_false_2 by apply not_elem_of_empty. rewrite Hacc.
  destruct (get _ row "Note" _) as [|z|s] eqn:Hget; [done..|].
  by destruct (Hnote s).
Qed.

(** X7.  When the database cannot be queried, the first row to process
    makes [process_excel_file] raise the error of the query. *)
Theorem query_error_raises path df (st : state W) row rest e :
  pd_read_excel path (world st) = Ok df →
  fetchall_master (world st) = Raise e →
  "Document Category" ∈ strip <$> columns df →
  summons_rows (strip <$> columns df) (rows df) = row :: rest →
  has_fields (strip <$> columns df) row →
  process_excel_file path st
  = (Raise e, logged EQuery (logged (EReadExcel path) st)).
Proof.
  intros Hdf Hdb Hcol Hrows Hrow.
  rewrite process_excel_file_read, Hdf. unfold process_dataframe.
  rewrite bool_decide_eq_true_2 by done. simpl. rewrite Hrows.
  unfold mbind, M_bind. simpl. unfold bind at 1 2.
  unfold excel_row. run. rewrite !Hrow by (unfold required; rewrite !elem_of_cons; auto 10).
  rewrite bool_decide_eq_false_2 by apply not_elem_of_empty.
  rewrite fetch_defendants_run. simpl. by rewrite Hdb.
Qed.

End MoreClassifier.

Section MoreClassifierSamples.
Import Py Run.

Lemma row_appended_iff_first_case_witness :
  excel_row Demo.labels (Locals [] [] ∅) Demo.second_visit
            (Fake.office Demo.visits More.unfiled_first)
  = (Ok (Locals [] [] ∅), logged EQuery (Fake.office Demo.visits More.unfiled_first)).
Proof.
  refine (proj1 (row_appended_iff_first_case Demo.labels (Locals [] [] ∅) Demo.second_visit
                   (Fake.office Demo.visits More.unfiled_first) More.unfiled_first
                   ("served" +:+ CR +:+ LF +:+ "in person") _ _ _ _)
                [] (VInt 0) (VStr "Jane Doe") VNone VNone
                [(VInt 777, VNone, VStr "Jane Doe", VNone)] _ _ _).
  - reflexivity.
  - intros key Hkey. unfold required in Hkey. rewrite !elem_of_cons in Hkey.
    destruct Hkey as [->|[->|[->|[->|[->|Hnil]]]]];
      [reflexivity..|by apply elem_of_nil in Hnil].
  - apply (bool_decide_unpack _). vm_compute. exact I.
  - reflexivity.
  - reflexivity.
  - apply Forall_nil_2.
  - reflexivity.
Defined.

Lemma missing_column_raises_witness :
  ∃ k, k ∈ required ∧
       process_excel_file "unnumbered.xlsx" (Fake.office More.unnumbered Demo.cases)
       = (Raise (KeyError k),
          logged (EReadExcel "unnumbered.xlsx") (Fake.office More.unnumbered Demo.cases)).
Proof.
  refine (proj1 (missing_column_raises "unnumbered.xlsx" More.unnumbered
                   (Fake.office More.unnumbered Demo.cases) "FileNo" _ _ _ _)
            [VStr "Jane Doe"; VStr "N"; Demo.summons] [] _).
  - reflexivity.
  - apply (bool_decide_unpack _). by vm_compute.
  - apply (bool_decide_unpack _). by vm_compute.
  - apply (bool_decide_unpack _). by vm_compute.
  - by vm_compute.
Defined.

Lemma unreadable_note_raises_witness :
  process_excel_file "noted.xlsx" (Fake.office More.noted Demo.cases)
  = (Raise (AttributeError "replace"),
     logged EQuery (logged (EReadExcel "noted.xlsx") (Fake.office More.noted Demo.cases))).
Proof.
  apply (unreadable_note_raises "noted.xlsx" More.noted Demo.cases
           (Fake.office More.noted Demo.cases) More.numbered_note []).
  - reflexivity.
  - reflexivity.
  - apply (bool_decide_unpack _). by vm_compute.
  - by vm_compute.
  - apply has_fields_check. by vm_compute.
  - by vm_compute.
  - intros s. by vm_compute.
Defined.

Lemma query_error_raises_witness :
  process_excel_file "visits.xlsx" (More.unplugged Demo.visits)
  = (Raise (DatabaseError "08001"),
     logged EQuery (logged (EReadExcel "visits.xlsx") (More.unplugged Demo.visits))).
Proof.
  apply (query_error_raises "visits.xlsx" Demo.visits (More.unplugged Demo.visits)
           Demo.first_visit [Demo.second_visit; Demo.third_visit]).
  - reflexivity.
  - reflexivity.
  - apply (bool_decide_unpack _). by vm_compute.
  - by vm_compute.
  - apply has_fields_check. by vm_compute.
Defined.

End MoreClassifierSamples.

(** ** What the spreadsheet loop leaves behind *)

Section ClassifierFrame.
Context {W : Type} `{OS W}.
Import Py Run.

Ltac run := unfold mbind, M_bind, mret, M_ret, bind, ret, lift, read, ask, call, print in *.

(** An iteration queries the database at most once and calls nothing else. *)
Lemma excel_row_trace labels acc row (st : state W) :
  ∃ b : bool, trace (excel_row labels acc row st).2 = trace st ++ (if b then [EQuery] else []).
Proof.
  unfold excel_row. run.
  repeat match goal with
  | |- context [getitem labels row ?k] =>
      destruct (getitem labels row k); [|by exists false; rewrite app_nil_r]
  end.
  case_bool_decide; [by exists false; rewrite app_nil_r|].
  rewrite fetch_defendants_run.
  destruct (fetchall_master _); [|by exists true].
  destruct (lookup _ _) as [[[matched_file_no d1] d2] d3].
  repeat match goal with
  | |- context [if ?x then _ else _] => destruct x; [|by exists true]
  end.
  destruct (clean_notes _); by exists true.
Qed.

Lemma excel_rows_trace labels data : ∀ acc (st : state W),
  world (for_acc data (excel_row labels) acc st).2 = world st ∧
  ∃ n, (n ≤ length data)%nat ∧
       trace (for_acc data (excel_row labels) acc st).2 = trace st ++ replicate n EQuery.
Proof.
  induction data as [|row data IH]; intros acc st; simpl.
  - split; [done|]. exists 0%nat. split; [done|]. by rewrite app_nil_r.
  - unfold bind.
    destruct (excel_row_trace labels acc row st) as [b Hb].
    destruct (excel_row labels acc row st) as [[acc1|e] st1] eqn:Hrow; simpl in Hb.
    + apply excel_row_world in Hrow.
      destruct (IH acc1 st1) as [Hworld (n & Hn & Htrace)].
      split; [congruence|].
      exists ((if b then 1 else 0) + n)%nat. split; [destruct b; simpl; lia|].
      rewrite Htrace, Hb, <-app_assoc. by destruct b.
    + apply excel_row_world in Hrow. split; [done|].
      exists (if b then 1 else 0)%nat. split; [destruct b; simpl; lia|].
      simpl. rewrite Hb. by destruct b.
Qed.

(** X8.  [process_excel_file] leaves the world as it is.  After reading the
    workbook it either prints the message about the missing column, or only
    queries the database, at most once for each row of the category. *)
Theorem classifier_frame path (st : state W) :
  world (process_excel_file path st).2 = world st ∧
  ∃ evs,
    trace (process_excel_file path st).2 = trace st ++ EReadExcel path :: evs ∧
    (evs = [EPrint ("'Document Category' column missing in " +:+ path)] ∨
     ∃ n, evs = replicate n EQuery ∧
          ∀ df, pd_read_excel path (world st) = Ok df →
                (n ≤ length (summons_rows (strip <$> columns df) (rows df)))%nat).
Proof.
  rewrite process_excel_file_read.
  destruct (pd_read_excel path (world st)) as [df|e]; simpl.
  - unfold process_dataframe. case_bool_decide as Hcol; simpl.
    + run.
      destruct (excel_rows_trace (strip <$> columns df)
                  (summons_rows (strip <$> columns df) (rows df)) (Locals [] [] ∅)
                  (logged (EReadExcel path) st)) as [Hworld (n & Hn & Htrace)].
      destruct (for_acc _ _ _ _) as [[acc|e] st1]; simpl in *.
      * split; [done|]. exists (replicate n EQuery). rewrite Htrace, <-app_assoc.
        split; [done|]. right. exists n. split; [done|]. by intros ? [= <-].
      * split; [done|]. exists (replicate n EQuery). rewrite Htrace, <-app_assoc.
        split; [done|]. right. exists n. split; [done|]. by intros ? [= <-].
    + run. simpl. split; [done|]. eexists. rewrite <-app_assoc. split; [done|]. by left.
  - split; [done|]. exists []. split; [done|]. right. exists 0%nat. by split.
Qed.

Lemma excel_row_cases labels acc row (st st' : state W) acc' :
  excel_row labels acc row st = (Ok acc', st') →
  acc' = acc ∨
  ∃ tbl s, accepted tbl labels row = true ∧
           clean_notes (get labels row "Note" (VStr "")) = Ok (VStr s) ∧
           one_line s ∧
           acc' = appended tbl labels acc row.
Proof.
  intros Hrun. pose proof (excel_row_fields _ _ _ _ _ _ Hrun) as Hrow.
  destruct (fetchall_master (world st)) as [tbl|e] eqn:Hdb.
  - rewrite (excel_row_run _ _ _ _ tbl Hdb Hrow) in Hrun.
    case_bool_decide; [left; congruence|].
    destruct (accepted tbl labels row) eqn:Hacc; [|left; congruence].
    destruct (get labels row "Note" (VStr "")) as [|z|s] eqn:Hnote; try done.
    simpl in Hrun. injection Hrun as <- <-. right.
    exists tbl, (replace "013" " " (replace "010" " " s)).
    split_and!; try done. apply one_line_replace.
  - left. revert Hrun. unfold excel_row. run.
    rewrite !Hrow by (unfold required; rewrite !elem_of_cons; auto 10).
    case_bool_decide; [congruence|].
    rewrite fetch_defendants_run, Hdb. done.
Qed.

Lemma accepted_code tbl labels row :
  accepted tbl labels row = true →
  llcode_of tbl labels row ∈ llcodes ∧
  cell labels row "Service Type" ∈ [VStr "N"; VStr "S"; VStr "P"].
Proof.
  unfold accepted, llcode_of.
  destruct (lookup tbl _) as [[[f d1] d2] d3].
  intros [_ Hcode]%andb_true_iff. split.
  - apply determine_llcode_member. intros Hnone. by rewrite Hnone in Hcode.
  - apply determine_llcode_truthy in Hcode as [Hp _].
    destruct (decide (cell labels row "Service Type" ∈ [VStr "N"; VStr "S"; VStr "P"]))
      as [|Hty]; [done|].
    apply service_prefix_None in Hty. rewrite Hty in Hp. by destruct Hp.
Qed.

Lemma shapes_step labels acc row (st st' : state W) acc' :
  (length (output_data_1 acc) = length (output_data_2 acc) ∧
   Forall row1_shape (output_data_1 acc) ∧ Forall row2_shape (output_data_2 acc)) →
  excel_row labels acc row st = (Ok acc', st') →
  length (output_data_1 acc') = length (output_data_2 acc') ∧
  Forall row1_shape (output_data_1 acc') ∧ Forall row2_shape (output_data_2 acc').
Proof.
  intros (Hlen & H1 & H2) Hrun.
  destruct (excel_row_cases _ _ _ _ _ _ Hrun) as [->|(tbl & s & Hacc & Hnote & Hline & ->)];
    [done|].
  destruct (accepted_code _ _ _ Hacc) as [Hcode Hty].
  unfold appended; simpl. rewrite !length_app, Hlen. split_and!; [done| |].
  - apply Forall_app. split; [done|]. apply Forall_singleton.
    unfold row1_of. by eexists _, _, _, _, _, _.
  - apply Forall_app. split; [done|]. apply Forall_singleton.
    unfold row2_of. rewrite Hnote. by eexists _, _.
Qed.

Lemma shapes_run labels data : ∀ acc (st st' : state W) acc',
  (length (output_data_1 acc) = length (output_data_2 acc) ∧
   Forall row1_shape (output_data_1 acc) ∧ Forall row2_shape (output_data_2 acc)) →
  for_acc data (excel_row labels) acc st = (Ok acc', st') →
  length (output_data_1 acc') = length (output_data_2 acc') ∧
  Forall row1_shape (output_data_1 acc') ∧ Forall row2_shape (output_data_2 acc').
Proof.
  induction data as [|row data IH]; intros acc st st' acc' Hacc Hrun.
  - by injection Hrun as <- <-.
  - simpl in Hrun. unfold bind in Hrun.
    destruct (excel_row labels acc row st) as [[acc1|e] st1] eqn:Hrow; [|done].
    eapply IH; [|done]. by eapply shapes_step.
Qed.

(** X9.  When [process_excel_file] returns, the two lists have the same
    number of rows; a row of the first has six cells, its code one of the
    nine codes and its service type N, S or P; a row of the second has seven
    cells, the five literals in place and a note that holds neither line feed
    nor carriage return. *)
Theorem output_shapes path (st st' : state W) out1 out2 :
  process_excel_file path st = (Ok (out1, out2), st') →
  length out1 = length out2 ∧ Forall row1_shape out1 ∧ Forall row2_shape out2.
Proof.
  rewrite process_excel_file_read.
  destruct (pd_read_excel path (world st)) as [df|e]; [|done].
  unfold process_dataframe. case_bool_decide; simpl.
  - run. destruct (for_acc _ _ _ _) as [[acc|e] st1] eqn:Hloop; [|done].
    intros [= <- <- <-]. eapply shapes_run; [|done]. simpl. by split_and!.
  - run. intros [= <- <- <-]. by split_and!.
Qed.

End ClassifierFrame.

Section ClassifierFrameSamples.
Import Py Run.

Lemma output_shapes_witness :
  length [row1_of Demo.cases Demo.labels Demo.second_visit]
  = length [row2_of Demo.labels Demo.second_visit] ∧
  Forall row1_shape [row1_of Demo.cases Demo.labels Demo.second_visit] ∧
  Forall row2_shape [row2_of Demo.labels Demo.second_visit].
Proof.
  apply (output_shapes "visits.xlsx" (Fake.office Demo.visits Demo.cases)
           (process_excel_file "visits.xlsx" (Fake.office Demo.visits Demo.cases)).2).
  by vm_compute.
Defined.

End ClassifierFrameSamples.

(** ** Further facts on strings and paths *)

Section MoreStringFacts.
Import Py PosixPath.

Lemma sforallb_app p s t : sforallb p (s +:+ t) = sforallb p s && sforallb p t.
Proof. induction s as [|a s IH]; [done|]. rewrite app_cons. simpl. by rewrite IH, andb_assoc. Qed.

Lemma sforallb_none p q s :
  (∀ c, p c = true → q c = false) → sforallb p s = true → sexistsb q s = false.
Proof.
  intros Hpq. induction s as [|a s IH]; [done|]. simpl.
  intros [Ha Hs]%andb_true_iff. by rewrite (Hpq a Ha), IH.
Qed.

Lemma before_after_app c p rest :
  sexistsb (λ a, bool_decide (a = c)) p = false →
  before c (p +:+ String c rest) = p ∧ after c (p +:+ String c rest) = Some rest.
Proof.
  induction p as [|a p IH]; simpl.
  - intros _. rewrite ?app_nil_l_s. simpl. by rewrite bool_decide_eq_true_2.
  - intros [Ha Hp]%orb_false_iff. rewrite ?app_cons. simpl. rewrite Ha.
    destruct (IH Hp) as [-> ->]. done.
Qed.

Lemma before_app c s t :
  sexistsb (λ a, bool_decide (a = c)) s = true → before c (s +:+ t) = before c s.
Proof.
  induction s as [|a s IH]; [done|]. rewrite app_cons. simpl.
  case_bool_decide; [done|]. simpl. intros Hs. by rewrite IH.
Qed.

Lemma after_app c s t :
  after c (s +:+ t)
  = match after c s with Some r => Some (r +:+ t) | None => after c t end.
Proof.
  induction s as [|a s IH]; [done|]. rewrite app_cons. simpl.
  by case_bool_decide.
Qed.

Lemma after_none c s :
  after c s = None ↔ sexistsb (λ a, bool_decide (a = c)) s = false.
Proof.
  induction s as [|a s IH]; [done|]. simpl.
  case_bool_decide; simpl; [done|]. apply IH.
Qed.

Lemma before_none c s :
  sexistsb (λ a, bool_decide (a = c)) s = false → before c s = s.
Proof.
  induction s as [|a s IH]; [done|]. simpl.
  intros [Ha Hs]%orb_false_iff. rewrite Ha. by rewrite IH.
Qed.

Lemma stake_app_length s t : stake (String.length s) (s +:+ t) = s.
Proof. induction s as [|a s IH]; [by destruct t|]. rewrite app_cons. simpl. by rewrite IH. Qed.

Lemma sdrop_app_length s t : sdrop (String.length s) (s +:+ t) = t.
Proof. induction s as [|a s IH]; [done|]. rewrite app_cons. simpl. by rewrite IH. Qed.

Lemma rfind_from_none c s i last :
  sexistsb (λ a, bool_decide (a = c)) s = false → rfind_from c s i last = last.
Proof.
  revert i last. induction s as [|a s IH]; intros i last; [done|]. simpl.
  intros [Ha Hs]%orb_false_iff. rewrite Ha. by apply IH.
Qed.

Lemma rfind_from_app c s t i last :
  rfind_from c (s +:+ t) i last
  = rfind_from c t (i + Z.of_nat (String.length s)) (rfind_from c s i last).
Proof.
  revert i last. induction s as [|a s IH]; intros i last.
  - rewrite app_nil_l_s. simpl. by rewrite Z.add_0_r.
  - rewrite app_cons. cbn [rfind_from String.length]. rewrite IH. f_equal. lia.
Qed.

Lemma smap_app_inv h s t u :
  smap h s = t +:+ u → ∃ g e, s = g +:+ e ∧ smap h g = t ∧ smap h e = u.
Proof.
  revert s. induction t as [|a t IH]; intros s Hs.
  - exists "", s. by rewrite !app_nil_l_s in *.
  - destruct s as [|b s]; [done|]. rewrite app_cons in Hs. simpl in Hs.
    injection Hs as Hb Hs. destruct (IH s Hs) as (g & e & -> & <- & <-).
    exists (String b g), e. by rewrite app_cons, <-Hb.
Qed.

Lemma char_lower_dot c : char_lower c = "."%char → c = "."%char.
Proof.
  destruct c as [[] [] [] [] [] [] [] []]; intros Hc; vm_compute in Hc;
    first [discriminate Hc|reflexivity].
Qed.

(** An extension that reads [.pdf] in lower case: a dot and three
    characters that are neither dot, underscore nor separator. *)
Lemma lower_pdf_ext e :
  lower e = ".pdf" →
  ∃ c2 c3 c4, e = String "." (String c2 (String c3 (String c4 ""))) ∧
    Forall (λ c, c ≠ "."%char ∧ c ≠ "_"%char ∧ c ≠ "/"%char) [c2; c3; c4].
Proof.
  destruct e as [|c1 [|c2 [|c3 [|c4 [|c5 e]]]]]; try done.
  intros [= H1%char_lower_dot H2 H3 H4]. subst c1. exists c2, c3, c4. split; [done|].
  repeat constructor; intros ->; done.
Qed.

Lemma splitext_stem g c2 c3 c4 :
  entry_name g →
  sexistsb (λ c, negb (bool_decide (c = "."%char))) g = true →
  Forall (λ c, c ≠ "."%char ∧ c ≠ "_"%char ∧ c ≠ "/"%char) [c2; c3; c4] →
  splitext (g +:+ String "." (String c2 (String c3 (String c4 ""))))
  = (g, String "." (String c2 (String c3 (String c4 "")))).
Proof.
  intros Hg Hstem Hext.
  apply Forall_cons in Hext as [(H2 & _ & S2) Hext].
  apply Forall_cons in Hext as [(H3 & _ & S3) Hext].
  apply Forall_cons in Hext as [(H4 & _ & S4) _].
  unfold splitext, rfind. rewrite !rfind_from_app.
  rewrite (rfind_from_none "/" g) by done.
  cbn [rfind_from].
  rewrite !(bool_decide_eq_false_2 (_ = "/"%char)) by done.
  rewrite (bool_decide_eq_true_2 ("."%char = "."%char)) by done.
  rewrite !(bool_decide_eq_false_2 (_ = "."%char)) by done.
  rewrite Z.add_0_l.
  assert ((-1 <? Z.of_nat (String.length g)) = true) as -> by (apply Z.ltb_lt; lia).
  unfold slice. replace (-1 + 1) with 0 by lia. rewrite Z.sub_0_r, Nat2Z.id.
  change (Z.to_nat 0) with 0%nat. cbn [sdrop].
  by rewrite stake_app_length, sdrop_app_length, Hstem.
Qed.



Lemma entry_name_app s t : entry_name (s +:+ t) ↔ entry_name s ∧ entry_name t.
Proof. unfold entry_name. rewrite sexistsb_app. apply orb_false_iff. Qed.

Lemma stake_sdrop n s : stake n s +:+ sdrop n s = s.
Proof.
  revert s. induction n as [|n IH]; intros [|a s]; simpl; try done.
  by rewrite app_cons, IH.
Qed.

Lemma splitext_join_back p : (splitext p).1 +:+ (splitext p).2 = p.
Proof.
  unfold splitext. destruct (_ && _); simpl; [apply stake_sdrop|apply app_nil_r_s].
Qed.

Lemma entry_name_stem f : entry_name f → entry_name (splitext f).1.
Proof.
  intros Hf. rewrite <-(splitext_join_back f) in Hf. by apply entry_name_app in Hf as [? _].
Qed.

Lemma before_after_split c s :
  s = before c s ∨ ∃ r, after c s = Some r ∧ s = before c s +:+ String c r.
Proof.
  induction s as [|a s IH]; [by left|]. simpl. case_bool_decide as Ha.
  - subst a. right. by exists s.
  - destruct IH as [IH|(r & -> & IH)].
    + left. by rewrite <-IH.
    + right. exists r. split; [done|]. by rewrite app_cons, <-IH.
Qed.

Lemma entry_name_before c s : entry_name s → entry_name (before c s).
Proof.
  intros Hs. destruct (before_after_split c s) as [<-|(r & _ & Heq)]; [done|].
  rewrite Heq in Hs. by apply entry_name_app in Hs as [? _].
Qed.

Lemma entry_name_after c s r : entry_name s → after c s = Some r → entry_name r.
Proof.
  intros Hs Hr. destruct (before_after_split c s) as [Hb|(r' & Hr' & Heq)].
  - assert (after c s = None) as Hnone; [|congruence].
    apply after_none. clear Hr Hs. revert Hb. induction s as [|a s IH]; [done|]. simpl.
    case_bool_decide; [done|]. intros [= Hb]. by rewrite IH.
  - rewrite Hr in Hr'. injection Hr' as <-. rewrite Heq in Hs.
    apply entry_name_app in Hs as [_ Hs]. unfold entry_name in *. simpl in Hs.
    by apply orb_false_iff in Hs as [_ ?].
Qed.

End MoreStringFacts.

(** ** Further properties of [process_xjmtr] and [move_files] *)

Section MoreRouter.
Context {W : Type} `{OS W}.
Import Py PosixPath Run.

Ltac run := unfold mbind, M_bind, mret, M_ret, bind, ret, lift, read, ask, call, print in *.

Lemma issues_tagger src xj : issues (tagger_event src xj) (process_xjmtr src xj).
Proof.
  unfold process_xjmtr.
  apply issues_bind; [by apply issues_call|]. intros _.
  apply issues_bind; [by apply issues_call|]. intros _.
  apply issues_bind; [by apply issues_read|]. intros names.
  apply issues_for. intros f _. unfold xjmtr_entry.
  destruct (_ && _); [|apply issues_ret].
  simpl. destruct (isdigit _); [|apply issues_ret].
  apply issues_bind; [by apply issues_call|]. intros _. by apply issues_print.
Qed.

(** X10.  Whatever the directory holds and whatever fails, [process_xjmtr]
    only opens and writes its tag file, lists the source directory and
    prints: it creates no folder and moves no file. *)
Theorem tagger_touches_tag_file_only src xj (st : state W) :
  ∃ evs, trace (process_xjmtr src xj st).2 = trace st ++ evs ∧
         Forall (tagger_event src xj) evs.
Proof. apply issues_tagger. Qed.

Lemma isdigit_no_tab c : char_isdigit c = true → bool_decide (c = "009"%char) = false.
Proof. intros Hc. apply bool_decide_eq_false. intros ->. done. Qed.

(** X11.  The line written for a tagged entry reads back: cut at its first
    tab it gives the text before the first underscore of the entry's name
    and, after the tab, XJMTR and the line feed that ends the line. *)
Theorem xjmtr_line_reads_back f :
  tagged f = true →
  before "009" (xjmtr_line (first_field f)) = before "_" f ∧
  after "009" (xjmtr_line (first_field f)) = Some ("XJMTR" +:+ LF) ∧
  one_line (before "_" f +:+ TAB +:+ "XJMTR").
Proof.
  intros (_ & _ & _ & Hdigits)%tagged_spec. rewrite first_field_before.
  unfold xjmtr_line, TAB.
  assert (sexistsb (λ a, bool_decide (a = "009"%char)) (before "_" f) = false) as Htab.
  { eapply sforallb_none; [|done]. apply isdigit_no_tab. }
  rewrite app_cons, app_nil_l_s.
  destruct (before_after_app "009" (before "_" f) ("XJMTR" +:+ LF) Htab) as [-> ->].
  split_and!; [done..|].
  unfold one_line. rewrite sexistsb_app. apply orb_false_iff. split; [|done].
  eapply sforallb_none; [|done].
  intros c Hc. apply orb_false_iff.
  split; apply bool_decide_eq_false; intros ->; done.
Qed.

Lemma xjmtr_line_reads_back_witness :
  before "009" (xjmtr_line (first_field "500_judgment.pdf")) = before "_" "500_judgment.pdf" ∧
  after "009" (xjmtr_line (first_field "500_judgment.pdf")) = Some ("XJMTR" +:+ LF) ∧
  one_line (before "_" "500_judgment.pdf" +:+ TAB +:+ "XJMTR").
Proof. apply (xjmtr_line_reads_back "500_judgment.pdf"). reflexivity. Defined.

(** The name of a tagged entry: digits, an underscore in the stem, [.pdf]. *)
Lemma tagged_splitext f :
  tagged f = true → entry_name f →
  lower (splitext f).2 = ".pdf" ∧
  before "_" (splitext f).1 = before "_" f ∧
  is_Some (second_field (splitext f).1).
Proof.
  intros (Hpdf & _ & Hne & Hdigits)%tagged_spec Hname.
  apply endswith_spec in Hpdf as [t Ht]. unfold lower in Ht.
  apply smap_app_inv in Ht as (g & e & -> & _ & He). fold (lower e) in He.
  destruct (lower_pdf_ext e He) as (c2 & c3 & c4 & -> & Hext).
  apply entry_name_app in Hname as [Hg _].
  assert (sexistsb (λ a, bool_decide (a = "_"%char))
            (String "." (String c2 (String c3 (String c4 "")))) = false) as Hnou.
  { pose proof Hext as Hext'.
    apply Forall_cons in Hext' as [(_ & U2 & _) Hext'].
    apply Forall_cons in Hext' as [(_ & U3 & _) Hext'].
    apply Forall_cons in Hext' as [(_ & U4 & _) _].
    simpl. by rewrite !bool_decide_eq_false_2. }
  (* the underscore is in the stem: the text before it has no dot *)
  assert (sexistsb (λ a, bool_decide (a = "_"%char)) g = true) as Hu.
  { apply not_false_is_true. intros Hg_no.
    rewrite before_none in Hdigits by (by rewrite sexistsb_app, Hg_no, Hnou).
    rewrite sforallb_app in Hdigits. by apply andb_true_iff in Hdigits as [_ ?]. }
  rewrite before_app in Hne, Hdigits by done.
  (* the stem starts with a digit, which is no dot *)
  assert (sexistsb (λ c, negb (bool_decide (c = "."%char))) g = true) as Hstem.
  { destruct g as [|d g]; [done|]. simpl in Hne, Hdigits |- *.
    destruct (decide (d = "_"%char)) as [->|Hd].
    - by rewrite bool_decide_eq_true_2 in Hne.
    - rewrite bool_decide_eq_false_2 in Hdigits by done.
      simpl in Hdigits. apply andb_true_iff in Hdigits as [Hdig _].
      rewrite (bool_decide_eq_false_2 (d = "."%char)); [done|]. by intros ->. }
  rewrite splitext_stem by done. simpl. split_and!; [done|by rewrite before_app|].
  unfold second_field. destruct (after "_" g) eqn:Hafter; [by eexists|].
  apply after_none in Hafter. congruence.
Qed.

(** X12.  An entry that [process_xjmtr] tags is a PDF for [move_files], with
    an underscore in its name: when it is a regular file, its iteration
    moves it to the Documents folder named by the text that follows its
    first underscore, never to Unknown for want of an underscore, and the
    number on its tag line is the one its name starts with. *)
Theorem tagged_entry_is_filed src data docs f (st : state W) :
  tagged f = true →
  entry_name f →
  os_path_isfile (join src f) (world st) = true →
  ∃ folder,
    second_field (splitext f).1 = Some folder ∧
    first_field (splitext f).1 = first_field f ∧
    route src data docs f st =
      (ensure_folder_exists (join docs folder);;
       call (EMove (join src f) (join (join docs folder) (replace "_" " " f)))
            (shutil_move (join src f) (join (join docs folder) (replace "_" " " f)))) st.
Proof.
  intros Htag Hname Hfile.
  destruct (tagged_splitext f Htag Hname) as (Hpdf & Hfirst & [folder Hfolder]).
  exists folder. split_and!; [done|by rewrite !first_field_before|].
  rewrite (route_pdf src data docs f st Hfile Hpdf), pdf_folder_name_spec, Hfolder. done.
Qed.

(** What an iteration on a spreadsheet does. *)
Lemma route_data src data docs filename (st : state W) :
  os_path_isfile (join src filename) (world st) = true →
  lower (splitext filename).2 ∈ [".xlsx"; ".xls"; ".csv"] →
  route src data docs filename st =
  (ensure_folder_exists (join data (first_field (splitext filename).1));;
   call (EMove (join src filename)
               (join (join data (first_field (splitext filename).1)) filename))
        (shutil_move (join src filename)
               (join (join data (first_field (splitext filename).1)) filename))) st.
Proof.
  intros Hfile Hext. unfold route, mbind, M_bind.
  unfold bind at 1, ask. rewrite Hfile. simpl.
  by rewrite bool_decide_eq_true_2.
Qed.

(** X13.  For a regular file whose extension reads .xlsx, .xls or .csv in
    lower case, the iteration of [move_files] makes sure the folder exists
    and moves the file, under its own name, into the Data folder named by
    the text before the first underscore of the name without its extension
    (the whole of it when there is no underscore); 123_summons.xlsx goes to
    Data/123/123_summons.xlsx and report.csv to Data/report/report.csv. *)
Theorem spreadsheet_moved_to_data src data docs filename (st : state W) :
  os_path_isfile (join src filename) (world st) = true →
  lower (splitext filename).2 ∈ [".xlsx"; ".xls"; ".csv"] →
  let folder := before "_" (splitext filename).1 in
  let destination := join (join data folder) filename in
  route src data docs filename st =
    (ensure_folder_exists (join data folder);;
     call (EMove (join src filename) destination)
          (shutil_move (join src filename) destination)) st ∧
  (entry_name filename → last_component destination = filename) ∧
  join (join "Data" (before "_" (splitext "123_summons.xlsx").1)) "123_summons.xlsx"
  = "Data/123/123_summons.xlsx" ∧
  join (join "Data" (before "_" (splitext "report.csv").1)) "report.csv"
  = "Data/report/report.csv".
Proof.
  intros Hfile Hext folder destination. split_and!; [|by apply last_component_join|done..].
  rewrite (route_data src data docs filename st Hfile Hext).
  by rewrite first_field_before.
Qed.

Lemma ensure_folder_exists_trace folder_path (st : state W) :
  trace (ensure_folder_exists folder_path st).2 = trace st ∨
  trace (ensure_folder_exists folder_path st).2 = trace st ++ [EMakedirs folder_path].
Proof.
  unfold ensure_folder_exists. run. destruct (os_path_exists _ _); simpl; [by left|].
  right. by destruct (os_makedirs _ _).
Qed.

(** The events of one iteration: at most one folder made, then at most one
    move, of that entry, to its place under one of the two folders. *)
Lemma route_events src data docs f (st : state W) :
  entry_name f →
  ∃ evs, trace (route src data docs f st).2 = trace st ++ evs ∧
         Forall router_event evs ∧
         Forall (routed_move src data docs [f]) evs ∧
         move_sources evs `sublist_of` [join src f].
Proof.
  intros Hname.
  assert (∀ sub dst,
    routed_move src data docs [f] (EMove (join src f) dst) →
    ∃ evs, trace ((ensure_folder_exists sub;;
                   call (EMove (join src f) dst) (shutil_move (join src f) dst)) st).2
           = trace st ++ evs ∧
           Forall router_event evs ∧ Forall (routed_move src data docs [f]) evs ∧
           move_sources evs `sublist_of` [join src f]) as Hbranch.
  { intros sub dst Hmove. unfold mbind, M_bind, bind.
    destruct (ensure_folder_exists_trace sub st) as [Hmade|Hmade];
      destruct (ensure_folder_exists sub st) as [[[]|e] st1]; simpl in *.
    - unfold call. exists [EMove (join src f) dst].
      split; [by destruct (shutil_move _ _ _); simpl; rewrite Hmade|].
      split_and!; [by apply Forall_singleton..|done].
    - exists []. rewrite app_nil_r.
      split_and!; [done|apply Forall_nil_2..|apply sublist_nil_l].
    - unfold call. exists [EMakedirs sub; EMove (join src f) dst].
      split; [by destruct (shutil_move _ _ _); simpl; rewrite Hmade, <-app_assoc|].
      split_and!; [by apply Forall_cons; split; [|apply Forall_singleton]..|done].
    - exists [EMakedirs sub]. split; [done|].
      split_and!; [by apply Forall_singleton..|apply sublist_nil_l]. }
  assert (∃ evs, trace st = trace st ++ evs ∧ Forall router_event evs ∧
                 Forall (routed_move src data docs [f]) evs ∧
                 move_sources evs `sublist_of` [join src f]) as Hnone.
  { exists []. rewrite app_nil_r.
    split_and!; [done|apply Forall_nil_2..|apply sublist_nil_l]. }
  pose proof (entry_name_stem f Hname) as Hstem.
  unfold route. unfold mbind at 1, M_bind at 1, bind at 1, ask.
  destruct (os_path_isfile _ _); [|done].
  case_bool_decide as Hdata; [|case_bool_decide as Hpdf; [|done]].
  - rewrite first_field_before. apply Hbranch.
    exists f, (before "_" (splitext f).1), f.
    split_and!; [by left|done|by apply entry_name_before|done|]. by left.
  - apply Hbranch.
    exists f, (pdf_folder_name (splitext f).1), (replace "_" " " f).
    split_and!; [by left|done| |by apply entry_name_replace|by right].
    rewrite pdf_folder_name_spec. unfold second_field.
    destruct (after "_" (splitext f).1) as [r|] eqn:Hafter; [|done].
    simpl. by eapply entry_name_before, entry_name_after.
Qed.

Lemma routed_move_mono src data docs names names' ev :
  names ⊆ names' → routed_move src data docs names ev → routed_move src data docs names' ev.
Proof.
  intros Hsub. destruct ev; try done. intros (f & folder_name & new_filename & Hf & Hrest).
  exists f, folder_name, new_filename. split; [by apply Hsub|done].
Qed.

Lemma move_sources_app evs evs' :
  move_sources (evs ++ evs') = move_sources evs ++ move_sources evs'.
Proof. unfold move_sources. apply omap_app. Qed.

(** X14.  Over a listing of directory entries, the loop of [move_files] only
    makes folders and moves files.  Every file it moves is an entry of the
    listing, taken from the source directory to a path of three parts, one
    of the two folders, a folder name and a file name, the last two without
    a separator: for an entry that reads .xlsx, .xls or .csv the Data
    folder, the text before the first underscore of the name without its
    extension, and the entry's name; for one that reads .pdf the Documents
    folder, the text after that underscore up to the next (Unknown without
    an underscore), and the entry's name with spaces for underscores.  The
    folder name is taken from the entry's name as it is; nothing keeps it
    from being [..].  The entries are moved in listing order, each at most
    once. *)
Theorem move_loop_moves_listed_entries src data docs names (st : state W) :
  Forall entry_name names →
  ∃ evs,
    trace (for_ names (route src data docs) st).2 = trace st ++ evs ∧
    Forall router_event evs ∧
    Forall (routed_move src data docs names) evs ∧
    move_sources evs `sublist_of` (join src <$> names).
Proof.
  revert st. induction names as [|f names IH]; intros st Hnames.
  - exists []. rewrite app_nil_r. split_and!; [done|apply Forall_nil_2..|done].
  - apply Forall_cons in Hnames as [Hf Hnames]. simpl. unfold bind.
    destruct (route_events src data docs f st Hf) as (evs & Htrace & Hrouter & Hmoves & Hsrc).
    assert (Forall (routed_move src data docs (f :: names)) evs) as Hmoves'.
    { eapply Forall_impl; [done|]. intros ev. apply routed_move_mono.
      intros x Hx. apply list_elem_of_singleton in Hx as ->. by left. }
    destruct (route src data docs f st) as [[[]|e] st1]; simpl in *.
    + destruct (IH st1 Hnames) as (evs' & Htrace' & Hrouter' & Hmoves'' & Hsrc').
      exists (evs ++ evs'). rewrite Htrace', Htrace, app_assoc. split_and!; [done|..].
      * by apply Forall_app.
      * apply Forall_app. split; [done|].
        eapply Forall_impl; [done|]. intros ev. apply routed_move_mono.
        intros x Hx. by right.
      * rewrite move_sources_app. by apply (sublist_app _ [join src f]).
    + exists evs. split_and!; [done..|].
      etrans; [done|]. apply sublist_skip, sublist_nil_l.
Qed.

Lemma issues_router src data docs names :
  issues router_event (for_ names (route src data docs)).
Proof.
  apply issues_for. intros f _. unfold route.
  apply issues_bind; [apply issues_ask|]. intros []; [|apply issues_ret].
  case_bool_decide; [|case_bool_decide; [|apply issues_ret]].
  - apply issues_bind; [by apply issues_ensure_folder_exists|]. intros _.
    by apply issues_call.
  - apply issues_bind; [by apply issues_ensure_folder_exists|]. intros _.
    by apply issues_call.
Qed.

(** X15.  [move_files] works in two phases: first the calls of
    [process_xjmtr], then, after one more listing of the source directory,
    only folders made and files moved; no tag line is written once a file
    has moved.  When [process_xjmtr] or the listing raises, the error is
    the outcome of [move_files] and no folder is made and no file moved. *)
Theorem move_files_phases src data docs xj (st : state W) :
  (∃ tagging moving,
     trace (move_files src data docs xj st).2 = trace st ++ tagging ++ moving ∧
     Forall (tagger_event src xj) tagging ∧
     (moving = [] ∨ ∃ routing, moving = EListdir src :: routing ∧
                               Forall router_event routing)) ∧
  (∀ e st1, process_xjmtr src xj st = (Raise e, st1) →
            move_files src data docs xj st = (Raise e, st1)) ∧
  (∀ st1 e, process_xjmtr src xj st = (Ok (), st1) →
            os_listdir src (world st1) = Raise e →
            move_files src data docs xj st = (Raise e, logged (EListdir src) st1)).
Proof.
  unfold move_files, mbind, M_bind. split_and!.
  - unfold bind at 1.
    destruct (issues_tagger src xj st) as (tagging & Htag & Htagging).
    destruct (process_xjmtr src xj st) as [[[]|e] st1]; simpl in *.
    + unfold bind, read.
      destruct (os_listdir src (world st1)) as [names|e]; simpl.
      * destruct (issues_router src data docs names (logged (EListdir src) st1))
          as (routing & Hroute & Hrouting).
        exists tagging, (EListdir src :: routing). split_and!; [|done|by eauto].
        rewrite Hroute. simpl. rewrite Htag. by rewrite <-!app_assoc.
      * exists tagging, [EListdir src]. split_and!; [|done|].
        -- by rewrite Htag, <-app_assoc.
        -- right. by exists [].
    + exists tagging, []. rewrite app_nil_r. by split_and!; [|done|left].
  - intros e st1 Hrun. unfold bind. by rewrite Hrun.
  - intros st1 e Hrun Hlist. unfold bind at 1. rewrite Hrun.
    unfold bind, read. by rewrite Hlist.
Qed.

End MoreRouter.

Section MoreRouterSamples.
Import Py PosixPath Run.

Lemma tagged_entry_is_filed_witness :
  ∃ folder,
    second_field (splitext "500_judgment.pdf").1 = Some folder ∧
    first_field (splitext "500_judgment.pdf").1 = first_field "500_judgment.pdf".
Proof.
  destruct (tagged_entry_is_filed "inbox" "Data" "Documents" "500_judgment.pdf"
              (Fake.directory "inbox" ["500_judgment.pdf"]))
    as (folder & Hfolder & Hfirst & _).
  - reflexivity.
  - reflexivity.
  - by vm_compute.
  - exists folder. split; [exact Hfolder|exact Hfirst].
Defined.

Lemma spreadsheet_moved_to_data_witness :
  last_component (join (join "Data" (before "_" (splitext "123_summons.xlsx").1))
                       "123_summons.xlsx")
  = "123_summons.xlsx".
Proof.
  refine (proj1 (proj2 (spreadsheet_moved_to_data "inbox" "Data" "Documents"
                          "123_summons.xlsx"
                          (Fake.directory "inbox" ["123_summons.xlsx"]) _ _)) _).
  - by vm_compute.
  - apply (bool_decide_unpack _). by vm_compute.
  - reflexivity.
Defined.

Lemma move_loop_moves_listed_entries_witness :
  ∃ evs,
    trace (for_ ["500_cover.xlsx"; "notes.txt"] (route "inbox" "Data" "Documents")
             (Fake.directory "inbox" ["500_cover.xlsx"; "notes.txt"])).2
    = trace (Fake.directory "inbox" ["500_cover.xlsx"; "notes.txt"]) ++ evs ∧
    Forall router_event evs ∧
    Forall (routed_move "inbox" "Data" "Documents" ["500_cover.xlsx"; "notes.txt"]) evs ∧
    move_sources evs `sublist_of` (join "inbox" <$> ["500_cover.xlsx"; "notes.txt"]).
Proof.
  apply (move_loop_moves_listed_entries "inbox" "Data" "Documents"
           ["500_cover.xlsx"; "notes.txt"]
           (Fake.directory "inbox" ["500_cover.xlsx"; "notes.txt"])).
  by repeat constructor.
Defined.

End MoreRouterSamples.

(** ** Properties of the dated folders and of the entry point *)

Section Folders.
Context {W : Type} `{OS W} `{Desktop W}.
Import Py PosixPath Run.

Ltac run := unfold mbind, M_bind, mret, M_ret, bind, ret, lift, read, ask, call, print in *.

Lemma ensure_folder_exists_ok folder_path (st st1 : state W) :
  makedirs_creates →
  ensure_folder_exists folder_path st = (Ok (), st1) →
  os_path_exists folder_path (world st1) = true ∧
  (∀ q, os_path_exists q (world st) = true → os_path_exists q (world st1) = true) ∧
  (os_path_exists folder_path (world st) = true → st1 = st).
Proof.
  intros Hlaw. unfold ensure_folder_exists. run.
  destruct (os_path_exists folder_path (world st)) eqn:Hthere; simpl.
  - intros [= <-]. by split_and!.
  - destruct (os_makedirs folder_path (world st)) as [w'|e] eqn:Hmk; [|done].
    intros [= <-]. simpl. destruct (Hlaw _ _ _ Hmk) as [Hnew Hold]. by split_and!.
Qed.

(** X16.  Once [ensure_folder_exists] has returned, the folder exists,
    whatever existed still exists, and a second call does nothing; this for
    an [os.makedirs] that creates what it is asked to and removes nothing. *)
Theorem ensure_folder_exists_idempotent folder_path (st st1 : state W) :
  makedirs_creates →
  ensure_folder_exists folder_path st = (Ok (), st1) →
  os_path_exists folder_path (world st1) = true ∧
  (∀ q, os_path_exists q (world st) = true → os_path_exists q (world st1) = true) ∧
  ensure_folder_exists folder_path st1 = (Ok (), st1).
Proof.
  intros Hlaw Hrun. destruct (ensure_folder_exists_ok _ _ _ Hlaw Hrun) as (Hnew & Hold & _).
  split_and!; [done..|]. unfold ensure_folder_exists. run. by rewrite Hnew.
Qed.

Lemma create_folder_structure_run base (st : state W) :
  create_folder_structure base st =
  (for_ [(dated_folders base (world st)).1.1; (dated_folders base (world st)).1.2;
         (dated_folders base (world st)).2] ensure_folder_exists;;
   ret (dated_folders base (world st))) st.
Proof. done. Qed.

Lemma length_app_s s t : String.length (s +:+ t) = (String.length s + String.length t)%nat.
Proof. induction s as [|a s IH]; [done|]. rewrite app_cons. simpl. by rewrite IH. Qed.









Lemma ensure_folder_exists_same_day folder_path (st st1 : state W) :
  makedirs_same_day →
  ensure_folder_exists folder_path st = (Ok (), st1) →
  datetime_today (world st1) = datetime_today (world st).
Proof.
  intros Hlaw. unfold ensure_folder_exists. run.
  destruct (os_path_exists folder_path (world st)); simpl; [by intros [= <-]|].
  destruct (os_makedirs folder_path (world st)) as [w'|e] eqn:Hmk; [|done].
  intros [= <-]. simpl. by apply (Hlaw folder_path).
Qed.

(** X18.  After a call of [create_folder_structure] that returns, the three
    folders exist, and a second call on the same day returns the same three
    paths and asks nothing of the file system; this for an [os.makedirs]
    that creates what it is asked to, removes nothing and leaves the date
    alone. *)
Theorem create_folder_structure_idempotent base (st st1 : state W) r :
  makedirs_creates →
  makedirs_same_day →
  create_folder_structure base st = (Ok r, st1) →
  os_path_exists r.1.1 (world st1) = true ∧
  os_path_exists r.1.2 (world st1) = true ∧
  os_path_exists r.2 (world st1) = true ∧
  create_folder_structure base st1 = (Ok r, st1).
Proof.
  intros Hlaw Hday. rewrite !create_folder_structure_run.
  unfold dated_folders. simpl. unfold mbind, M_bind. simpl. unfold bind.
  set (root := join base (Time.strftime_Ymd (datetime_today (world st)))).
  destruct (ensure_folder_exists root st) as [[[]|e] sa] eqn:Ha; [|done].
  destruct (ensure_folder_exists (join root "Data") sa) as [[[]|e] sb] eqn:Hb; [|done].
  destruct (ensure_folder_exists (join root "Documents") sb) as [[[]|e] sc] eqn:Hc; [|done].
  intros [= <- <-]. simpl.
  destruct (ensure_folder_exists_ok _ _ _ Hlaw Ha) as (Ea & Ka & _).
  destruct (ensure_folder_exists_ok _ _ _ Hlaw Hb) as (Eb & Kb & _).
  destruct (ensure_folder_exists_ok _ _ _ Hlaw Hc) as (Ec & Kc & _).
  assert (datetime_today (world sc) = datetime_today (world st)) as ->.
  { rewrite (ensure_folder_exists_same_day _ _ _ Hday Hc).
    rewrite (ensure_folder_exists_same_day _ _ _ Hday Hb).
    by rewrite (ensure_folder_exists_same_day _ _ _ Hday Ha). }
  fold root. split_and!; [auto..|].
  assert (∀ p, os_path_exists p (world sc) = true →
               ensure_folder_exists p sc = (Ok (), sc)) as Hnoop.
  { intros p Hp. unfold ensure_folder_exists. run. by rewrite Hp. }
  by rewrite !Hnoop by auto.
Qed.

Lemma padded_year y : (1000 ≤ y < 10 * 1000)%nat → decimal_of_width 4 y = true.
Proof.
  intros Hy.
  assert (forallb (decimal_of_width 4) (seq 1000 (9 * 1000)) = true) as Hall
    by (by vm_compute).
  rewrite forallb_forall in Hall. apply Hall, in_seq. lia.
Qed.

Lemma padded_two n : (1 ≤ n ≤ 31)%nat → decimal_of_width 2 n = true.
Proof.
  intros Hn.
  assert (forallb (decimal_of_width 2) (seq 1 31) = true) as Hall by (by vm_compute).
  rewrite forallb_forall in Hall. apply Hall, in_seq. lia.
Qed.

(** X19.  For a date of the years 1000 to 9999 the name of the dated folder
    is eight decimal digits, four for the year, two for the month and two
    for the day; it is the last component of the root folder. *)
Theorem dated_folder_name base d :
  calendar_date d →
  String.length (Time.strftime_Ymd d) = 8%nat ∧
  sforallb char_isdecimal (Time.strftime_Ymd d) = true ∧
  last_component (join base (Time.strftime_Ymd d)) = Time.strftime_Ymd d.
Proof.
  intros (Hy & Hm & Hd).
  apply padded_year in Hy. apply andb_true_iff in Hy as [Ly%Nat.eqb_eq Dy].
  assert (decimal_of_width 2 (month d) = true) as Hm' by (apply padded_two; lia).
  apply andb_true_iff in Hm' as [Lm%Nat.eqb_eq Dm].
  apply padded_two in Hd. apply andb_true_iff in Hd as [Ld%Nat.eqb_eq Dd].
  assert (sforallb char_isdecimal (Time.strftime_Ymd d) = true) as Hdigits.
  { unfold Time.strftime_Ymd. by rewrite !sforallb_app, Dy, Dm, Dd. }
  split_and!; [|done|].
  - unfold Time.strftime_Ymd. rewrite !length_app_s, Ly, Lm, Ld. done.
  - apply last_component_join. unfold entry_name.
    eapply sforallb_none; [|done].
    intros c Hc. apply bool_decide_eq_false. by intros ->.
Qed.

Lemma dated_folder_name_witness :
  String.length (Time.strftime_Ymd (Date 2024 3 7)) = 8%nat ∧
  sforallb char_isdecimal (Time.strftime_Ymd (Date 2024 3 7)) = true ∧
  last_component (join "inbox" (Time.strftime_Ymd (Date 2024 3 7)))
  = Time.strftime_Ymd (Date 2024 3 7).
Proof.
  apply (dated_folder_name "inbox" (Date 2024 3 7)).
  unfold calendar_date. simpl. lia.
Defined.

End Folders.

Section EntryPointFacts.
Context {W : Type} `{OS W} `{Desktop W}.
Import Py PosixPath Run.

Ltac run := unfold mbind, M_bind, mret, M_ret, bind, ret, lift, read, ask, call, print in *.

Lemma issues_create_folder_structure (P : event → Prop) base :
  (∀ p, P (EMakedirs p)) → issues P (create_folder_structure base).
Proof.
  intros HP. unfold create_folder_structure.
  apply issues_bind; [apply issues_ask|]. intros today.
  apply issues_bind; [|intros _; apply issues_ret].
  apply issues_for. intros p _. by apply issues_ensure_folder_exists.
Qed.

Lemma xjmtr_message_other fileno : other_than_completion (EPrint (xjmtr_message fileno)).
Proof. intros root_folder. unfold xjmtr_message, completion_message. by intros [= ?]. Qed.

Lemma issues_move_files_other src data docs xj :
  issues other_than_completion (move_files src data docs xj).
Proof.
  unfold move_files.
  apply issues_bind.
  { unfold process_xjmtr.
    apply issues_bind; [by apply issues_call|]. intros _.
    apply issues_bind; [by apply issues_call|]. intros _.
    apply issues_bind; [by apply issues_read|]. intros names.
    apply issues_for. intros f _. unfold xjmtr_entry.
    destruct (_ && _); [|apply issues_ret].
    simpl. destruct (isdigit _); [|apply issues_ret].
    apply issues_bind; [by apply issues_call|]. intros _.
    apply issues_print, xjmtr_message_other. }
  intros _. apply issues_bind; [by apply issues_read|]. intros names.
  eapply (issues_for _ names). intros f _. unfold route.
  apply issues_bind; [apply issues_ask|]. intros []; [|apply issues_ret].
  case_bool_decide; [|case_bool_decide; [|apply issues_ret]].
  - apply issues_bind; [by apply issues_ensure_folder_exists|]. intros _.
    by apply issues_call.
  - apply issues_bind; [by apply issues_ensure_folder_exists|]. intros _.
    by apply issues_call.
Qed.

Lemma create_folder_structure_result base (st st1 : state W) r :
  create_folder_structure base st = (Ok r, st1) → r = dated_folders base (world st).
Proof.
  rewrite create_folder_structure_run. unfold mbind, M_bind, bind.
  match goal with
  | |- context [match ?m with _ => _ end] => destruct m as [[[]|e] st2]
  end; by intros [= <- <-].
Qed.

Lemma select_and_process_folder_run (st : state W) :
  select_and_process_folder st =
  if bool_decide (askdirectory "Select Folder with Files" (world st) = "")
  then (Ok (), logged (EPrint "No folder selected.") st)
  else
    ('(root_folder, data_folder, documents_folder) ←
       create_folder_structure (askdirectory "Select Folder with Files" (world st));
     move_files (askdirectory "Select Folder with Files" (world st))
                data_folder documents_folder (join root_folder "xjmtr.txt");;
     print (completion_message root_folder)) st.
Proof.
  unfold select_and_process_folder, mbind, M_bind. unfold bind at 1, ask. cbn [fst snd].
  by destruct (askdirectory _ (world st)).
Qed.

(** X20.  When the folder dialog is dismissed the entry point prints that no
    folder was selected and does nothing else.  When a folder is chosen, the
    run ends with the completion message, naming the dated folder under the
    chosen one, exactly when no call raised: a run that raises never prints
    it. *)
Theorem completion_message_means_success (st : state W) :
  let folder_path := askdirectory "Select Folder with Files" (world st) in
  (folder_path = "" →
     select_and_process_folder st = (Ok (), logged (EPrint "No folder selected.") st)) ∧
  (folder_path ≠ "" →
     ∃ evs,
       trace (select_and_process_folder st).2 = trace st ++ evs ∧
       ((select_and_process_folder st).1 = Ok () →
          last evs = Some (EPrint (completion_message
                                     (dated_folders folder_path (world st)).1.1))) ∧
       (∀ e, (select_and_process_folder st).1 = Raise e →
             Forall other_than_completion evs)).
Proof.
  intros folder_path. rewrite select_and_process_folder_run. fold folder_path. split.
  - intros Hnone. by rewrite bool_decide_eq_true_2.
  - intros Hchosen. rewrite bool_decide_eq_false_2 by done.
    unfold mbind, M_bind, bind.
    destruct (issues_create_folder_structure other_than_completion folder_path
                (λ p root_folder, ltac:(done)) st) as (evs1 & Ht1 & He1).
    destruct (create_folder_structure folder_path st) as [[r|e] st1] eqn:Hcreate;
      simpl in *; [|exists evs1; by split_and!].
    apply create_folder_structure_result in Hcreate as ->.
    unfold dated_folders. cbn [fst snd].
    set (root := join folder_path (Time.strftime_Ymd (datetime_today (world st)))).
    set (data := join root "Data"). set (docs := join root "Documents").
    destruct (issues_move_files_other folder_path data docs (join root "xjmtr.txt") st1)
      as (evs2 & Ht2 & He2).
    destruct (move_files folder_path data docs (join root "xjmtr.txt") st1)
      as [[[]|e] st2]; simpl in *.
    + exists (evs1 ++ evs2 ++ [EPrint (completion_message root)]). split_and!.
      * unfold print, logged. simpl. by rewrite Ht2, Ht1, <-!app_assoc.
      * intros _. by rewrite !app_assoc, last_snoc.
      * done.
    + exists (evs1 ++ evs2). split_and!.
      * by rewrite Ht2, Ht1, <-!app_assoc.
      * done.
      * intros _ _. by apply Forall_app.
Qed.

End EntryPointFacts.

Section FolderSamples.
Import Py PosixPath Run.

Lemma desk_makedirs_creates : makedirs_creates (W := Desk.desk).
Proof.
  intros p w w' [= <-]. simpl. split.
  - apply bool_decide_eq_true. apply elem_of_union_r, elem_of_union_l. by apply elem_of_singleton.
  - intros q Hq%bool_decide_eq_true. apply bool_decide_eq_true.
    apply elem_of_union in Hq as [Hq|Hq].
    + by apply elem_of_union_l.
    + by apply elem_of_union_r, elem_of_union_r.
Qed.

Lemma desk_makedirs_same_day : makedirs_same_day (W := Desk.desk).
Proof. by intros p w w' [= <-]. Qed.



Lemma ensure_folder_exists_idempotent_witness :
  ensure_folder_exists "inbox/20240307"
    (ensure_folder_exists "inbox/20240307" (Desk.session "inbox" [])).2
  = (Ok (), (ensure_folder_exists "inbox/20240307" (Desk.session "inbox" [])).2).
Proof.
  refine (proj2 (proj2 (ensure_folder_exists_idempotent "inbox/20240307"
                          (Desk.session "inbox" []) _ desk_makedirs_creates _))).
  by vm_compute.
Defined.

Lemma create_folder_structure_idempotent_witness :
  create_folder_structure "inbox"
    (create_folder_structure "inbox" (Desk.session "inbox" ["500_cover.xlsx"])).2
  = (Ok ("inbox/20240307", "inbox/20240307/Data", "inbox/20240307/Documents"),
     (create_folder_structure "inbox" (Desk.session "inbox" ["500_cover.xlsx"])).2).
Proof.
  refine (proj2 (proj2 (proj2 (create_folder_structure_idempotent "inbox"
            (Desk.session "inbox" ["500_cover.xlsx"]) _
            ("inbox/20240307", "inbox/20240307/Data", "inbox/20240307/Documents")
            desk_makedirs_creates desk_makedirs_same_day _)))).
  by vm_compute.
Defined.

(** A whole session: the folders are made, the judgment is tagged, the files
    are moved, the completion message is printed. *)
Example session_run :
  select_and_process_folder
    (Desk.session "inbox" ["500_judgment.pdf"; "500_cover.xlsx"; "readme.txt"])
  = (Ok (),
     State
       (Desk.Desk
          (Fake.Fake
             ["500_judgment.pdf"; "500_cover.xlsx"; "readme.txt"]
             (list_to_set ["inbox/20240307/xjmtr.txt"; "inbox/readme.txt";
                           "inbox/20240307/Documents/judgment/500 judgment.pdf";
                           "inbox/20240307/Data/500/500_cover.xlsx"])
             (list_to_set ["inbox/20240307"; "inbox/20240307/Data";
                           "inbox/20240307/Documents";
                           "inbox/20240307/Documents/judgment";
                           "inbox/20240307/Data/500"])
             Fake.no_workbook [])
          (Date 2024 3 7) "inbox")
       [EMakedirs "inbox/20240307"; EMakedirs "inbox/20240307/Data";
        EMakedirs "inbox/20240307/Documents";
        EOpenW "inbox/20240307/xjmtr.txt";
        EWrite "inbox/20240307/xjmtr.txt" xjmtr_header;
        EListdir "inbox";
        EWrite "inbox/20240307/xjmtr.txt" (xjmtr_line "500");
        EPrint (xjmtr_message "500");
        EListdir "inbox";
        EMakedirs "inbox/20240307/Documents/judgment";
        EMove "inbox/500_judgment.pdf" "inbox/20240307/Documents/judgment/500 judgment.pdf";
        EMakedirs "inbox/20240307/Data/500";
        EMove "inbox/500_cover.xlsx" "inbox/20240307/Data/500/500_cover.xlsx";
        EPrint (completion_message "inbox/20240307")]).
Proof. by vm_compute. Qed.

End FolderSamples.
